(** * smk-api: batch switch and batch-switch edit controllers

    A shallow embedding of [src/controllers/batchHistoryController.js]
    ([switchBatch] and [editBatchSwitch]) together with the part of the
    Prisma data model those two handlers read and write.

    Modelling conventions.
    - The database is a record of five tables.  [Student] and [Batch] are
      only ever read and written through their primary key
      ([findUnique]/[update]), so they are finite maps keyed by id.  [Fee],
      [Payment] and [BatchHistory] are lists in insertion order, because the
      handlers use [findFirst] and [updateMany] on them; a [findFirst]
      without [orderBy] returns the first matching row of the list.
    - Money amounts are JavaScript numbers in the source; they are modelled
      as integers ([Z]).
    - Values produced by the environment during a call ([crypto.randomUUID()],
      the primary keys and [createdAt] default chosen by the database) are
      passed in as a [Generated] record.  A [create] whose primary key is
      already present fails like a unique-constraint violation, so a
      successful call always used fresh keys.
    - A Prisma interactive transaction is a state-and-error computation
      [Tx A]; an exception inside it discards every write.
    - The post-commit collaborators ([addCommunicationLogEntry],
      [clearRedisCache]) do not touch the five tables.  Their calls are
      awaited, so an exception of one of them is thrown into the handler
      after the transaction has committed; that exception, if there is one,
      is part of [Generated] too. *)

From Stdlib Require Import ZArith String List Lia Bool.
From stdpp Require Import base option list gmap strings fin_maps.

Local Open Scope Z_scope.

(** ** Data model *)

Inductive FeeStatus := PENDING | ACTIVE | PAID | INACTIVE | CANCELLED.

Inductive FeeManageMode := TRANSFER | NEW_FEE | SPLIT.

Definition FeeStatus_eqb (a b : FeeStatus) : bool :=
  match a, b with
  | PENDING, PENDING | ACTIVE, ACTIVE | PAID, PAID
  | INACTIVE, INACTIVE | CANCELLED, CANCELLED => true
  | _, _ => false
  end.

Record Student := {
  student_id : string;
  student_name : string;
  currentBatchId : string
}.

Record Course := { baseFee : Z }.

Record Batch := {
  batch_id : string;
  batch_name : string;
  slotLimit : Z;
  currentCount : Z;
  course : Course
}.

Record Fee := {
  fee_id : string;
  fee_studentId : string;
  fee_batchId : string;
  totalCourseFee : Z;
  finalFee : Z;
  balanceAmount : Z;
  advanceAmount : option Z;
  fee_status : FeeStatus;
  fee_transferId : option string
}.

Record Payment := {
  payment_id : string;
  payment_studentId : string;
  payment_feeId : string;
  amount : Z;
  payment_status : string
}.

Record BatchHistory := {
  bh_id : string;
  bh_studentId : string;
  fromBatchId : string;
  toBatchId : string;
  changeDate : string;
  reason : string;
  transferId : string;
  feeIdFrom : string;
  feeIdTo : string;
  feeManageMode : FeeManageMode;
  createdAt : Z
}.

Record DB := {
  students : gmap string Student;
  batches : gmap string Batch;
  fees : list Fee;
  payments : list Payment;
  batchHistories : list BatchHistory
}.

(** Field updates ([data: { ... }] of a Prisma [update]). *)

Definition set_currentBatchId (b : string) (s : Student) : Student :=
  {| student_id := student_id s; student_name := student_name s;
     currentBatchId := b |}.

Definition set_currentCount (c : Z) (b : Batch) : Batch :=
  {| batch_id := batch_id b; batch_name := batch_name b;
     slotLimit := slotLimit b; currentCount := c; course := course b |}.

(** [currentCount: { increment: 1 }] and [currentCount: { decrement: 1 }]. *)
Definition increment (b : Batch) : Batch := set_currentCount (currentCount b + 1) b.
Definition decrement (b : Batch) : Batch := set_currentCount (currentCount b - 1) b.

Definition set_fee_status (st : FeeStatus) (f : Fee) : Fee :=
  {| fee_id := fee_id f; fee_studentId := fee_studentId f;
     fee_batchId := fee_batchId f; totalCourseFee := totalCourseFee f;
     finalFee := finalFee f; balanceAmount := balanceAmount f;
     advanceAmount := advanceAmount f; fee_status := st;
     fee_transferId := fee_transferId f |}.

Definition set_fee_status_transferId (st : FeeStatus) (t : string) (f : Fee) : Fee :=
  {| fee_id := fee_id f; fee_studentId := fee_studentId f;
     fee_batchId := fee_batchId f; totalCourseFee := totalCourseFee f;
     finalFee := finalFee f; balanceAmount := balanceAmount f;
     advanceAmount := advanceAmount f; fee_status := st;
     fee_transferId := Some t |}.

Definition set_payment_feeId (fid : string) (p : Payment) : Payment :=
  {| payment_id := payment_id p; payment_studentId := payment_studentId p;
     payment_feeId := fid; amount := amount p;
     payment_status := payment_status p |}.

Definition with_students (m : gmap string Student) (db : DB) : DB :=
  {| students := m; batches := batches db; fees := fees db;
     payments := payments db; batchHistories := batchHistories db |}.

Definition with_batches (m : gmap string Batch) (db : DB) : DB :=
  {| students := students db; batches := m; fees := fees db;
     payments := payments db; batchHistories := batchHistories db |}.

Definition with_fees (l : list Fee) (db : DB) : DB :=
  {| students := students db; batches := batches db; fees := l;
     payments := payments db; batchHistories := batchHistories db |}.

Definition with_payments (l : list Payment) (db : DB) : DB :=
  {| students := students db; batches := batches db; fees := fees db;
     payments := l; batchHistories := batchHistories db |}.

Definition with_batchHistories (l : list BatchHistory) (db : DB) : DB :=
  {| students := students db; batches := batches db; fees := fees db;
     payments := payments db; batchHistories := l |}.

(** ** Transactions: a state-and-error monad over the database *)

Inductive PrismaError :=
| RecordNotFound (model : string)
| UniqueConstraintFailed (model : string)
| JsError (msg : string).

Definition Tx (A : Type) : Type := DB -> PrismaError + (A * DB).

Definition ret {A} (a : A) : Tx A := fun db => inr (a, db).

Definition throw {A} (e : PrismaError) : Tx A := fun _ => inl e.

Definition bind {A B} (m : Tx A) (k : A -> Tx B) : Tx B :=
  fun db => match m db with
            | inl e => inl e
            | inr (a, db1) => k a db1
            end.

Notation "'await' x <- m ; k" := (bind m (fun x => k))
  (at level 10, x name, m at level 100, k at level 200,
   format "'[v' 'await'  x  <-  m ; '/' k ']'").

(** A read inside a transaction. *)
Definition query {A} (q : DB -> A) : Tx A := fun db => inr (q db, db).

(** A row update applied to every row selected by [sel]. *)
Definition updateWhere {A} (sel : A -> bool) (f : A -> A) (l : list A) : list A :=
  List.map (fun x => if sel x then f x else x) l.

(** *** student *)

Definition student_findUnique (id : string) (db : DB) : option Student :=
  students db !! id.

Definition student_update (id : string) (f : Student -> Student) : Tx Student :=
  fun db => match students db !! id with
            | None => inl (RecordNotFound "Student")
            | Some s => inr (f s, with_students (alter f id (students db)) db)
            end.

(** *** batch ([include: { course: true }] is the embedded [course]) *)

Definition batch_findUnique (id : string) (db : DB) : option Batch :=
  batches db !! id.

Definition batch_update (id : string) (f : Batch -> Batch) : Tx Batch :=
  fun db => match batches db !! id with
            | None => inl (RecordNotFound "Batch")
            | Some b => inr (f b, with_batches (alter f id (batches db)) db)
            end.

(** *** fee *)

Definition has_fee_id (id : string) (f : Fee) : bool := String.eqb (fee_id f) id.

Definition fee_findFirst (sel : Fee -> bool) (db : DB) : option Fee :=
  List.find sel (fees db).

Definition fee_create (data : Fee) : Tx Fee :=
  fun db => if List.existsb (has_fee_id (fee_id data)) (fees db)
            then inl (UniqueConstraintFailed "Fee")
            else inr (data, with_fees (fees db ++ [data]) db).

Definition fee_update (id : string) (f : Fee -> Fee) : Tx Fee :=
  fun db => match List.find (has_fee_id id) (fees db) with
            | None => inl (RecordNotFound "Fee")
            | Some r => inr (f r, with_fees (updateWhere (has_fee_id id) f (fees db)) db)
            end.

Definition fee_delete (id : string) : Tx Fee :=
  fun db => match List.find (has_fee_id id) (fees db) with
            | None => inl (RecordNotFound "Fee")
            | Some r => inr (r, with_fees (List.filter (fun x => negb (has_fee_id id x)) (fees db)) db)
            end.

(** *** payment *)

(** [include: { payments: true }] on a fee: the payments whose [feeId] is
    that fee. *)
Definition fee_payments (f : Fee) (db : DB) : list Payment :=
  List.filter (fun p => String.eqb (payment_feeId p) (fee_id f)) (payments db).

(** [fee.findFirst({ where, include: { payments: true } })] *)
Definition fee_findFirst_include_payments (sel : Fee -> bool) (db : DB)
    : option (Fee * list Payment) :=
  match fee_findFirst sel db with
  | None => None
  | Some f => Some (f, fee_payments f db)
  end.

Definition payment_updateMany (sel : Payment -> bool) (f : Payment -> Payment) : Tx unit :=
  fun db => inr (tt, with_payments (updateWhere sel f (payments db)) db).

(** [NOT: { status: { in: ["CANCELLED", "INACTIVE"] } }] *)
Definition not_cancelled_or_inactive (p : Payment) : bool :=
  negb (String.eqb (payment_status p) "CANCELLED"
        || String.eqb (payment_status p) "INACTIVE").

(** *** batchHistory *)

Definition has_bh_id (id : string) (h : BatchHistory) : bool := String.eqb (bh_id h) id.

Definition batchHistory_create (data : BatchHistory) : Tx BatchHistory :=
  fun db => if List.existsb (has_bh_id (bh_id data)) (batchHistories db)
            then inl (UniqueConstraintFailed "BatchHistory")
            else inr (data, with_batchHistories (batchHistories db ++ [data]) db).

Definition batchHistory_delete (id : string) : Tx BatchHistory :=
  fun db => match List.find (has_bh_id id) (batchHistories db) with
            | None => inl (RecordNotFound "BatchHistory")
            | Some r => inr (r, with_batchHistories
                                  (List.filter (fun x => negb (has_bh_id id x)) (batchHistories db)) db)
            end.

(** [orderBy: { createdAt: "desc" }] followed by taking the first row: the
    row with the greatest [createdAt]; among rows with equal [createdAt] the
    earlier row of the table is kept (a stable sort). *)
Definition newer (best : option BatchHistory) (h : BatchHistory) : option BatchHistory :=
  match best with
  | None => Some h
  | Some b => if createdAt b <? createdAt h then Some h else Some b
  end.

Definition batchHistory_findFirst_latest (studentId : string) (db : DB) : option BatchHistory :=
  fold_left newer
    (List.filter (fun h => String.eqb (bh_studentId h) studentId) (batchHistories db)) None.

(** ** Requests, generated values and responses *)

(** [req.body] of [POST /switch-batch]. *)
Record SwitchRequest := {
  sw_studentId : string;
  sw_fromBatchId : string;
  sw_toBatchId : string;
  sw_changeDate : string;
  sw_reason : string;
  sw_feeAction : string
}.

(** [req.body] of [PUT /edit-batch-switch]. *)
Record EditRequest := {
  ed_studentId : string;
  ed_batchHistoryId : string;
  ed_newToBatchId : string;
  ed_newFeeAction : string;
  ed_changeDate : string;
  ed_reason : string
}.

(** What the environment generates during one call: the result of
    [crypto.randomUUID()], the primary keys the database gives to the fee and
    the history row it creates, the [createdAt] default of the history row,
    and the exception, if any, that one of the awaited collaborator calls
    after the commit throws. *)
Record Generated := {
  gen_transferId : string;
  gen_feeId : string;
  gen_historyId : string;
  gen_now : Z;
  gen_postCommit : option PrismaError
}.

(** A value returned by a Prisma write: the row of one of the models. *)
Inductive JsRow :=
| RowStudent (s : Student)
| RowBatch (b : Batch)
| RowFee (f : Fee)
| RowHistory (h : BatchHistory).

(** The [data] argument of [sendResponse].  [PayloadSwitch] is the object
    literal [{ batchHistory, oldFee, newFee, transferId }]; a key that is not
    in the literal, or whose variable is [undefined], is [None]. *)
Inductive Payload :=
| PayloadNull
| PayloadSwitch (batchHistory : option JsRow) (oldFee newFee : option Fee)
                (transferId : string)
| PayloadError (error : PrismaError).

Record Response := {
  statusCode : Z;
  success : bool;
  message : string;
  data : Payload
}.

(** Modelled from the spec: [sendResponse] of [src/utils/responseHandler.js],
    which is not among the sources.  The spec's response shape is a status
    flag, a human-readable message and a payload, sent with the given HTTP
    status code. *)
Definition sendResponse (code : Z) (ok : bool) (msg : string) (d : Payload) : Response :=
  {| statusCode := code; success := ok; message := msg; data := d |}.

(** Modelled from the spec: [TryCatch] of [src/utils/TryCatch.js], which is
    not among the sources.  An exception that escapes the handler is
    surfaced as a server error (500); the database is as the handler left
    it: unchanged when the exception came out of a transaction, which has
    rolled back, and committed when it came from a call after the commit. *)
Definition TryCatch (e : PrismaError) (db : DB) : Response * DB :=
  (sendResponse 500 false "Internal Server Error" (PayloadError e), db).

(** Modelled from the spec: the calls after the commit,
    [await addCommunicationLogEntry(...)] of
    [src/controllers/communicationLogController.js] and the three
    [await clearRedisCache(...)] of [src/utils/redisCache.js], neither of
    which is among the sources.  They receive an audit entry and key
    patterns and write none of the five tables; being awaited, they either
    all return or one of them throws. *)
Definition post_commit (g : Generated) : PrismaError + unit :=
  match gen_postCommit g with
  | Some e => inl e
  | None => inr tt
  end.

(** [prisma.$transaction]: commit on success, roll back on an exception. *)
Definition transaction {A} (body : Tx A) (db : DB) : PrismaError + (A * DB) :=
  body db.

(** [x || 0] on a number: [0] when [x] is [0] (or [NaN]), else [x]. *)
Definition or_zero (x : Z) : Z := if x =? 0 then 0 else x.

(** [payments.reduce((sum, p) => sum + p.amount, 0) || 0] *)
Definition sumAmounts (ps : list Payment) : Z :=
  or_zero (fold_left (fun sum p => sum + amount p) ps 0).

(** The sum of a list of amounts. *)
Definition list_sum_Z (l : list Z) : Z := fold_right Z.add 0 l.

(** ** switchBatch *)

(** [prisma.fee.findFirst({ where: { studentId, status: "PENDING" } })] *)
Definition is_pending_fee_of (studentId : string) (f : Fee) : bool :=
  String.eqb (fee_studentId f) studentId && FeeStatus_eqb (fee_status f) PENDING.

Definition mkHistory (g : Generated) (studentId from to date why feeFrom feeTo : string)
    (mode : FeeManageMode) : BatchHistory :=
  {| bh_id := gen_historyId g; bh_studentId := studentId;
     fromBatchId := from; toBatchId := to;
     changeDate := date; reason := why;
     transferId := gen_transferId g;
     feeIdFrom := feeFrom; feeIdTo := feeTo;
     feeManageMode := mode; createdAt := gen_now g |}.

(** The array form of [$transaction] in the TRANSFER branch: four writes, in
    order, whose results come back as an array. *)
Definition switch_TRANSFER_tx (req : SwitchRequest) (g : Generated) (oldFee : Fee)
    : Tx (list JsRow) :=
  await h <- batchHistory_create
               (mkHistory g (sw_studentId req) (sw_fromBatchId req) (sw_toBatchId req)
                          (sw_changeDate req) (sw_reason req)
                          (fee_id oldFee) (fee_id oldFee) TRANSFER);
  await s <- student_update (sw_studentId req) (set_currentBatchId (sw_toBatchId req));
  await b1 <- batch_update (sw_fromBatchId req) decrement;
  await b2 <- batch_update (sw_toBatchId req) increment;
  ret [RowHistory h; RowStudent s; RowBatch b1; RowBatch b2].

(** The [data] of the [tx.fee.create] of the NEW_FEE branch. *)
Definition switch_NEW_FEE_data (req : SwitchRequest) (g : Generated)
    (toBatch : Batch) (oldFee : Fee) (totalPaidOld : Z) : Fee :=
  let newFeeAmount := Z.max (baseFee (course toBatch) - totalPaidOld) 0 in
  {| fee_id := gen_feeId g;
     fee_studentId := sw_studentId req;
     fee_batchId := sw_toBatchId req;
     totalCourseFee := baseFee (course toBatch);
     finalFee := baseFee (course toBatch);
     balanceAmount := newFeeAmount;
     advanceAmount := advanceAmount oldFee;
     fee_status := PENDING;
     fee_transferId := None |}.

(** The [where] of the [tx.payment.updateMany] of the NEW_FEE branch. *)
Definition switch_NEW_FEE_moved (req : SwitchRequest) (oldFee : Fee) (p : Payment) : bool :=
  String.eqb (payment_studentId p) (sw_studentId req)
  && String.eqb (payment_feeId p) (fee_id oldFee)
  && not_cancelled_or_inactive p.

Definition switch_NEW_FEE_tx (req : SwitchRequest) (g : Generated)
    (toBatch : Batch) (oldFee : Fee) (totalPaidOld : Z)
    : Tx (Fee * Fee * BatchHistory) :=
  await newFee <- fee_create (switch_NEW_FEE_data req g toBatch oldFee totalPaidOld);
  await batchHistory <- batchHistory_create
      (mkHistory g (sw_studentId req) (sw_fromBatchId req) (sw_toBatchId req)
                 (sw_changeDate req) (sw_reason req)
                 (fee_id oldFee) (fee_id newFee) NEW_FEE);
  await _ <- payment_updateMany (switch_NEW_FEE_moved req oldFee)
                                (set_payment_feeId (fee_id newFee));
  await updatedOldFee <- fee_update (fee_id oldFee) (set_fee_status CANCELLED);
  await _ <- student_update (sw_studentId req) (set_currentBatchId (sw_toBatchId req));
  await _ <- batch_update (sw_fromBatchId req) decrement;
  await _ <- batch_update (sw_toBatchId req) increment;
  ret (newFee, updatedOldFee, batchHistory).

(** The [data] of the [tx.fee.create] of the SPLIT branch ([advanceAmount]
    is not given and keeps its null default). *)
Definition switch_SPLIT_data (req : SwitchRequest) (g : Generated)
    (toBatch : Batch) (totalPaidOld : Z) : Fee :=
  let adjustedFee := Z.max (baseFee (course toBatch) - totalPaidOld) 0 in
  {| fee_id := gen_feeId g;
     fee_studentId := sw_studentId req;
     fee_batchId := sw_toBatchId req;
     totalCourseFee := baseFee (course toBatch);
     finalFee := adjustedFee;
     balanceAmount := adjustedFee;
     advanceAmount := None;
     fee_status := PENDING;
     fee_transferId := Some (gen_transferId g) |}.

(** [isPaid ? "PAID" : "INACTIVE"] *)
Definition closed_status (old : Fee) (totalPaid : Z) : FeeStatus :=
  let isPaid := (balanceAmount old =? 0) || (totalPaid >=? finalFee old) in
  if isPaid then PAID else INACTIVE.

Definition switch_SPLIT_tx (req : SwitchRequest) (g : Generated)
    (toBatch : Batch) (oldFee : Fee) (totalPaidOld : Z)
    : Tx (Fee * Fee * BatchHistory) :=
  await newFee <- fee_create (switch_SPLIT_data req g toBatch totalPaidOld);
  await updatedOldFee <- fee_update (fee_id oldFee)
      (set_fee_status_transferId (closed_status oldFee totalPaidOld) (gen_transferId g));
  await batchHistory <- batchHistory_create
      (mkHistory g (sw_studentId req) (sw_fromBatchId req) (sw_toBatchId req)
                 (sw_changeDate req) (sw_reason req)
                 (fee_id oldFee) (fee_id newFee) SPLIT);
  await _ <- student_update (sw_studentId req) (set_currentBatchId (sw_toBatchId req));
  await _ <- batch_update (sw_fromBatchId req) decrement;
  await _ <- batch_update (sw_toBatchId req) increment;
  ret (newFee, updatedOldFee, batchHistory).

(** The handler.  [fromBatch] is read only for the text of the
    communication log (it is not null once the transaction, which updates
    that batch, has committed), and the student, the target batch and the
    fee are read before the transaction starts.  The calls after the commit
    stand before the [return]; in the NEW_FEE and SPLIT branches they are
    inside the [try], so their exception is answered by the [catch]. *)
Definition switchBatch (req : SwitchRequest) (g : Generated) (db : DB) : Response * DB :=
  match student_findUnique (sw_studentId req) db with
  | None => (sendResponse 404 false "Student not found" PayloadNull, db)
  | Some student =>
  if negb (String.eqb (currentBatchId student) (sw_fromBatchId req))
  then (sendResponse 400 false "Current batch mismatch" PayloadNull, db)
  else
  match batch_findUnique (sw_toBatchId req) db with
  | None => (sendResponse 404 false "Target batch not found" PayloadNull, db)
  | Some toBatch =>
  if currentCount toBatch >=? slotLimit toBatch
  then (sendResponse 400 false "Target batch is full" PayloadNull, db)
  else
  match fee_findFirst_include_payments (is_pending_fee_of (sw_studentId req)) db with
  | None => (sendResponse 404 false "Old fee record not found" PayloadNull, db)
  | Some (oldFee, oldFee_payments) =>
  let totalPaidOld := sumAmounts oldFee_payments in
  let transferId := gen_transferId g in
  if String.eqb (sw_feeAction req) "TRANSFER" then
    match transaction (switch_TRANSFER_tx req g oldFee) db with
    | inl e => TryCatch e db
    | inr (results, db') =>
        (* const [updatedFee, batchHistory] = results *)
        let batchHistory := nth_error results 1 in
        match post_commit g with
        | inl e => TryCatch e db'
        | inr _ =>
            (sendResponse 200 true "Batch switched successfully"
               (PayloadSwitch batchHistory None None transferId), db')
        end
    end
  else if String.eqb (sw_feeAction req) "NEW_FEE" then
    match transaction (switch_NEW_FEE_tx req g toBatch oldFee totalPaidOld) db with
    | inl e => (sendResponse 500 false "Failed to switch batch" (PayloadError e), db)
    | inr ((newFee, updatedOldFee, batchHistory), db') =>
        match post_commit g with
        | inl e => (sendResponse 500 false "Failed to switch batch" (PayloadError e), db')
        | inr _ =>
            (sendResponse 200 true "Batch switched successfully"
               (PayloadSwitch (Some (RowHistory batchHistory))
                              (Some updatedOldFee) (Some newFee) transferId), db')
        end
    end
  else if String.eqb (sw_feeAction req) "SPLIT" then
    if totalPaidOld >? baseFee (course toBatch) then
      (sendResponse 400 false
         "Student has paid more than the new batch fee. Please create a new admission."
         PayloadNull, db)
    else
    match transaction (switch_SPLIT_tx req g toBatch oldFee totalPaidOld) db with
    | inl e => (sendResponse 500 false "Failed to switch batch (SPLIT mode)"
                  (PayloadError e), db)
    | inr ((newFee, updatedOldFee, batchHistory), db') =>
        match post_commit g with
        | inl e => (sendResponse 500 false "Failed to switch batch (SPLIT mode)"
                      (PayloadError e), db')
        | inr _ =>
            (sendResponse 200 true "Batch switched (SPLIT mode)"
               (PayloadSwitch (Some (RowHistory batchHistory))
                              (Some updatedOldFee) (Some newFee) transferId), db')
        end
    end
  else (sendResponse 400 false "Invalid feeAction provided" PayloadNull, db)
  end end end.

(** ** editBatchSwitch *)

(** [status: { in: ["ACTIVE", "PENDING"] }] for the student's fee. *)
Definition is_open_fee_of (studentId : string) (f : Fee) : bool :=
  String.eqb (fee_studentId f) studentId
  && (FeeStatus_eqb (fee_status f) ACTIVE || FeeStatus_eqb (fee_status f) PENDING).

(** STEP 1 of the transaction: reverse the previous switch.  It ends with the
    re-read of the student ([currentStudent]). *)
Definition edit_reverse_tx (req : EditRequest) (latestHistory : BatchHistory)
    : Tx (option Student) :=
  let oldFromBatchId := fromBatchId latestHistory in
  let oldToBatchId := toBatchId latestHistory in
  let oldFeeFrom := feeIdFrom latestHistory in
  let oldFeeTo := feeIdTo latestHistory in
  await _ <- student_update (ed_studentId req) (set_currentBatchId oldFromBatchId);
  await _ <- batch_update oldFromBatchId increment;
  await _ <- batch_update oldToBatchId decrement;
  await _ <- (if negb (String.eqb oldFeeFrom oldFeeTo) then
                await _ <- payment_updateMany
                    (fun p => String.eqb (payment_feeId p) oldFeeTo
                              && not_cancelled_or_inactive p)
                    (set_payment_feeId oldFeeFrom);
                await _ <- fee_delete oldFeeTo;
                await _ <- fee_update oldFeeFrom (set_fee_status PENDING);
                ret tt
              else ret tt);
  await _ <- batchHistory_delete (ed_batchHistoryId req);
  query (student_findUnique (ed_studentId req)).

(** The [data] of the [tx.fee.create] of STEP 2, NEW_FEE ([advanceAmount]
    and [transferId] are not given and keep their null defaults). *)
Definition edit_NEW_FEE_data (req : EditRequest) (g : Generated)
    (toBatch : Batch) (totalPaid : Z) : Fee :=
  {| fee_id := gen_feeId g;
     fee_studentId := ed_studentId req;
     fee_batchId := ed_newToBatchId req;
     totalCourseFee := baseFee (course toBatch);
     finalFee := baseFee (course toBatch);
     balanceAmount := Z.max (baseFee (course toBatch) - totalPaid) 0;
     advanceAmount := None;
     fee_status := PENDING;
     fee_transferId := None |}.

(** The [data] of the [tx.fee.create] of STEP 2, SPLIT. *)
Definition edit_SPLIT_data (req : EditRequest) (g : Generated)
    (toBatch : Batch) (totalPaid : Z) : Fee :=
  let adjusted := Z.max (baseFee (course toBatch) - totalPaid) 0 in
  {| fee_id := gen_feeId g;
     fee_studentId := ed_studentId req;
     fee_batchId := ed_newToBatchId req;
     totalCourseFee := baseFee (course toBatch);
     finalFee := adjusted;
     balanceAmount := adjusted;
     advanceAmount := None;
     fee_status := PENDING;
     fee_transferId := None |}.

(** STEP 2 of the transaction: apply the new switch.  Every path through it
    reads [currentStudent.currentBatchId]; on a null [currentStudent] that
    read throws, and the exception rolls the transaction back like any
    other. *)
Definition edit_apply_tx (req : EditRequest) (g : Generated) (toBatch : Batch)
    (currentStudent : option Student) : Tx unit :=
  await activeFee <- query (fee_findFirst_include_payments
                              (is_open_fee_of (ed_studentId req)));
  match activeFee with
  | None => throw (JsError "Active fee missing")
  | Some (activeFee, activeFee_payments) =>
  match currentStudent with
  | None => throw (JsError "TypeError: Cannot read properties of null")
  | Some currentStudent =>
  let totalPaid := sumAmounts activeFee_payments in
  await _ <- (if String.eqb (ed_newFeeAction req) "TRANSFER" then
                await _ <- batchHistory_create
                    (mkHistory g (ed_studentId req) (currentBatchId currentStudent)
                               (ed_newToBatchId req) (ed_changeDate req) (ed_reason req)
                               (fee_id activeFee) (fee_id activeFee) TRANSFER);
                ret tt
              else ret tt);
  await _ <- (if String.eqb (ed_newFeeAction req) "NEW_FEE" then
                await newFee <- fee_create (edit_NEW_FEE_data req g toBatch totalPaid);
                await _ <- payment_updateMany
                    (fun p => String.eqb (payment_feeId p) (fee_id activeFee))
                    (set_payment_feeId (fee_id newFee));
                await _ <- fee_update (fee_id activeFee) (set_fee_status CANCELLED);
                await _ <- batchHistory_create
                    (mkHistory g (ed_studentId req) (currentBatchId currentStudent)
                               (ed_newToBatchId req) (ed_changeDate req) (ed_reason req)
                               (fee_id activeFee) (fee_id newFee) NEW_FEE);
                ret tt
              else ret tt);
  await _ <- (if String.eqb (ed_newFeeAction req) "SPLIT" then
                await newFee <- fee_create (edit_SPLIT_data req g toBatch totalPaid);
                await _ <- fee_update (fee_id activeFee)
                    (set_fee_status (closed_status activeFee totalPaid));
                await _ <- batchHistory_create
                    (mkHistory g (ed_studentId req) (currentBatchId currentStudent)
                               (ed_newToBatchId req) (ed_changeDate req) (ed_reason req)
                               (fee_id activeFee) (fee_id newFee) SPLIT);
                ret tt
              else ret tt);
  await _ <- student_update (ed_studentId req) (set_currentBatchId (ed_newToBatchId req));
  await _ <- batch_update (currentBatchId currentStudent) decrement;
  await _ <- batch_update (ed_newToBatchId req) increment;
  ret tt
  end end.

Definition edit_tx (req : EditRequest) (g : Generated) (latestHistory : BatchHistory)
    (toBatch : Batch) : Tx unit :=
  await currentStudent <- edit_reverse_tx req latestHistory;
  edit_apply_tx req g toBatch currentStudent.

(** [!latestHistory || latestHistory.id !== batchHistoryId] *)
Definition not_latest (latestHistory : option BatchHistory) (batchHistoryId : string) : bool :=
  match latestHistory with
  | None => true
  | Some h => negb (String.eqb (bh_id h) batchHistoryId)
  end.

Definition editBatchSwitch (req : EditRequest) (g : Generated) (db : DB) : Response * DB :=
  let latestHistory := batchHistory_findFirst_latest (ed_studentId req) db in
  if not_latest latestHistory (ed_batchHistoryId req)
  then (sendResponse 400 false "Only latest switch can be edited" PayloadNull, db)
  else
  match latestHistory with
  | None => (* not reached: [not_latest None _] is [true] *)
      (sendResponse 400 false "Only latest switch can be edited" PayloadNull, db)
  | Some latestHistory =>
  match batch_findUnique (ed_newToBatchId req) db with
  | None => (sendResponse 404 false "Target batch not found" PayloadNull, db)
  | Some toBatch =>
  if currentCount toBatch >=? slotLimit toBatch
  then (sendResponse 400 false "Target batch is full" PayloadNull, db)
  else
  match transaction (edit_tx req g latestHistory toBatch) db with
  | inl e => TryCatch e db
  | inr (_, db') =>
      (* the awaited calls after the commit are outside any try *)
      match post_commit g with
      | inl e => TryCatch e db'
      | inr _ =>
          (sendResponse 200 true "Batch switch edited successfully" PayloadNull, db')
      end
  end end end.

(** ** Specification-side definitions *)

(** The validations [switchBatch] makes before it writes anything. *)
Definition switch_validated (req : SwitchRequest) (db : DB)
    (student : Student) (toBatch : Batch) (oldFee : Fee) : Prop :=
  students db !! sw_studentId req = Some student /\
  currentBatchId student = sw_fromBatchId req /\
  batches db !! sw_toBatchId req = Some toBatch /\
  currentCount toBatch < slotLimit toBatch /\
  fee_findFirst (is_pending_fee_of (sw_studentId req)) db = Some oldFee.

(** What a successful run did to the fee, payment and history tables and
    what it answered, by fee action. *)
Definition switch_outcome (req : SwitchRequest) (g : Generated) (db : DB)
    (student : Student) (toBatch : Batch) (oldFee : Fee) (r : Response) (db' : DB) : Prop :=
  let tp := sumAmounts (fee_payments oldFee db) in
  let hist mode feeTo :=
    mkHistory g (sw_studentId req) (sw_fromBatchId req) (sw_toBatchId req)
              (sw_changeDate req) (sw_reason req) (fee_id oldFee) feeTo mode in
  (sw_feeAction req = "TRANSFER"%string /\
   fees db' = fees db /\ payments db' = payments db /\
   batchHistories db' = batchHistories db ++ [hist TRANSFER (fee_id oldFee)] /\
   data r = PayloadSwitch
              (Some (RowStudent (set_currentBatchId (sw_toBatchId req) student)))
              None None (gen_transferId g))
  \/
  (sw_feeAction req = "NEW_FEE"%string /\
   let created := switch_NEW_FEE_data req g toBatch oldFee tp in
   List.existsb (has_fee_id (gen_feeId g)) (fees db) = false /\
   fees db' = updateWhere (has_fee_id (fee_id oldFee)) (set_fee_status CANCELLED)
                (fees db ++ [created]) /\
   payments db' = updateWhere (switch_NEW_FEE_moved req oldFee)
                    (set_payment_feeId (gen_feeId g)) (payments db) /\
   batchHistories db' = batchHistories db ++ [hist NEW_FEE (gen_feeId g)] /\
   exists updatedOldFee,
     data r = PayloadSwitch (Some (RowHistory (hist NEW_FEE (gen_feeId g))))
                (Some updatedOldFee) (Some created) (gen_transferId g))
  \/
  (sw_feeAction req = "SPLIT"%string /\
   let created := switch_SPLIT_data req g toBatch tp in
   tp <= baseFee (course toBatch) /\
   List.existsb (has_fee_id (gen_feeId g)) (fees db) = false /\
   fees db' = updateWhere (has_fee_id (fee_id oldFee))
                (set_fee_status_transferId (closed_status oldFee tp) (gen_transferId g))
                (fees db ++ [created]) /\
   payments db' = payments db /\
   batchHistories db' = batchHistories db ++ [hist SPLIT (gen_feeId g)] /\
   exists updatedOldFee,
     data r = PayloadSwitch (Some (RowHistory (hist SPLIT (gen_feeId g))))
                (Some updatedOldFee) (Some created) (gen_transferId g)).


(** The sum of the amounts of the payments of fee [f] that satisfy [keep]. *)
Definition paid_where (keep : Payment -> bool) (f : Fee) (db : DB) : Z :=
  list_sum_Z (List.map amount (List.filter keep (fee_payments f db))).

(** ** A small database for the worked examples

    Student S1 sits in batch B1 (3 of 10 places taken, course fee 1000) and
    has one PENDING fee F1: final fee 900 after a discount, 500 still to
    pay, an advance of 100.  Two payments were recorded against F1: P1 of
    400, and P2 of 50 which was later cancelled.  Batch B2 has 2 of 10
    places taken and a course fee of 800; batch B3 has a course fee of 300. *)
Module Ex.

Definition S1 : Student :=
  {| student_id := "S1"; student_name := "Asha"; currentBatchId := "B1" |}.

Definition B1 : Batch :=
  {| batch_id := "B1"; batch_name := "Morning"; slotLimit := 10;
     currentCount := 3; course := {| baseFee := 1000 |} |}.

Definition B2 : Batch :=
  {| batch_id := "B2"; batch_name := "Evening"; slotLimit := 10;
     currentCount := 2; course := {| baseFee := 800 |} |}.

Definition B3 : Batch :=
  {| batch_id := "B3"; batch_name := "Weekend"; slotLimit := 10;
     currentCount := 0; course := {| baseFee := 300 |} |}.

Definition F1 : Fee :=
  {| fee_id := "F1"; fee_studentId := "S1"; fee_batchId := "B1";
     totalCourseFee := 1000; finalFee := 900; balanceAmount := 500;
     advanceAmount := Some 100; fee_status := PENDING; fee_transferId := None |}.

Definition P1 : Payment :=
  {| payment_id := "P1"; payment_studentId := "S1"; payment_feeId := "F1";
     amount := 400; payment_status := "PAID" |}.

Definition P2 : Payment :=
  {| payment_id := "P2"; payment_studentId := "S1"; payment_feeId := "F1";
     amount := 50; payment_status := "CANCELLED" |}.

Definition db0 : DB :=
  {| students := {[ "S1"%string := S1 ]};
     batches := <[ "B1"%string := B1 ]> (<[ "B2"%string := B2 ]> {[ "B3"%string := B3 ]});
     fees := [F1];
     payments := [P1; P2];
     batchHistories := [] |}.

(** The same database without the cancelled payment. *)
Definition db_clean : DB := with_payments [P1] db0.

Definition switch_req (to action : string) : SwitchRequest :=
  {| sw_studentId := "S1"; sw_fromBatchId := "B1"; sw_toBatchId := to;
     sw_changeDate := "2025-01-10"; sw_reason := "timing";
     sw_feeAction := action |}.

Definition edit_req (historyId to action : string) : EditRequest :=
  {| ed_studentId := "S1"; ed_batchHistoryId := historyId;
     ed_newToBatchId := to; ed_newFeeAction := action;
     ed_changeDate := "2025-01-12"; ed_reason := "correction" |}.

Definition gen1 : Generated :=
  {| gen_transferId := "T1"; gen_feeId := "F2"; gen_historyId := "H1"; gen_now := 100;
     gen_postCommit := None |}.

Definition gen2 : Generated :=
  {| gen_transferId := "T2"; gen_feeId := "F3"; gen_historyId := "H2"; gen_now := 200;
     gen_postCommit := None |}.

(** [db0] after S1 was moved to B2 by a TRANSFER switch (history row H1),
    and after a second TRANSFER switch on to B3 (history row H2). *)
Definition db1 : DB := snd (switchBatch (switch_req "B2" "TRANSFER") gen1 db0).

Definition H1 : BatchHistory :=
  mkHistory gen1 "S1" "B1" "B2" "2025-01-10" "timing" "F1" "F1" TRANSFER.

Definition second_switch : SwitchRequest :=
  {| sw_studentId := "S1"; sw_fromBatchId := "B2"; sw_toBatchId := "B3";
     sw_changeDate := "2025-01-11"; sw_reason := "timing";
     sw_feeAction := "TRANSFER" |}.

Definition db2 : DB := snd (switchBatch second_switch gen2 db1).

(** [db0] after S1 was moved to B2 by a NEW_FEE switch (history row H1, new
    fee F2). *)
Definition db1_new_fee : DB := snd (switchBatch (switch_req "B2" "NEW_FEE") gen1 db0).

Definition H1_new_fee : BatchHistory :=
  mkHistory gen1 "S1" "B1" "B2" "2025-01-10" "timing" "F1" "F2" NEW_FEE.

Definition gen3 : Generated :=
  {| gen_transferId := "T3"; gen_feeId := "F4"; gen_historyId := "H3"; gen_now := 300;
     gen_postCommit := None |}.

End Ex.

(** ** The claims as they are stated, and the predicates the theorems use *)

(** Occupancy after a switch, for every successful switch: target one up,
    source one down, both within [[0, slotLimit]] as they were before. *)
Definition switch_counts_claim : Prop :=
  forall req g db r db' fromBatch toBatch,
    switchBatch req g db = (r, db') ->
    success r = true ->
    batches db !! sw_fromBatchId req = Some fromBatch ->
    batches db !! sw_toBatchId req = Some toBatch ->
    0 <= currentCount fromBatch <= slotLimit fromBatch ->
    0 <= currentCount toBatch <= slotLimit toBatch ->
    exists fromBatch' toBatch',
      batches db' !! sw_fromBatchId req = Some fromBatch' /\
      batches db' !! sw_toBatchId req = Some toBatch' /\
      currentCount toBatch' = currentCount toBatch + 1 /\
      currentCount fromBatch' = currentCount fromBatch - 1 /\
      0 <= currentCount toBatch' <= slotLimit toBatch' /\
      0 <= currentCount fromBatch' <= slotLimit fromBatch'.

(** The value the handlers call [totalPaidOld] / [totalPaid] is the sum over
    the open fee's payments other than the CANCELLED and INACTIVE ones. *)
Definition totalPaid_claim : Prop :=
  forall sel db f ps,
    fee_findFirst_include_payments sel db = Some (f, ps) ->
    sumAmounts ps = paid_where not_cancelled_or_inactive f db.

(** [h] is a most recent history row of the student: no row of that
    student was created later. *)
Definition most_recent_history (db : DB) (studentId : string) (h : BatchHistory) : Prop :=
  In h (batchHistories db) /\ bh_studentId h = studentId /\
  forall h', In h' (batchHistories db) -> bh_studentId h' = studentId ->
             createdAt h' <= createdAt h.

(** The payload carries the history row [h] and the transfer id [tid]. *)
Definition payload_has (r : Response) (h : BatchHistory) (tid : string) : Prop :=
  exists o n, data r = PayloadSwitch (Some (RowHistory h)) o n tid.

(** Every successful answer of either handler carries the history row the
    call created and the transfer id it minted. *)
Definition response_payload_claim : Prop :=
  (forall req g db r db',
     switchBatch req g db = (r, db') -> success r = true ->
     exists h, batchHistories db' = batchHistories db ++ [h] /\
               payload_has r h (gen_transferId g)) /\
  (forall req g db r db',
     editBatchSwitch req g db = (r, db') -> success r = true ->
     exists h, In h (batchHistories db') /\ bh_id h = gen_historyId g /\
               payload_has r h (gen_transferId g)).

(** The fee and payment tables after STEP 1 of the edit has reversed the
    switch recorded by history row [h]. *)
Definition reversed_fees (h : BatchHistory) (db : DB) : list Fee :=
  if String.eqb (feeIdFrom h) (feeIdTo h) then fees db
  else updateWhere (has_fee_id (feeIdFrom h)) (set_fee_status PENDING)
         (List.filter (fun x => negb (has_fee_id (feeIdTo h) x)) (fees db)).

Definition reversed_payments (h : BatchHistory) (db : DB) : list Payment :=
  if String.eqb (feeIdFrom h) (feeIdTo h) then payments db
  else updateWhere (fun p => String.eqb (payment_feeId p) (feeIdTo h)
                             && not_cancelled_or_inactive p)
         (set_payment_feeId (feeIdFrom h)) (payments db).

(** What STEP 2 of the edit did to the fee, payment and history tables, by
    fee action; [db1] is the database after STEP 1. *)
Definition edit_apply_outcome (req : EditRequest) (g : Generated) (toBatch : Batch)
    (currentStudent : Student) (activeFee : Fee) (db1 db2 : DB) : Prop :=
  let tp := sumAmounts (fee_payments activeFee db1) in
  let hist mode feeTo :=
    mkHistory g (ed_studentId req) (currentBatchId currentStudent) (ed_newToBatchId req)
              (ed_changeDate req) (ed_reason req) (fee_id activeFee) feeTo mode in
  (ed_newFeeAction req = "TRANSFER"%string /\
   fees db2 = fees db1 /\ payments db2 = payments db1 /\
   batchHistories db2 = batchHistories db1 ++ [hist TRANSFER (fee_id activeFee)])
  \/
  (ed_newFeeAction req = "NEW_FEE"%string /\
   List.existsb (has_fee_id (gen_feeId g)) (fees db1) = false /\
   fees db2 = updateWhere (has_fee_id (fee_id activeFee)) (set_fee_status CANCELLED)
                (fees db1 ++ [edit_NEW_FEE_data req g toBatch tp]) /\
   payments db2 = updateWhere (fun p => String.eqb (payment_feeId p) (fee_id activeFee))
                    (set_payment_feeId (gen_feeId g)) (payments db1) /\
   batchHistories db2 = batchHistories db1 ++ [hist NEW_FEE (gen_feeId g)])
  \/
  (ed_newFeeAction req = "SPLIT"%string /\
   List.existsb (has_fee_id (gen_feeId g)) (fees db1) = false /\
   fees db2 = updateWhere (has_fee_id (fee_id activeFee))
                (set_fee_status (closed_status activeFee tp))
                (fees db1 ++ [edit_SPLIT_data req g toBatch tp]) /\
   payments db2 = payments db1 /\
   batchHistories db2 = batchHistories db1 ++ [hist SPLIT (gen_feeId g)])
  \/
  (ed_newFeeAction req <> "TRANSFER"%string /\
   ed_newFeeAction req <> "NEW_FEE"%string /\
   ed_newFeeAction req <> "SPLIT"%string /\
   fees db2 = fees db1 /\ payments db2 = payments db1 /\
   batchHistories db2 = batchHistories db1).

(** The student's open fee, as [switchBatch] looks it up. *)
Definition open_fee (studentId : string) (db : DB) : option Fee :=
  fee_findFirst (is_pending_fee_of studentId) db.

(** The edit that sends the switch [req] (history row [gen_historyId g])
    back to its source batch with the same fee action. *)
Definition edit_back (req : SwitchRequest) (g : Generated) (date why : string)
    : EditRequest :=
  {| ed_studentId := sw_studentId req;
     ed_batchHistoryId := gen_historyId g;
     ed_newToBatchId := sw_fromBatchId req;
     ed_newFeeAction := sw_feeAction req;
     ed_changeDate := date;
     ed_reason := why |}.

(** A successful switch followed by a successful edit back restores the
    student's batch, both counters, and the open fee's status and balance. *)
Definition round_trip_claim : Prop :=
  forall req g db r1 db1 date why g2 r2 db2,
    switchBatch req g db = (r1, db1) -> success r1 = true ->
    editBatchSwitch (edit_back req g date why) g2 db1 = (r2, db2) -> success r2 = true ->
    currentBatchId <$> students db2 !! sw_studentId req
    = currentBatchId <$> students db !! sw_studentId req /\
    currentCount <$> batches db2 !! sw_fromBatchId req
    = currentCount <$> batches db !! sw_fromBatchId req /\
    currentCount <$> batches db2 !! sw_toBatchId req
    = currentCount <$> batches db !! sw_toBatchId req /\
    fee_status <$> open_fee (sw_studentId req) db2
    = fee_status <$> open_fee (sw_studentId req) db /\
    balanceAmount <$> open_fee (sw_studentId req) db2
    = balanceAmount <$> open_fee (sw_studentId req) db.

(** STEP 2 of the edit as the spec words it ("following exactly the same
    three-policy logic" as the switch): [switchBatch]'s own code, run on the
    database left by STEP 1 for the switch from the student's current batch
    to [newToBatchId]. *)
Definition reapply_by_switchBatch (req : EditRequest) (g : Generated)
    (currentStudent : Student) (db1 : DB) : Response * DB :=
  switchBatch
    {| sw_studentId := ed_studentId req;
       sw_fromBatchId := currentBatchId currentStudent;
       sw_toBatchId := ed_newToBatchId req;
       sw_changeDate := ed_changeDate req;
       sw_reason := ed_reason req;
       sw_feeAction := ed_newFeeAction req |} g db1.

(** The columns of a fee row that the fee policies decide. *)
Definition fee_columns (f : Fee)
    : string * FeeStatus * Z * Z * option Z * option string :=
  (fee_id f, fee_status f, finalFee f, balanceAmount f, advanceAmount f, fee_transferId f).

(** ** Further example databases *)
Module Ex2.

(** [Ex.db1] (S1 moved to B2 by a TRANSFER switch, row H1) after fee F1 has
    been paid off: S1 has no PENDING or ACTIVE fee any more. *)
Definition db1_paid : DB := with_fees [set_fee_status PAID Ex.F1] Ex.db1.

(** [Ex.db1] with batch B2 filled up to its limit of 10, S1 being one of
    the 10. *)
Definition db1_full : DB :=
  with_batches (alter (set_currentCount 10) "B2" (batches Ex.db1)) Ex.db1.

End Ex2.

(** ** Predicates of the further properties *)

(** The fee action is one of the three the handlers know. *)
Definition known_action (a : string) : Prop :=
  a = "TRANSFER"%string \/ a = "NEW_FEE"%string \/ a = "SPLIT"%string.

(** The keys the database is about to hand out are not taken. *)
Definition fresh_history_id (g : Generated) (db : DB) : Prop :=
  forall h, In h (batchHistories db) -> bh_id h <> gen_historyId g.

Definition fresh_fee_id (g : Generated) (db : DB) : Prop :=
  forall f, In f (fees db) -> fee_id f <> gen_feeId g.

(** What a payment is apart from the fee it is attributed to. *)
Definition payment_core (p : Payment) : string * string * Z * string :=
  (payment_id p, payment_studentId p, amount p, payment_status p).

(** A fee row without its transferId stamp. *)
Definition fee_but_transferId (f : Fee)
    : string * string * string * Z * Z * Z * option Z * FeeStatus :=
  (fee_id f, fee_studentId f, fee_batchId f, totalCourseFee f, finalFee f,
   balanceAmount f, advanceAmount f, fee_status f).

(** Primary keys of the fee table are unique. *)
Definition fee_ids_unique (db : DB) : Prop := List.NoDup (List.map fee_id (fees db)).

(** The number of PENDING fees a student has. *)
Definition pending_fees (studentId : string) (db : DB) : nat :=
  length (List.filter (is_pending_fee_of studentId) (fees db)).

(** Some row of the fee table has the id [id]. *)
Definition In_id (id : string) (l : list Fee) : Prop :=
  exists x, In x l /\ fee_id x = id.

(** ** Definitions of the revised statements *)

(** The same generated values with collaborators that do not throw. *)
Definition quiet (g : Generated) : Generated :=
  {| gen_transferId := gen_transferId g; gen_feeId := gen_feeId g;
     gen_historyId := gen_historyId g; gen_now := gen_now g;
     gen_postCommit := None |}.

(** A fee row without its status. *)
Definition fee_but_status (f : Fee)
    : string * string * string * Z * Z * Z * option Z * option string :=
  (fee_id f, fee_studentId f, fee_batchId f, totalCourseFee f, finalFee f,
   balanceAmount f, advanceAmount f, fee_transferId f).

(** What the NEW_FEE switch is said to have done, from [db] to [db'].  With
    [own_only] the reassignment is promised only for the payments recorded
    under the request's student; without it, for every payment of the old
    fee that is neither CANCELLED nor INACTIVE. *)
Definition new_fee_outcome (own_only : bool) (req : SwitchRequest) (g : Generated)
    (db db' : DB) : Prop :=
  exists toBatch oldFee newFee cancelledFee,
    batches db !! sw_toBatchId req = Some toBatch /\
    fee_findFirst (is_pending_fee_of (sw_studentId req)) db = Some oldFee /\
    let totalPaid := paid_where (fun _ => true) oldFee db in
    (* the new fee *)
    In newFee (fees db') /\
    fee_id newFee = gen_feeId g /\
    (forall f, In f (fees db) -> fee_id f <> gen_feeId g) /\
    finalFee newFee = baseFee (course toBatch) /\
    balanceAmount newFee = Z.max (baseFee (course toBatch) - totalPaid) 0 /\
    advanceAmount newFee = advanceAmount oldFee /\
    (* the payments *)
    (forall p, In p (payments db) ->
               payment_feeId p = fee_id oldFee ->
               payment_status p <> "CANCELLED"%string ->
               payment_status p <> "INACTIVE"%string ->
               (own_only = true -> payment_studentId p = sw_studentId req) ->
               exists p', In p' (payments db') /\
                          payment_id p' = payment_id p /\
                          payment_studentId p' = payment_studentId p /\
                          payment_feeId p' = gen_feeId g /\
                          amount p' = amount p /\
                          payment_status p' = payment_status p) /\
    List.map payment_core (payments db') = List.map payment_core (payments db) /\
    (* the old fee *)
    In cancelledFee (fees db') /\
    fee_but_status cancelledFee = fee_but_status oldFee /\
    fee_status cancelledFee = CANCELLED /\
    (forall f, In f (fees db') -> fee_id f = fee_id oldFee -> fee_status f = CANCELLED) /\
    length (fees db') = S (length (fees db)).

(** C5 as it is stated: every live payment of the old fee is reassigned. *)
Definition new_fee_claim : Prop :=
  forall req g db r db',
    switchBatch req g db = (r, db') ->
    success r = true ->
    sw_feeAction req = "NEW_FEE"%string ->
    new_fee_outcome false req g db db'.

(** The feeId a payment has after the NEW_FEE switch of student [sid] from
    old fee [old] to new fee [new]. *)
Definition feeId_after_new_fee (sid old new : string) (p : Payment) : string :=
  if String.eqb (payment_studentId p) sid
     && String.eqb (payment_feeId p) old
     && negb (String.eqb (payment_status p) "CANCELLED"
              || String.eqb (payment_status p) "INACTIVE")
  then new else payment_feeId p.


Module Ex3.

(** A payment recorded against S1's fee F1 under another student, S2. *)
Definition P3 : Payment :=
  {| payment_id := "P3"; payment_studentId := "S2"; payment_feeId := "F1";
     amount := 70; payment_status := "PAID" |}.

(** [Ex.db0] with that payment added. *)
Definition db_foreign : DB := with_payments [Ex.P1; Ex.P2; P3] Ex.db0.

(** Generated values of a call whose cache invalidation throws. *)
Definition gen_cache_down : Generated :=
  {| gen_transferId := "T2"; gen_feeId := "F3"; gen_historyId := "H2"; gen_now := 200;
     gen_postCommit := Some (JsError "Redis connection lost") |}.

Definition gen1_cache_down : Generated :=
  {| gen_transferId := "T1"; gen_feeId := "F2"; gen_historyId := "H1"; gen_now := 100;
     gen_postCommit := Some (JsError "Redis connection lost") |}.

End Ex3.
(** * Properties *)

(** ** Inversion of the transaction primitives *)

Section TxInversion.

Context {A B : Type}.

Lemma bind_inr (m : Tx A) (k : A -> Tx B) db b db' :
  bind m k db = inr (b, db') ->
  exists a db1, m db = inr (a, db1) /\ k a db1 = inr (b, db').
Proof.
  unfold bind. destruct (m db) as [e | [a db1]]; [discriminate |].
  intros H. exists a, db1. split; [reflexivity | exact H].
Qed.

Lemma bind_inr_intro (m : Tx A) (k : A -> Tx B) db a db1 :
  m db = inr (a, db1) -> bind m k db = k a db1.
Proof. unfold bind. intros ->. reflexivity. Qed.

Lemma ret_inr (a a' : A) db db' :
  ret a db = inr (a', db') -> a' = a /\ db' = db.
Proof. unfold ret. intros H. injection H as <- <-. split; reflexivity. Qed.

Lemma query_inr (q : DB -> A) a db db' :
  query q db = inr (a, db') -> a = q db /\ db' = db.
Proof. unfold query. intros H. injection H as <- <-. split; reflexivity. Qed.

End TxInversion.

Lemma student_update_inr id f db s' db' :
  student_update id f db = inr (s', db') ->
  exists s, students db !! id = Some s /\ s' = f s /\
            db' = with_students (alter f id (students db)) db.
Proof.
  unfold student_update. destruct (students db !! id) as [s |]; [| discriminate].
  intros H. injection H as <- <-. exists s. repeat split.
Qed.

Lemma batch_update_inr id f db b' db' :
  batch_update id f db = inr (b', db') ->
  exists b, batches db !! id = Some b /\ b' = f b /\
            db' = with_batches (alter f id (batches db)) db.
Proof.
  unfold batch_update. destruct (batches db !! id) as [b |]; [| discriminate].
  intros H. injection H as <- <-. exists b. repeat split.
Qed.

Lemma fee_create_inr data db r db' :
  fee_create data db = inr (r, db') ->
  List.existsb (has_fee_id (fee_id data)) (fees db) = false /\ r = data /\
  db' = with_fees (fees db ++ [data]) db.
Proof.
  unfold fee_create. destruct (List.existsb _ _); [discriminate |].
  intros H. injection H as <- <-. repeat split.
Qed.

Lemma fee_update_inr id f db r' db' :
  fee_update id f db = inr (r', db') ->
  exists r, List.find (has_fee_id id) (fees db) = Some r /\ r' = f r /\
            db' = with_fees (updateWhere (has_fee_id id) f (fees db)) db.
Proof.
  unfold fee_update. destruct (List.find _ _) as [r |]; [| discriminate].
  intros H. injection H as <- <-. exists r. repeat split.
Qed.

Lemma fee_delete_inr id db r db' :
  fee_delete id db = inr (r, db') ->
  List.find (has_fee_id id) (fees db) = Some r /\
  db' = with_fees (List.filter (fun x => negb (has_fee_id id x)) (fees db)) db.
Proof.
  unfold fee_delete. destruct (List.find _ _) as [r0 |]; [| discriminate].
  intros H. injection H as <- <-. repeat split.
Qed.

Lemma payment_updateMany_inr sel f db u db' :
  payment_updateMany sel f db = inr (u, db') ->
  db' = with_payments (updateWhere sel f (payments db)) db.
Proof. unfold payment_updateMany. intros H. injection H as _ <-. reflexivity. Qed.

Lemma batchHistory_create_inr data db r db' :
  batchHistory_create data db = inr (r, db') ->
  List.existsb (has_bh_id (bh_id data)) (batchHistories db) = false /\ r = data /\
  db' = with_batchHistories (batchHistories db ++ [data]) db.
Proof.
  unfold batchHistory_create. destruct (List.existsb _ _); [discriminate |].
  intros H. injection H as <- <-. repeat split.
Qed.

Lemma batchHistory_delete_inr id db r db' :
  batchHistory_delete id db = inr (r, db') ->
  List.find (has_bh_id id) (batchHistories db) = Some r /\
  db' = with_batchHistories
          (List.filter (fun x => negb (has_bh_id id x)) (batchHistories db)) db.
Proof.
  unfold batchHistory_delete. destruct (List.find _ _) as [r0 |]; [| discriminate].
  intros H. injection H as <- <-. repeat split.
Qed.

(** Breaks a successful run of a transaction body into the successful runs
    of its statements. *)
Ltac tx_inv :=
  repeat match goal with
  | H : bind _ _ _ = inr _ |- _ =>
      let a := fresh "a" in let d := fresh "db" in let Hm := fresh "Hm" in
      apply bind_inr in H; destruct H as (a & d & Hm & H)
  | H : ret _ _ = inr _ |- _ =>
      apply ret_inr in H; destruct H as [? ?]; simplify_eq
  | H : query _ _ = inr _ |- _ =>
      apply query_inr in H; destruct H as [? ?]; subst
  | H : student_update _ _ _ = inr _ |- _ =>
      let s := fresh "s" in let Hs := fresh "Hstudent" in
      apply student_update_inr in H; destruct H as (s & Hs & ? & ?); subst
  | H : batch_update _ _ _ = inr _ |- _ =>
      let b := fresh "b" in let Hb := fresh "Hbatch" in
      apply batch_update_inr in H; destruct H as (b & Hb & ? & ?); subst
  | H : fee_create _ _ = inr _ |- _ =>
      let Hf := fresh "Hfresh" in
      apply fee_create_inr in H; destruct H as (Hf & ? & ?); subst
  | H : fee_update _ _ _ = inr _ |- _ =>
      let r := fresh "r" in let Hr := fresh "Hfee" in
      apply fee_update_inr in H; destruct H as (r & Hr & ? & ?); subst
  | H : fee_delete _ _ = inr _ |- _ =>
      let Hr := fresh "Hfee" in
      apply fee_delete_inr in H; destruct H as (Hr & ?); subst
  | H : payment_updateMany _ _ _ = inr _ |- _ =>
      apply payment_updateMany_inr in H; subst
  | H : batchHistory_create _ _ = inr _ |- _ =>
      let Hf := fresh "Hfresh" in
      apply batchHistory_create_inr in H; destruct H as (Hf & ? & ?); subst
  | H : batchHistory_delete _ _ = inr _ |- _ =>
      let Hr := fresh "Hhist" in
      apply batchHistory_delete_inr in H; destruct H as (Hr & ?); subst
  end.

(** Turns boolean string comparisons in the hypotheses into equations. *)
Ltac string_eqs :=
  repeat match goal with
  | E : String.eqb _ _ = true |- _ => apply String.eqb_eq in E
  | E : String.eqb _ _ = false |- _ => apply String.eqb_neq in E
  end.

(** ** What each transaction of [switchBatch] writes *)

Lemma switch_TRANSFER_tx_inr req g oldFee db results db' :
  switch_TRANSFER_tx req g oldFee db = inr (results, db') ->
  let h := mkHistory g (sw_studentId req) (sw_fromBatchId req) (sw_toBatchId req)
                     (sw_changeDate req) (sw_reason req)
                     (fee_id oldFee) (fee_id oldFee) TRANSFER in
  exists s b1 b2,
    students db !! sw_studentId req = Some s /\
    batches db !! sw_fromBatchId req = Some b1 /\
    results = [RowHistory h; RowStudent (set_currentBatchId (sw_toBatchId req) s);
               RowBatch (decrement b1); RowBatch b2] /\
    List.existsb (has_bh_id (gen_historyId g)) (batchHistories db) = false /\
    students db' = alter (set_currentBatchId (sw_toBatchId req)) (sw_studentId req) (students db) /\
    batches db' = alter increment (sw_toBatchId req)
                    (alter decrement (sw_fromBatchId req) (batches db)) /\
    fees db' = fees db /\
    payments db' = payments db /\
    batchHistories db' = batchHistories db ++ [h].
Proof.
  unfold switch_TRANSFER_tx. intros H. tx_inv. simpl in *.
  eexists _, _, _. repeat split; eauto.
Qed.

Lemma switch_NEW_FEE_tx_inr req g toBatch oldFee tp db newFee updatedOldFee batchHistory db' :
  switch_NEW_FEE_tx req g toBatch oldFee tp db
    = inr ((newFee, updatedOldFee, batchHistory), db') ->
  let created := switch_NEW_FEE_data req g toBatch oldFee tp in
  let h := mkHistory g (sw_studentId req) (sw_fromBatchId req) (sw_toBatchId req)
                     (sw_changeDate req) (sw_reason req)
                     (fee_id oldFee) (gen_feeId g) NEW_FEE in
  exists r,
    newFee = created /\ batchHistory = h /\
    List.existsb (has_fee_id (gen_feeId g)) (fees db) = false /\
    List.existsb (has_bh_id (gen_historyId g)) (batchHistories db) = false /\
    List.find (has_fee_id (fee_id oldFee)) (fees db ++ [created]) = Some r /\
    updatedOldFee = set_fee_status CANCELLED r /\
    is_Some (students db !! sw_studentId req) /\
    is_Some (batches db !! sw_fromBatchId req) /\
    students db' = alter (set_currentBatchId (sw_toBatchId req)) (sw_studentId req) (students db) /\
    batches db' = alter increment (sw_toBatchId req)
                    (alter decrement (sw_fromBatchId req) (batches db)) /\
    fees db' = updateWhere (has_fee_id (fee_id oldFee)) (set_fee_status CANCELLED)
                 (fees db ++ [created]) /\
    payments db' = updateWhere (switch_NEW_FEE_moved req oldFee)
                     (set_payment_feeId (gen_feeId g)) (payments db) /\
    batchHistories db' = batchHistories db ++ [h].
Proof.
  unfold switch_NEW_FEE_tx. intros H. tx_inv. simpl in *.
  eexists. repeat split; eauto.
Qed.

Lemma switch_SPLIT_tx_inr req g toBatch oldFee tp db newFee updatedOldFee batchHistory db' :
  switch_SPLIT_tx req g toBatch oldFee tp db
    = inr ((newFee, updatedOldFee, batchHistory), db') ->
  let created := switch_SPLIT_data req g toBatch tp in
  let close := set_fee_status_transferId (closed_status oldFee tp) (gen_transferId g) in
  let h := mkHistory g (sw_studentId req) (sw_fromBatchId req) (sw_toBatchId req)
                     (sw_changeDate req) (sw_reason req)
                     (fee_id oldFee) (gen_feeId g) SPLIT in
  exists r,
    newFee = created /\ batchHistory = h /\
    List.existsb (has_fee_id (gen_feeId g)) (fees db) = false /\
    List.existsb (has_bh_id (gen_historyId g)) (batchHistories db) = false /\
    List.find (has_fee_id (fee_id oldFee)) (fees db ++ [created]) = Some r /\
    updatedOldFee = close r /\
    is_Some (students db !! sw_studentId req) /\
    is_Some (batches db !! sw_fromBatchId req) /\
    students db' = alter (set_currentBatchId (sw_toBatchId req)) (sw_studentId req) (students db) /\
    batches db' = alter increment (sw_toBatchId req)
                    (alter decrement (sw_fromBatchId req) (batches db)) /\
    fees db' = updateWhere (has_fee_id (fee_id oldFee)) close (fees db ++ [created]) /\
    payments db' = payments db /\
    batchHistories db' = batchHistories db ++ [h].
Proof.
  unfold switch_SPLIT_tx. intros H. tx_inv. simpl in *.
  eexists. repeat split; eauto.
Qed.

(** ** The successful runs of [switchBatch] *)

Lemma switchBatch_success req g db r db' :
  switchBatch req g db = (r, db') ->
  success r = true ->
  exists student toBatch oldFee,
    switch_validated req db student toBatch oldFee /\
    is_Some (batches db !! sw_fromBatchId req) /\
    List.existsb (has_bh_id (gen_historyId g)) (batchHistories db) = false /\
    students db' = alter (set_currentBatchId (sw_toBatchId req)) (sw_studentId req)
                     (students db) /\
    batches db' = alter increment (sw_toBatchId req)
                    (alter decrement (sw_fromBatchId req) (batches db)) /\
    switch_outcome req g db student toBatch oldFee r db'.
Proof.
  unfold switchBatch, student_findUnique, batch_findUnique,
    fee_findFirst_include_payments, transaction, TryCatch, post_commit.
  destruct (students db !! sw_studentId req) as [student |] eqn:Hs;
    [| intros [= <- <-]; discriminate].
  destruct (String.eqb (currentBatchId student) (sw_fromBatchId req)) eqn:Hfrom;
    simpl; [| intros [= <- <-]; discriminate].
  apply String.eqb_eq in Hfrom.
  destruct (batches db !! sw_toBatchId req) as [toBatch |] eqn:Hto;
    [| intros [= <- <-]; discriminate].
  destruct (currentCount toBatch >=? slotLimit toBatch) eqn:Hfull;
    [intros [= <- <-]; discriminate |].
  assert (currentCount toBatch < slotLimit toBatch) as Hroom by lia.
  destruct (fee_findFirst (is_pending_fee_of (sw_studentId req)) db) as [oldFee |] eqn:Hfee;
    [| intros [= <- <-]; discriminate].
  cbv zeta.
  destruct (String.eqb (sw_feeAction req) "TRANSFER") eqn:Ha1.
  { apply String.eqb_eq in Ha1.
    destruct (switch_TRANSFER_tx req g oldFee db) as [e | [results db1]] eqn:Htx;
      [intros [= <- <-]; discriminate |].
    destruct (gen_postCommit g); [intros [= <- <-]; discriminate |].
    intros [= <- <-] _.
    apply switch_TRANSFER_tx_inr in Htx.
    destruct Htx as (s & b1 & b2 & Hs' & Hb1 & -> & Hfresh & Hst & Hba & Hfe & Hpa & Hhi).
    assert (s = student) as -> by congruence.
    exists student, toBatch, oldFee.
    split; [repeat split; assumption |].
    split; [eauto |]. split; [assumption |]. split; [assumption |]. split; [assumption |].
    left. repeat split; assumption. }
  destruct (String.eqb (sw_feeAction req) "NEW_FEE") eqn:Ha2.
  { apply String.eqb_eq in Ha2.
    destruct (switch_NEW_FEE_tx req g toBatch oldFee _ db)
      as [e | [[[newFee updatedOldFee] batchHistory] db1]] eqn:Htx;
      [intros [= <- <-]; discriminate |].
    destruct (gen_postCommit g); [intros [= <- <-]; discriminate |].
    intros [= <- <-] _.
    apply switch_NEW_FEE_tx_inr in Htx.
    destruct Htx as (r0 & -> & -> & Hff & Hfresh & Hfind & -> & Hst0 & Hb1 & Hst & Hba & Hfe & Hpa & Hhi).
    exists student, toBatch, oldFee.
    split; [repeat split; assumption |].
    split; [assumption |]. split; [assumption |]. split; [assumption |]. split; [assumption |].
    right; left. split; [assumption |]. cbv zeta.
    split; [assumption |]. split; [assumption |]. split; [assumption |].
    split; [assumption |]. eexists. reflexivity. }
  destruct (String.eqb (sw_feeAction req) "SPLIT") eqn:Ha3;
    [| intros [= <- <-]; discriminate].
  apply String.eqb_eq in Ha3.
  destruct (sumAmounts (fee_payments oldFee db) >? baseFee (course toBatch)) eqn:Hover;
    [intros [= <- <-]; discriminate |].
  destruct (switch_SPLIT_tx req g toBatch oldFee _ db)
    as [e | [[[newFee updatedOldFee] batchHistory] db1]] eqn:Htx;
    [intros [= <- <-]; discriminate |].
  destruct (gen_postCommit g); [intros [= <- <-]; discriminate |].
  intros [= <- <-] _.
  apply switch_SPLIT_tx_inr in Htx.
  destruct Htx as (r0 & -> & -> & Hff & Hfresh & Hfind & -> & Hst0 & Hb1 & Hst & Hba & Hfe & Hpa & Hhi).
  exists student, toBatch, oldFee.
  split; [repeat split; assumption |].
  split; [assumption |]. split; [assumption |]. split; [assumption |]. split; [assumption |].
  right; right. split; [assumption |]. cbv zeta.
  split; [lia |].
  split; [assumption |]. split; [assumption |]. split; [assumption |].
  split; [assumption |]. eexists. reflexivity.
Qed.

(** ** Occupancy counters *)

Lemma lookup_switch_batches_to (m : gmap string Batch) from to :
  from <> to ->
  alter increment to (alter decrement from m) !! to = increment <$> m !! to.
Proof. intros Hne. rewrite lookup_alter_eq, lookup_alter_ne by exact Hne. reflexivity. Qed.

Lemma lookup_switch_batches_from (m : gmap string Batch) from to :
  from <> to ->
  alter increment to (alter decrement from m) !! from = decrement <$> m !! from.
Proof.
  intros Hne. rewrite lookup_alter_ne by (intros ->; apply Hne; reflexivity).
  apply lookup_alter_eq.
Qed.

(** C1 (as amended): after a successful switch between two different
    batches the target batch's currentCount is one greater and the source
    batch's is one smaller; the target stays within its slot limit, and both
    counters stay within [[0, slotLimit]] when they were so before and the
    source batch was not empty. *)
Theorem C1_switch_counts req g db r db' fromBatch toBatch :
  switchBatch req g db = (r, db') ->
  success r = true ->
  sw_fromBatchId req <> sw_toBatchId req ->
  batches db !! sw_fromBatchId req = Some fromBatch ->
  batches db !! sw_toBatchId req = Some toBatch ->
  exists fromBatch' toBatch',
    batches db' !! sw_fromBatchId req = Some fromBatch' /\
    batches db' !! sw_toBatchId req = Some toBatch' /\
    currentCount toBatch' = currentCount toBatch + 1 /\
    currentCount fromBatch' = currentCount fromBatch - 1 /\
    slotLimit toBatch' = slotLimit toBatch /\
    slotLimit fromBatch' = slotLimit fromBatch /\
    currentCount toBatch' <= slotLimit toBatch' /\
    (0 <= currentCount toBatch -> 0 <= currentCount toBatch') /\
    (1 <= currentCount fromBatch <= slotLimit fromBatch ->
     0 <= currentCount fromBatch' <= slotLimit fromBatch').
Proof.
  intros Hrun Hok Hne Hfrom Hto.
  destruct (switchBatch_success _ _ _ _ _ Hrun Hok)
    as (student & toBatch0 & oldFee & Hval & _ & _ & _ & Hbatches & _).
  destruct Hval as (_ & _ & Hto0 & Hroom & _).
  assert (toBatch0 = toBatch) as -> by congruence.
  exists (decrement fromBatch), (increment toBatch).
  rewrite Hbatches, lookup_switch_batches_from, lookup_switch_batches_to by exact Hne.
  rewrite Hfrom, Hto. simpl.
  repeat split; try reflexivity; lia.
Qed.

Lemma C1_switch_counts_witness :
  exists fromBatch' toBatch',
    batches (snd (switchBatch (Ex.switch_req "B2" "NEW_FEE") Ex.gen1 Ex.db0)) !! "B1"%string
      = Some fromBatch' /\
    batches (snd (switchBatch (Ex.switch_req "B2" "NEW_FEE") Ex.gen1 Ex.db0)) !! "B2"%string
      = Some toBatch' /\
    currentCount toBatch' = 3 /\ currentCount fromBatch' = 2.
Proof.
  destruct (C1_switch_counts (Ex.switch_req "B2" "NEW_FEE") Ex.gen1 Ex.db0
              (fst (switchBatch (Ex.switch_req "B2" "NEW_FEE") Ex.gen1 Ex.db0))
              (snd (switchBatch (Ex.switch_req "B2" "NEW_FEE") Ex.gen1 Ex.db0))
              Ex.B1 Ex.B2)
    as (f' & t' & Hf & Ht & Hct & Hcf & _).
  - apply surjective_pairing.
  - vm_compute. reflexivity.
  - discriminate.
  - vm_compute. reflexivity.
  - vm_compute. reflexivity.
  - exists f', t'. repeat split; assumption.
Defined.

(** C1 as stated fails: a switch whose source and target are the same batch
    succeeds and leaves that batch's counter where it was. *)
Lemma C1_counterexample : ~ switch_counts_claim.
Proof.
  intros Hclaim.
  destruct (Hclaim (Ex.switch_req "B1" "TRANSFER") Ex.gen1 Ex.db0
              (fst (switchBatch (Ex.switch_req "B1" "TRANSFER") Ex.gen1 Ex.db0))
              (snd (switchBatch (Ex.switch_req "B1" "TRANSFER") Ex.gen1 Ex.db0))
              Ex.B1 Ex.B1)
    as (f' & t' & Hf & Ht & Hct & Hcf & _).
  - apply surjective_pairing.
  - vm_compute. reflexivity.
  - vm_compute. reflexivity.
  - vm_compute. reflexivity.
  - vm_compute. split; discriminate.
  - vm_compute. split; discriminate.
  - pose proof (eq_trans (eq_sym Hf) Ht) as E. injection E as ->.
    simpl in Hct, Hcf. lia.
Qed.

(** The lower bound needs the source batch to be non-empty: from a batch
    whose counter is 0 the decrement goes below zero. *)
Example switch_from_empty_batch :
  let db := with_batches (alter (set_currentCount 0) "B1" (batches Ex.db0)) Ex.db0 in
  let out := switchBatch (Ex.switch_req "B2" "TRANSFER") Ex.gen1 db in
  success (fst out) = true /\
  currentCount <$> batches (snd out) !! "B1"%string = Some (-1).
Proof. vm_compute. split; reflexivity. Qed.

(** ** The amount already paid *)

Lemma or_zero_id x : or_zero x = x.
Proof. unfold or_zero. destruct (x =? 0) eqn:E; [lia | reflexivity]. Qed.

Lemma fold_left_amounts (ps : list Payment) (acc : Z) :
  fold_left (fun sum p => sum + amount p) ps acc = acc + list_sum_Z (List.map amount ps).
Proof.
  revert acc. induction ps as [| p ps IH]; intros acc; simpl.
  - lia.
  - rewrite IH. lia.
Qed.

Lemma sumAmounts_sum (ps : list Payment) :
  sumAmounts ps = list_sum_Z (List.map amount ps).
Proof. unfold sumAmounts. rewrite or_zero_id, fold_left_amounts. lia. Qed.

Lemma filter_all {A} (keep : A -> bool) (l : list A) :
  (forall x, In x l -> keep x = true) -> List.filter keep l = l.
Proof.
  induction l as [| x l IH]; intros Hall; simpl; [reflexivity |].
  rewrite (Hall x) by (left; reflexivity).
  f_equal. apply IH. intros y Hy. apply Hall. right. exact Hy.
Qed.

Lemma fee_findFirst_include_payments_Some sel db f ps :
  fee_findFirst_include_payments sel db = Some (f, ps) ->
  fee_findFirst sel db = Some f /\ ps = fee_payments f db.
Proof.
  unfold fee_findFirst_include_payments.
  destruct (fee_findFirst sel db) as [f0 |]; [| discriminate].
  intros [= <- <-]. split; reflexivity.
Qed.

(** Both handlers read the fee with all of its payments, and the total is
    the sum of the amounts of all of them, whatever their status. *)
Lemma sumAmounts_fee_payments f db :
  sumAmounts (fee_payments f db) = paid_where (fun _ => true) f db.
Proof.
  unfold paid_where. rewrite sumAmounts_sum, filter_all by reflexivity. reflexivity.
Qed.

(** It is the sum without the CANCELLED and INACTIVE payments when the fee
    has no such payment. *)
Lemma sumAmounts_without_closed f db :
  (forall p, In p (fee_payments f db) -> not_cancelled_or_inactive p = true) ->
  sumAmounts (fee_payments f db) = paid_where not_cancelled_or_inactive f db.
Proof.
  intros Hall. unfold paid_where. rewrite sumAmounts_sum, filter_all by exact Hall.
  reflexivity.
Qed.

(** C2 (as amended): both handlers read the open fee together with all of
    its payments, and the total paid they use is the sum of the amounts of
    all of those payments, whatever their status; it is the sum without the
    CANCELLED and INACTIVE payments when the fee has no such payment. *)
Theorem C2_totalPaid_sums_all_payments sel db f ps :
  fee_findFirst_include_payments sel db = Some (f, ps) ->
  ps = fee_payments f db /\
  sumAmounts ps = paid_where (fun _ => true) f db /\
  ((forall p, In p ps -> not_cancelled_or_inactive p = true) ->
   sumAmounts ps = paid_where not_cancelled_or_inactive f db).
Proof.
  intros H. apply fee_findFirst_include_payments_Some in H. destruct H as [_ ->].
  split; [reflexivity |].
  split; [apply sumAmounts_fee_payments | apply sumAmounts_without_closed].
Qed.

Lemma C2_totalPaid_sums_all_payments_witness :
  sumAmounts (fee_payments Ex.F1 Ex.db0) = 450 /\
  paid_where (fun _ => true) Ex.F1 Ex.db0 = 450.
Proof.
  destruct (C2_totalPaid_sums_all_payments (is_pending_fee_of "S1") Ex.db0 Ex.F1
              (fee_payments Ex.F1 Ex.db0)) as (_ & Hsum & _).
  - vm_compute. reflexivity.
  - split; [vm_compute; reflexivity | rewrite <- Hsum; vm_compute; reflexivity].
Defined.

(** C2 as stated fails: fee F1 of [Ex.db0] has the payments P1 (400) and P2
    (50, CANCELLED), and the total is 450, not 400. *)
Lemma C2_counterexample : ~ totalPaid_claim.
Proof.
  intros Hclaim.
  specialize (Hclaim (is_pending_fee_of "S1") Ex.db0 Ex.F1 [Ex.P1; Ex.P2]).
  vm_compute in Hclaim. specialize (Hclaim eq_refl). discriminate.
Qed.

(** The same total seen from outside.  Both handlers read F1 with both
    payments; the NEW_FEE switch to B2 (course fee 800) opens fee F2 with
    balance 800 - 450 = 350 while P2 stays behind on F1, and the edit of a
    TRANSFER switch with NEW_FEE opens fee F3 with balance 350 as well. *)
Example totalPaid_counts_cancelled_payments :
  fee_findFirst_include_payments (is_pending_fee_of "S1") Ex.db0
  = Some (Ex.F1, [Ex.P1; Ex.P2]) /\
  fee_findFirst_include_payments (is_open_fee_of "S1") Ex.db0
  = Some (Ex.F1, [Ex.P1; Ex.P2]) /\
  sumAmounts [Ex.P1; Ex.P2] = 450 /\
  paid_where not_cancelled_or_inactive Ex.F1 Ex.db0 = 400 /\
  (let db' := snd (switchBatch (Ex.switch_req "B2" "NEW_FEE") Ex.gen1 Ex.db0) in
   List.map (fun f => (fee_id f, balanceAmount f)) (fees db')
   = [("F1"%string, 500); ("F2"%string, 350)] /\
   List.map (fun p => (payment_id p, payment_feeId p)) (payments db')
   = [("P1", "F2"); ("P2", "F1")]%string) /\
  (let db' := snd (editBatchSwitch (Ex.edit_req "H1" "B2" "NEW_FEE") Ex.gen2 Ex.db1) in
   List.map (fun f => (fee_id f, balanceAmount f)) (fees db')
   = [("F1"%string, 500); ("F3"%string, 350)]).
Proof. vm_compute. repeat split; reflexivity. Qed.

(** ** List facts used for the fee and payment tables *)

Lemma existsb_false_In {A} (p : A -> bool) (l : list A) (x : A) :
  List.existsb p l = false -> In x l -> p x = false.
Proof.
  intros Hex Hin. destruct (p x) eqn:Hp; [| reflexivity].
  assert (List.existsb p l = true) as Habs
    by (apply List.existsb_exists; exists x; split; assumption).
  congruence.
Qed.

Lemma In_updateWhere {A} (sel : A -> bool) (f : A -> A) (l : list A) (x : A) :
  In x l -> In (if sel x then f x else x) (updateWhere sel f l).
Proof. intros Hin. unfold updateWhere. apply (in_map (fun y => if sel y then f y else y)), Hin. Qed.

Lemma In_updateWhere_inv {A} (sel : A -> bool) (f : A -> A) (l : list A) (y : A) :
  In y (updateWhere sel f l) ->
  exists x, In x l /\ y = (if sel x then f x else x).
Proof.
  unfold updateWhere. intros Hin. apply in_map_iff in Hin.
  destruct Hin as (x & <- & Hx). exists x. split; [exact Hx | reflexivity].
Qed.

Lemma length_updateWhere {A} (sel : A -> bool) (f : A -> A) (l : list A) :
  length (updateWhere sel f l) = length l.
Proof. unfold updateWhere. apply length_map. Qed.

Lemma has_fee_id_true id f : has_fee_id id f = true <-> fee_id f = id.
Proof. unfold has_fee_id. apply String.eqb_eq. Qed.

Lemma has_fee_id_false id f : has_fee_id id f = false <-> fee_id f <> id.
Proof. unfold has_fee_id. apply String.eqb_neq. Qed.

Lemma is_pending_fee_of_true sid f :
  is_pending_fee_of sid f = true <-> fee_studentId f = sid /\ fee_status f = PENDING.
Proof.
  unfold is_pending_fee_of. rewrite andb_true_iff, String.eqb_eq.
  destruct (fee_status f); simpl; intuition congruence.
Qed.

(** The fee found by [switchBatch] is a PENDING fee of the student and a
    row of the fee table. *)
Lemma open_fee_found sid db oldFee :
  fee_findFirst (is_pending_fee_of sid) db = Some oldFee ->
  In oldFee (fees db) /\ fee_studentId oldFee = sid /\ fee_status oldFee = PENDING.
Proof.
  unfold fee_findFirst. intros H. apply find_some in H. destruct H as [Hin Hp].
  apply is_pending_fee_of_true in Hp. tauto.
Qed.

(** A freshly created fee is not touched by an update of an existing fee. *)
Lemma created_fee_survives old created close (l : list Fee) :
  In old l ->
  List.existsb (has_fee_id (fee_id created)) l = false ->
  In created (updateWhere (has_fee_id (fee_id old)) close (l ++ [created])).
Proof.
  intros Hin Hfresh.
  pose proof (existsb_false_In _ _ _ Hfresh Hin) as Hne.
  apply has_fee_id_false in Hne.
  assert (has_fee_id (fee_id old) created = false) as Hsel
    by (apply has_fee_id_false; congruence).
  pose proof (In_updateWhere (has_fee_id (fee_id old)) close (l ++ [created]) created) as H.
  rewrite Hsel in H. apply H. apply in_or_app. right. left. reflexivity.
Qed.

Lemma updated_fee_present old created close (l : list Fee) :
  In old l ->
  In (close old) (updateWhere (has_fee_id (fee_id old)) close (l ++ [created])).
Proof.
  intros Hin.
  pose proof (In_updateWhere (has_fee_id (fee_id old)) close (l ++ [created]) old) as H.
  assert (has_fee_id (fee_id old) old = true) as Hsel by (apply has_fee_id_true; reflexivity).
  rewrite Hsel in H. apply H. apply in_or_app. left. exact Hin.
Qed.

(** ** The fee action selects one outcome *)

Lemma switch_outcome_TRANSFER req g db student toBatch oldFee r db' :
  switch_outcome req g db student toBatch oldFee r db' ->
  sw_feeAction req = "TRANSFER"%string ->
  fees db' = fees db /\ payments db' = payments db /\
  batchHistories db' = batchHistories db ++
     [mkHistory g (sw_studentId req) (sw_fromBatchId req) (sw_toBatchId req)
                (sw_changeDate req) (sw_reason req) (fee_id oldFee) (fee_id oldFee) TRANSFER] /\
  data r = PayloadSwitch
             (Some (RowStudent (set_currentBatchId (sw_toBatchId req) student)))
             None None (gen_transferId g).
Proof.
  intros [(_ & H) | [(Ha & _) | (Ha & _)]] Hact;
    [exact H | rewrite Hact in Ha; discriminate | rewrite Hact in Ha; discriminate].
Qed.

Lemma switch_outcome_NEW_FEE req g db student toBatch oldFee r db' :
  switch_outcome req g db student toBatch oldFee r db' ->
  sw_feeAction req = "NEW_FEE"%string ->
  let tp := sumAmounts (fee_payments oldFee db) in
  let created := switch_NEW_FEE_data req g toBatch oldFee tp in
  let h := mkHistory g (sw_studentId req) (sw_fromBatchId req) (sw_toBatchId req)
                     (sw_changeDate req) (sw_reason req) (fee_id oldFee) (gen_feeId g) NEW_FEE in
  List.existsb (has_fee_id (gen_feeId g)) (fees db) = false /\
  fees db' = updateWhere (has_fee_id (fee_id oldFee)) (set_fee_status CANCELLED)
               (fees db ++ [created]) /\
  payments db' = updateWhere (switch_NEW_FEE_moved req oldFee)
                   (set_payment_feeId (gen_feeId g)) (payments db) /\
  batchHistories db' = batchHistories db ++ [h] /\
  exists updatedOldFee,
    data r = PayloadSwitch (Some (RowHistory h)) (Some updatedOldFee) (Some created)
               (gen_transferId g).
Proof.
  intros [(Ha & _) | [(_ & H) | (Ha & _)]] Hact;
    [rewrite Hact in Ha; discriminate | exact H | rewrite Hact in Ha; discriminate].
Qed.

Lemma switch_outcome_SPLIT req g db student toBatch oldFee r db' :
  switch_outcome req g db student toBatch oldFee r db' ->
  sw_feeAction req = "SPLIT"%string ->
  let tp := sumAmounts (fee_payments oldFee db) in
  let created := switch_SPLIT_data req g toBatch tp in
  let h := mkHistory g (sw_studentId req) (sw_fromBatchId req) (sw_toBatchId req)
                     (sw_changeDate req) (sw_reason req) (fee_id oldFee) (gen_feeId g) SPLIT in
  tp <= baseFee (course toBatch) /\
  List.existsb (has_fee_id (gen_feeId g)) (fees db) = false /\
  fees db' = updateWhere (has_fee_id (fee_id oldFee))
               (set_fee_status_transferId (closed_status oldFee tp) (gen_transferId g))
               (fees db ++ [created]) /\
  payments db' = payments db /\
  batchHistories db' = batchHistories db ++ [h] /\
  exists updatedOldFee,
    data r = PayloadSwitch (Some (RowHistory h)) (Some updatedOldFee) (Some created)
               (gen_transferId g).
Proof.
  intros [(Ha & _) | [(Ha & _) | (_ & H)]] Hact;
    [rewrite Hact in Ha; discriminate | rewrite Hact in Ha; discriminate | exact H].
Qed.

(** ** SPLIT *)

(** C4: after a successful SPLIT switch the new fee has finalFee =
    balanceAmount = max(baseFee of the target batch's course - totalPaid, 0)
    and status PENDING; the payment table is untouched, so every payment
    keeps its feeId; and the old fee is still there with status PAID when
    its balanceAmount is 0 or totalPaid >= its finalFee, and INACTIVE
    otherwise. *)
Theorem C4_split_switch req g db r db' :
  switchBatch req g db = (r, db') ->
  success r = true ->
  sw_feeAction req = "SPLIT"%string ->
  exists toBatch oldFee newFee closedFee,
    batches db !! sw_toBatchId req = Some toBatch /\
    fee_findFirst (is_pending_fee_of (sw_studentId req)) db = Some oldFee /\
    let totalPaid := sumAmounts (fee_payments oldFee db) in
    let closed := if (balanceAmount oldFee =? 0) || (totalPaid >=? finalFee oldFee)
                  then PAID else INACTIVE in
    totalPaid = paid_where (fun _ => true) oldFee db /\
    ((forall p, In p (fee_payments oldFee db) -> not_cancelled_or_inactive p = true) ->
     totalPaid = paid_where not_cancelled_or_inactive oldFee db) /\
    In newFee (fees db') /\
    fee_id newFee = gen_feeId g /\
    (forall f, In f (fees db) -> fee_id f <> gen_feeId g) /\
    finalFee newFee = Z.max (baseFee (course toBatch) - totalPaid) 0 /\
    balanceAmount newFee = Z.max (baseFee (course toBatch) - totalPaid) 0 /\
    fee_status newFee = PENDING /\
    payments db' = payments db /\
    In closedFee (fees db') /\
    fee_id closedFee = fee_id oldFee /\
    fee_status closedFee = closed /\
    (forall f, In f (fees db') -> fee_id f = fee_id oldFee -> fee_status f = closed).
Proof.
  intros Hrun Hok Hact.
  destruct (switchBatch_success _ _ _ _ _ Hrun Hok)
    as (student & toBatch & oldFee & Hval & _ & _ & _ & _ & Hout).
  destruct Hval as (_ & _ & Hto & _ & Hfee).
  destruct (switch_outcome_SPLIT _ _ _ _ _ _ _ _ Hout Hact)
    as (_ & Hfresh & Hfees & Hpay & _).
  destruct (open_fee_found _ _ _ Hfee) as (Hin & _ & _).
  set (tp := sumAmounts (fee_payments oldFee db)) in *.
  exists toBatch, oldFee, (switch_SPLIT_data req g toBatch tp),
    (set_fee_status_transferId (closed_status oldFee tp) (gen_transferId g) oldFee).
  split; [exact Hto |]. split; [exact Hfee |]. cbv zeta.
  split; [apply sumAmounts_fee_payments |].
  split; [apply sumAmounts_without_closed |].
  split. { rewrite Hfees. apply created_fee_survives; assumption. }
  split; [reflexivity |].
  split. { intros f Hf. apply has_fee_id_false. exact (existsb_false_In _ _ _ Hfresh Hf). }
  split; [reflexivity |]. split; [reflexivity |]. split; [reflexivity |].
  split; [exact Hpay |].
  split. { rewrite Hfees. apply updated_fee_present. exact Hin. }
  split; [reflexivity |]. split; [reflexivity |].
  intros f Hf Hid. rewrite Hfees in Hf.
  apply In_updateWhere_inv in Hf. destruct Hf as (x & _ & ->).
  destruct (has_fee_id (fee_id oldFee) x) eqn:Hsel; [reflexivity |].
  apply has_fee_id_false in Hsel. contradiction.
Qed.

Lemma C4_split_switch_witness :
  exists newFee closedFee,
    In newFee (fees (snd (switchBatch (Ex.switch_req "B2" "SPLIT") Ex.gen1 Ex.db0))) /\
    finalFee newFee = 350 /\ balanceAmount newFee = 350 /\ fee_status newFee = PENDING /\
    In closedFee (fees (snd (switchBatch (Ex.switch_req "B2" "SPLIT") Ex.gen1 Ex.db0))) /\
    fee_id closedFee = "F1"%string /\ fee_status closedFee = INACTIVE.
Proof.
  destruct (C4_split_switch (Ex.switch_req "B2" "SPLIT") Ex.gen1 Ex.db0
              (fst (switchBatch (Ex.switch_req "B2" "SPLIT") Ex.gen1 Ex.db0))
              (snd (switchBatch (Ex.switch_req "B2" "SPLIT") Ex.gen1 Ex.db0)))
    as (toBatch & oldFee & newFee & closedFee & Hto & Hfee & H).
  - apply surjective_pairing.
  - vm_compute. reflexivity.
  - reflexivity.
  - vm_compute in Hto. injection Hto as <-.
    vm_compute in Hfee. injection Hfee as <-.
    cbv zeta in H.
    destruct H as (_ & _ & Hin & _ & _ & Hfinal & Hbal & Hst & _ & Hin' & Hid & Hst' & _).
    exists newFee, closedFee.
    split; [exact Hin |]. split; [rewrite Hfinal; vm_compute; reflexivity |].
    split; [rewrite Hbal; vm_compute; reflexivity |]. split; [exact Hst |].
    split; [exact Hin' |]. split; [exact Hid |]. rewrite Hst'. vm_compute. reflexivity.
Defined.

(** ** NEW_FEE *)

Lemma map_updateWhere_invariant {A B} (proj : A -> B) (sel : A -> bool) (f : A -> A) (l : list A) :
  (forall x, proj (f x) = proj x) ->
  List.map proj (updateWhere sel f l) = List.map proj l.
Proof.
  intros Hproj. unfold updateWhere. rewrite List.map_map.
  apply List.map_ext. intros x. destruct (sel x); [apply Hproj | reflexivity].
Qed.

Lemma switch_NEW_FEE_moved_spec req oldFee p :
  switch_NEW_FEE_moved req oldFee p = true <->
  payment_studentId p = sw_studentId req /\ payment_feeId p = fee_id oldFee /\
  payment_status p <> "CANCELLED"%string /\ payment_status p <> "INACTIVE"%string.
Proof.
  unfold switch_NEW_FEE_moved, not_cancelled_or_inactive.
  rewrite !andb_true_iff, negb_true_iff, orb_false_iff, !String.eqb_eq, !String.eqb_neq.
  tauto.
Qed.

(** C5 (as amended): after a successful NEW_FEE switch there is a new fee
    with finalFee = course fee of the target batch, balanceAmount =
    max(course fee - totalPaid, 0), totalPaid being the sum over all
    payments of the old fee, and the old fee's advanceAmount.  Every payment
    of the old fee that is neither CANCELLED nor INACTIVE and is recorded
    under the request's student now has the new fee's id as feeId; every
    other payment keeps its feeId, and no payment changed its id, student,
    amount or status.  The old fee's row is still in the table, with status
    CANCELLED and otherwise unchanged. *)
Theorem C5_new_fee_switch req g db r db' :
  switchBatch req g db = (r, db') ->
  success r = true ->
  sw_feeAction req = "NEW_FEE"%string ->
  new_fee_outcome true req g db db' /\
  exists oldFee,
    fee_findFirst (is_pending_fee_of (sw_studentId req)) db = Some oldFee /\
    List.map payment_feeId (payments db')
    = List.map (feeId_after_new_fee (sw_studentId req) (fee_id oldFee) (gen_feeId g))
               (payments db).
Proof.
  intros Hrun Hok Hact.
  destruct (switchBatch_success _ _ _ _ _ Hrun Hok)
    as (student & toBatch & oldFee & Hval & _ & _ & _ & _ & Hout).
  destruct Hval as (_ & _ & Hto & _ & Hfee).
  destruct (switch_outcome_NEW_FEE _ _ _ _ _ _ _ _ Hout Hact)
    as (Hfresh & Hfees & Hpay & _).
  destruct (open_fee_found _ _ _ Hfee) as (Hin & Hsid & Hpending).
  split.
  - exists toBatch, oldFee,
      (switch_NEW_FEE_data req g toBatch oldFee (sumAmounts (fee_payments oldFee db))),
      (set_fee_status CANCELLED oldFee).
    split; [exact Hto |]. split; [exact Hfee |]. cbv zeta.
    split. { rewrite Hfees. apply created_fee_survives; assumption. }
    split; [reflexivity |].
    split. { intros f Hf. apply has_fee_id_false. exact (existsb_false_In _ _ _ Hfresh Hf). }
    split; [reflexivity |].
    split. { simpl. rewrite sumAmounts_fee_payments. reflexivity. }
    split; [reflexivity |].
    split.
    { intros p Hp Hfid Hc Hi Hown.
      exists (set_payment_feeId (gen_feeId g) p). split.
      - rewrite Hpay.
        pose proof (In_updateWhere (switch_NEW_FEE_moved req oldFee)
                      (set_payment_feeId (gen_feeId g)) (payments db) p Hp) as H.
        assert (switch_NEW_FEE_moved req oldFee p = true) as Hsel
          by (apply switch_NEW_FEE_moved_spec; auto).
        rewrite Hsel in H. exact H.
      - repeat split. }
    split. { rewrite Hpay. apply map_updateWhere_invariant. reflexivity. }
    split. { rewrite Hfees. apply updated_fee_present. exact Hin. }
    split; [reflexivity |]. split; [reflexivity |].
    split.
    { intros f Hf Hid. rewrite Hfees in Hf.
      apply In_updateWhere_inv in Hf. destruct Hf as (x & _ & ->).
      destruct (has_fee_id (fee_id oldFee) x) eqn:Hsel; [reflexivity |].
      apply has_fee_id_false in Hsel. contradiction. }
    rewrite Hfees, length_updateWhere, length_app. simpl. lia.
  - exists oldFee. split; [exact Hfee |].
    rewrite Hpay. unfold updateWhere. rewrite List.map_map.
    apply List.map_ext. intros p.
    unfold feeId_after_new_fee, switch_NEW_FEE_moved, not_cancelled_or_inactive.
    destruct (_ && _ && _); reflexivity.
Qed.

Lemma C5_new_fee_switch_witness :
  let db' := snd (switchBatch (Ex.switch_req "B2" "NEW_FEE") Ex.gen1 Ex3.db_foreign) in
  new_fee_outcome true (Ex.switch_req "B2" "NEW_FEE") Ex.gen1 Ex3.db_foreign db' /\
  List.map (fun p => (payment_id p, payment_feeId p, amount p, payment_status p))
    (payments db')
  = [("P1", "F2", 400, "PAID"); ("P2", "F1", 50, "CANCELLED");
     ("P3", "F1", 70, "PAID")]%string /\
  List.map (fun f => (fee_id f, fee_status f, finalFee f, balanceAmount f, advanceAmount f))
    (fees db')
  = [("F1"%string, CANCELLED, 900, 500, Some 100);
     ("F2"%string, PENDING, 800, 280, Some 100)].
Proof.
  intros db'.
  destruct (C5_new_fee_switch (Ex.switch_req "B2" "NEW_FEE") Ex.gen1 Ex3.db_foreign
              (fst (switchBatch (Ex.switch_req "B2" "NEW_FEE") Ex.gen1 Ex3.db_foreign)) db')
    as [Hout _].
  - apply surjective_pairing.
  - vm_compute. reflexivity.
  - reflexivity.
  - split; [exact Hout |]. split; vm_compute; reflexivity.
Defined.

(** C5 as stated fails: payment P3 is attributed to S1's fee F1 and is
    neither CANCELLED nor INACTIVE, but it is recorded under student S2; the
    NEW_FEE switch of S1 leaves it on the cancelled fee F1. *)
Lemma C5_counterexample : ~ new_fee_claim.
Proof.
  intros Hclaim.
  destruct (Hclaim (Ex.switch_req "B2" "NEW_FEE") Ex.gen1 Ex3.db_foreign
              (fst (switchBatch (Ex.switch_req "B2" "NEW_FEE") Ex.gen1 Ex3.db_foreign))
              (snd (switchBatch (Ex.switch_req "B2" "NEW_FEE") Ex.gen1 Ex3.db_foreign)))
    as (toBatch & oldFee & newFee & cancelledFee & _ & Hfee & H).
  - apply surjective_pairing.
  - vm_compute. reflexivity.
  - reflexivity.
  - vm_compute in Hfee. injection Hfee as <-.
    cbv zeta in H. destruct H as (_ & _ & _ & _ & _ & _ & Hmoved & _).
    destruct (Hmoved Ex3.P3) as (p' & Hin & Hid & _ & Hfid & _).
    + vm_compute. right; right; left. reflexivity.
    + reflexivity.
    + discriminate.
    + discriminate.
    + discriminate.
    + vm_compute in Hin.
      destruct Hin as [<- | [<- | [<- | []]]];
        first [discriminate Hid | discriminate Hfid].
Qed.

(** ** Rejection of an overpaid SPLIT *)

(** C6: a SPLIT switch whose totalPaid exceeds the target batch's course fee
    fails and leaves the database as it was; when the earlier validations
    pass (student found and sitting in fromBatchId, target batch not full)
    the answer is the 400 business-rule error. *)
Theorem C6_split_overpaid_rejected req g db toBatch oldFee :
  sw_feeAction req = "SPLIT"%string ->
  batches db !! sw_toBatchId req = Some toBatch ->
  fee_findFirst (is_pending_fee_of (sw_studentId req)) db = Some oldFee ->
  sumAmounts (fee_payments oldFee db) > baseFee (course toBatch) ->
  snd (switchBatch req g db) = db /\
  success (fst (switchBatch req g db)) = false /\
  (forall student,
     students db !! sw_studentId req = Some student ->
     currentBatchId student = sw_fromBatchId req ->
     currentCount toBatch < slotLimit toBatch ->
     fst (switchBatch req g db)
     = sendResponse 400 false
         "Student has paid more than the new batch fee. Please create a new admission."
         PayloadNull).
Proof.
  intros Hact Hto Hfee Hover.
  unfold switchBatch, student_findUnique, batch_findUnique, fee_findFirst_include_payments.
  rewrite Hto, Hfee, Hact. cbv zeta.
  change (String.eqb "SPLIT" "TRANSFER") with false.
  change (String.eqb "SPLIT" "NEW_FEE") with false.
  change (String.eqb "SPLIT" "SPLIT") with true. cbv iota.
  assert ((sumAmounts (fee_payments oldFee db) >? baseFee (course toBatch)) = true) as ->
    by lia.
  destruct (students db !! sw_studentId req) as [student |] eqn:Hs.
  2: { repeat split; try reflexivity. intros ? [=]. }
  destruct (String.eqb (currentBatchId student) (sw_fromBatchId req)) eqn:Hfrom; simpl.
  2: { repeat split; try reflexivity. intros s [= <-] Hcur.
       apply String.eqb_neq in Hfrom. contradiction. }
  destruct (currentCount toBatch >=? slotLimit toBatch) eqn:Hfull.
  { repeat split; try reflexivity. intros s _ _ Hroom. lia. }
  repeat split; reflexivity.
Qed.

Lemma C6_split_overpaid_rejected_witness :
  snd (switchBatch (Ex.switch_req "B3" "SPLIT") Ex.gen1 Ex.db0) = Ex.db0 /\
  statusCode (fst (switchBatch (Ex.switch_req "B3" "SPLIT") Ex.gen1 Ex.db0)) = 400.
Proof.
  destruct (C6_split_overpaid_rejected (Ex.switch_req "B3" "SPLIT") Ex.gen1 Ex.db0
              Ex.B3 Ex.F1) as (Hdb & _ & Hresp).
  - reflexivity.
  - vm_compute. reflexivity.
  - vm_compute. reflexivity.
  - vm_compute. reflexivity.
  - split; [exact Hdb |].
    rewrite (Hresp Ex.S1); [reflexivity | vm_compute; reflexivity | reflexivity |
                            vm_compute; reflexivity].
Defined.

(** ** The latest history row *)

Lemma fold_newer (l : list BatchHistory) (acc : option BatchHistory) (h : BatchHistory) :
  fold_left newer l acc = Some h ->
  (acc = Some h \/ In h l) /\
  (forall x, acc = Some x \/ In x l -> createdAt x <= createdAt h).
Proof.
  revert acc. induction l as [| a l IH]; intros acc Hfold; simpl in Hfold.
  - split; [left; exact Hfold |].
    intros x [Hx | []]. rewrite Hfold in Hx. injection Hx as ->. lia.
  - destruct (IH _ Hfold) as [Hmem Hmax].
    assert (exists y, newer acc a = Some y /\ (y = a \/ acc = Some y) /\
                      createdAt a <= createdAt y /\
                      (forall x, acc = Some x -> createdAt x <= createdAt y))
      as (y & Hy & Hwho & Hay & Haccy).
    { unfold newer. destruct acc as [b |].
      - destruct (createdAt b <? createdAt a) eqn:Hlt.
        + exists a. repeat split; [left; reflexivity | lia |].
          intros x [= <-]. lia.
        + exists b. repeat split; [right; reflexivity | lia |].
          intros x [= <-]. lia.
      - exists a. repeat split; [left; reflexivity | lia |]. intros x [=]. }
    assert (createdAt y <= createdAt h) as Hyh by (apply Hmax; left; exact Hy).
    split.
    + destruct Hmem as [Hn | Hin]; [| right; right; exact Hin].
      rewrite Hy in Hn. injection Hn as ->.
      destruct Hwho as [-> | Hacc]; [right; left; reflexivity | left; exact Hacc].
    + intros x [Hx | [-> | Hx]].
      * specialize (Haccy x Hx). lia.
      * lia.
      * apply Hmax. right. exact Hx.
Qed.

(** [findFirst] with [orderBy: { createdAt: "desc" }] returns a most recent
    history row of the student. *)
Lemma latest_is_most_recent sid db h :
  batchHistory_findFirst_latest sid db = Some h -> most_recent_history db sid h.
Proof.
  unfold batchHistory_findFirst_latest. intros H.
  apply fold_newer in H. destruct H as [[[=] | Hin] Hmax].
  apply filter_In in Hin. destruct Hin as [Hin Hsid]. apply String.eqb_eq in Hsid.
  split; [exact Hin |]. split; [exact Hsid |].
  intros h' Hin' Hsid'. apply Hmax. right.
  apply filter_In. split; [exact Hin' |]. apply String.eqb_eq. exact Hsid'.
Qed.

(** C8: when batchHistoryId is not the id of a most recent history row of
    the student, editBatchSwitch answers 400 "Only latest switch can be
    edited" and leaves the database as it was. *)
Theorem C8_edit_only_latest req g db :
  (forall h, most_recent_history db (ed_studentId req) h ->
             bh_id h <> ed_batchHistoryId req) ->
  editBatchSwitch req g db
  = (sendResponse 400 false "Only latest switch can be edited" PayloadNull, db).
Proof.
  intros Hstale. unfold editBatchSwitch.
  destruct (batchHistory_findFirst_latest (ed_studentId req) db) as [h |] eqn:Hlatest;
    simpl; [| reflexivity].
  apply latest_is_most_recent in Hlatest.
  apply Hstale, String.eqb_neq in Hlatest. rewrite Hlatest. reflexivity.
Qed.

Lemma C8_edit_only_latest_witness :
  List.map bh_id (batchHistories Ex.db2) = ["H1"; "H2"]%string /\
  editBatchSwitch (Ex.edit_req "H1" "B1" "TRANSFER") Ex.gen3 Ex.db2
  = (sendResponse 400 false "Only latest switch can be edited" PayloadNull, Ex.db2).
Proof.
  split; [vm_compute; reflexivity |].
  apply C8_edit_only_latest.
  intros h (Hin & _ & Hmax).
  vm_compute in Hin. destruct Hin as [<- | [<- | []]].
  - exfalso.
    assert (200 <= 100) as Habs; [| lia].
    apply (Hmax (mkHistory Ex.gen2 "S1" "B2" "B3" "2025-01-11" "timing" "F1" "F1" TRANSFER)).
    + vm_compute. right. left. reflexivity.
    + reflexivity.
  - discriminate.
Defined.

(** ** The two steps of the edit transaction *)

Lemma edit_reverse_tx_inr req h db cs db1 :
  edit_reverse_tx req h db = inr (cs, db1) ->
  exists s,
    students db !! ed_studentId req = Some s /\
    cs = Some (set_currentBatchId (fromBatchId h) s) /\
    is_Some (batches db !! fromBatchId h) /\
    students db1 = alter (set_currentBatchId (fromBatchId h)) (ed_studentId req) (students db) /\
    batches db1 = alter decrement (toBatchId h) (alter increment (fromBatchId h) (batches db)) /\
    fees db1 = reversed_fees h db /\
    payments db1 = reversed_payments h db /\
    batchHistories db1
    = List.filter (fun x => negb (has_bh_id (ed_batchHistoryId req) x)) (batchHistories db).
Proof.
  unfold edit_reverse_tx, reversed_fees, reversed_payments. cbv zeta. intros H.
  apply bind_inr in H. destruct H as (a1 & d1 & H1 & H).
  apply bind_inr in H. destruct H as (a2 & d2 & H2 & H).
  apply bind_inr in H. destruct H as (a3 & d3 & H3 & H).
  apply bind_inr in H. destruct H as (a4 & d4 & H4 & H).
  apply bind_inr in H. destruct H as (a5 & d5 & H5 & H).
  destruct (String.eqb (feeIdFrom h) (feeIdTo h)); cbn [negb] in H4;
    tx_inv; simpl in *;
    (eexists; split; [eassumption |]);
    unfold student_findUnique; simpl; rewrite lookup_alter_eq;
    match goal with Hs : students db !! _ = Some _ |- _ => rewrite Hs end;
    simpl; repeat split; eauto.
Qed.

Lemma edit_apply_tx_inr req g toBatch cso db1 u db2 :
  edit_apply_tx req g toBatch cso db1 = inr (u, db2) ->
  exists cs activeFee,
    cso = Some cs /\
    fee_findFirst (is_open_fee_of (ed_studentId req)) db1 = Some activeFee /\
    is_Some (students db1 !! ed_studentId req) /\
    is_Some (batches db1 !! currentBatchId cs) /\
    students db2 = alter (set_currentBatchId (ed_newToBatchId req)) (ed_studentId req)
                     (students db1) /\
    batches db2 = alter increment (ed_newToBatchId req)
                    (alter decrement (currentBatchId cs) (batches db1)) /\
    edit_apply_outcome req g toBatch cs activeFee db1 db2.
Proof.
  unfold edit_apply_tx, edit_apply_outcome. intros H.
  apply bind_inr in H. destruct H as (q & d0 & Hq & H).
  apply query_inr in Hq. destruct Hq as [-> ->].
  destruct (fee_findFirst_include_payments (is_open_fee_of (ed_studentId req)) db1)
    as [[activeFee ps] |] eqn:Hfee; [| discriminate].
  apply fee_findFirst_include_payments_Some in Hfee. destruct Hfee as [Hfee ->].
  destruct cso as [cs |]; [| discriminate].
  exists cs, activeFee. split; [reflexivity |]. split; [exact Hfee |].
  cbv zeta in H |- *.
  destruct (String.eqb (ed_newFeeAction req) "TRANSFER") eqn:E1;
    destruct (String.eqb (ed_newFeeAction req) "NEW_FEE") eqn:E2;
    destruct (String.eqb (ed_newFeeAction req) "SPLIT") eqn:E3;
    string_eqs; try (exfalso; congruence);
    tx_inv; simpl in *.
  - repeat split; eauto; left; repeat split; assumption.
  - repeat split; eauto; right; left; repeat split; assumption.
  - repeat split; eauto; right; right; left; repeat split; assumption.
  - repeat split; eauto; right; right; right; repeat split; assumption.
Qed.

(** ** The successful runs of [editBatchSwitch] *)

Lemma editBatchSwitch_success req g db r db' :
  editBatchSwitch req g db = (r, db') ->
  success r = true ->
  exists h toBatch cs db1,
    batchHistory_findFirst_latest (ed_studentId req) db = Some h /\
    bh_id h = ed_batchHistoryId req /\
    batches db !! ed_newToBatchId req = Some toBatch /\
    currentCount toBatch < slotLimit toBatch /\
    edit_reverse_tx req h db = inr (cs, db1) /\
    edit_apply_tx req g toBatch cs db1 = inr (tt, db') /\
    r = sendResponse 200 true "Batch switch edited successfully" PayloadNull.
Proof.
  unfold editBatchSwitch, batch_findUnique, transaction, TryCatch, edit_tx, post_commit.
  destruct (batchHistory_findFirst_latest (ed_studentId req) db) as [h |] eqn:Hlatest;
    simpl; [| intros [= <- <-]; discriminate].
  destruct (String.eqb (bh_id h) (ed_batchHistoryId req)) eqn:Hid;
    simpl; [| intros [= <- <-]; discriminate].
  apply String.eqb_eq in Hid.
  destruct (batches db !! ed_newToBatchId req) as [toBatch |] eqn:Hto;
    [| intros [= <- <-]; discriminate].
  destruct (currentCount toBatch >=? slotLimit toBatch) eqn:Hfull;
    [intros [= <- <-]; discriminate |].
  destruct (bind _ _ db) as [e | [[] db2]] eqn:Htx; [intros [= <- <-]; discriminate |].
  destruct (gen_postCommit g); [intros [= <- <-]; discriminate |].
  intros [= <- <-] _.
  apply bind_inr in Htx. destruct Htx as (cs & db1 & Hrev & Happ).
  exists h, toBatch, cs, db1. repeat split; try assumption. lia.
Qed.

(** ** Response payloads *)

(** C9 (as amended): every successful switchBatch answer carries the
    transfer id minted for the call, and for NEW_FEE and SPLIT also the
    history row the call created; a successful editBatchSwitch answer
    carries no payload (null). *)
Theorem C9_response_payload :
  (forall req g db r db',
     switchBatch req g db = (r, db') -> success r = true ->
     (exists bh o n, data r = PayloadSwitch bh o n (gen_transferId g)) /\
     (sw_feeAction req = "NEW_FEE"%string \/ sw_feeAction req = "SPLIT"%string ->
      exists h, batchHistories db' = batchHistories db ++ [h] /\
                payload_has r h (gen_transferId g))) /\
  (forall req g db r db',
     editBatchSwitch req g db = (r, db') -> success r = true ->
     data r = PayloadNull).
Proof.
  split.
  - intros req g db r db' Hrun Hok.
    destruct (switchBatch_success _ _ _ _ _ Hrun Hok)
      as (student & toBatch & oldFee & _ & _ & _ & _ & _ & Hout).
    split.
    + destruct Hout as [(_ & _ & _ & _ & Hd) | [(_ & H) | (_ & H)]].
      * eauto.
      * cbv zeta in H. destruct H as (_ & _ & _ & _ & u & Hd). eauto.
      * cbv zeta in H. destruct H as (_ & _ & _ & _ & _ & u & Hd). eauto.
    + intros [Hact | Hact].
      * destruct (switch_outcome_NEW_FEE _ _ _ _ _ _ _ _ Hout Hact)
          as (_ & _ & _ & Hh & u & Hd).
        eexists. split; [exact Hh |]. unfold payload_has. eauto.
      * destruct (switch_outcome_SPLIT _ _ _ _ _ _ _ _ Hout Hact)
          as (_ & _ & _ & _ & Hh & u & Hd).
        eexists. split; [exact Hh |]. unfold payload_has. eauto.
  - intros req g db r db' Hrun Hok.
    destruct (editBatchSwitch_success _ _ _ _ _ Hrun Hok)
      as (h & toBatch & cs & db1 & _ & _ & _ & _ & _ & _ & ->).
    reflexivity.
Qed.

Lemma C9_response_payload_witness :
  (exists h, payload_has (fst (switchBatch (Ex.switch_req "B2" "SPLIT") Ex.gen1 Ex.db0))
                         h "T1") /\
  data (fst (editBatchSwitch (Ex.edit_req "H1" "B3" "TRANSFER") Ex.gen2 Ex.db1))
  = PayloadNull.
Proof.
  destruct C9_response_payload as [Hswitch Hedit]. split.
  - destruct (Hswitch (Ex.switch_req "B2" "SPLIT") Ex.gen1 Ex.db0
                (fst (switchBatch (Ex.switch_req "B2" "SPLIT") Ex.gen1 Ex.db0))
                (snd (switchBatch (Ex.switch_req "B2" "SPLIT") Ex.gen1 Ex.db0)))
      as [_ Hh].
    + apply surjective_pairing.
    + vm_compute. reflexivity.
    + destruct Hh as (h & _ & Hp); [right; reflexivity |]. exists h. exact Hp.
  - apply (Hedit (Ex.edit_req "H1" "B3" "TRANSFER") Ex.gen2 Ex.db1 _
             (snd (editBatchSwitch (Ex.edit_req "H1" "B3" "TRANSFER") Ex.gen2 Ex.db1))).
    + apply surjective_pairing.
    + vm_compute. reflexivity.
Defined.

(** C9 as stated fails: the edit of the latest switch succeeds and answers
    with a null payload. *)
Lemma C9_counterexample : ~ response_payload_claim.
Proof.
  intros [_ Hedit].
  destruct (Hedit (Ex.edit_req "H1" "B3" "TRANSFER") Ex.gen2 Ex.db1
              (fst (editBatchSwitch (Ex.edit_req "H1" "B3" "TRANSFER") Ex.gen2 Ex.db1))
              (snd (editBatchSwitch (Ex.edit_req "H1" "B3" "TRANSFER") Ex.gen2 Ex.db1)))
    as (h & _ & _ & o & n & Hd).
  - apply surjective_pairing.
  - vm_compute. reflexivity.
  - vm_compute in Hd. discriminate.
Qed.

(** In the TRANSFER branch the array returned by the transaction is
    destructured as [[updatedFee, batchHistory]]: the second element, the
    updated student, is what the payload carries under [batchHistory]. *)
Example switch_TRANSFER_payload :
  data (fst (switchBatch (Ex.switch_req "B2" "TRANSFER") Ex.gen1 Ex.db0))
  = PayloadSwitch (Some (RowStudent (set_currentBatchId "B2" Ex.S1))) None None "T1".
Proof. vm_compute. reflexivity. Qed.

(** ** Running the edit transaction forwards *)

Lemma bind_ok {A B} (m : Tx A) (k : A -> Tx B) db a db1 res :
  m db = inr (a, db1) -> k a db1 = res -> bind m k db = res.
Proof. unfold bind. intros -> Hk. exact Hk. Qed.

Lemma student_update_ok id f db s :
  students db !! id = Some s ->
  student_update id f db = inr (f s, with_students (alter f id (students db)) db).
Proof. unfold student_update. intros ->. reflexivity. Qed.

Lemma batch_update_ok id f db :
  is_Some (batches db !! id) ->
  exists b, batch_update id f db = inr (b, with_batches (alter f id (batches db)) db).
Proof. unfold batch_update. intros [b ->]. eexists. reflexivity. Qed.

Lemma fee_delete_ok id db :
  is_Some (List.find (has_fee_id id) (fees db)) ->
  exists r, fee_delete id db
            = inr (r, with_fees (List.filter (fun x => negb (has_fee_id id x)) (fees db)) db).
Proof. unfold fee_delete. intros [r ->]. eexists. reflexivity. Qed.

Lemma fee_update_ok id f db :
  is_Some (List.find (has_fee_id id) (fees db)) ->
  exists r, fee_update id f db
            = inr (r, with_fees (updateWhere (has_fee_id id) f (fees db)) db).
Proof. unfold fee_update. intros [r ->]. eexists. reflexivity. Qed.

Lemma batchHistory_delete_ok id db :
  is_Some (List.find (has_bh_id id) (batchHistories db)) ->
  exists r, batchHistory_delete id db
            = inr (r, with_batchHistories
                        (List.filter (fun x => negb (has_bh_id id x)) (batchHistories db)) db).
Proof. unfold batchHistory_delete. intros [r ->]. eexists. reflexivity. Qed.

Lemma find_is_Some {A} (p : A -> bool) (l : list A) (x : A) :
  In x l -> p x = true -> is_Some (List.find p l).
Proof.
  induction l as [| a l IH]; intros Hin Hp; [destruct Hin |].
  simpl. destruct (p a) eqn:Hpa; [eauto |].
  destruct Hin as [-> | Hin]; [congruence | apply IH; assumption].
Qed.

Lemma find_is_Some_inv {A} (p : A -> bool) (l : list A) :
  is_Some (List.find p l) -> exists x, In x l /\ p x = true.
Proof. intros [x Hx]. exists x. apply find_some in Hx. exact Hx. Qed.

Lemma find_fee_after_delete a b (l : list Fee) :
  a <> b ->
  is_Some (List.find (has_fee_id a) l) ->
  is_Some (List.find (has_fee_id a)
             (List.filter (fun x => negb (has_fee_id b x)) l)).
Proof.
  intros Hne Hsome. apply find_is_Some_inv in Hsome. destruct Hsome as (x & Hin & Hx).
  apply (find_is_Some _ _ x); [| exact Hx].
  apply filter_In. split; [exact Hin |].
  apply has_fee_id_true in Hx. apply negb_true_iff, has_fee_id_false. congruence.
Qed.

(** STEP 1 runs to its end when the rows it writes exist. *)
Lemma edit_reverse_tx_ok req h db s :
  students db !! ed_studentId req = Some s ->
  is_Some (batches db !! fromBatchId h) ->
  is_Some (batches db !! toBatchId h) ->
  (feeIdFrom h = feeIdTo h \/
   is_Some (List.find (has_fee_id (feeIdTo h)) (fees db)) /\
   is_Some (List.find (has_fee_id (feeIdFrom h)) (fees db))) ->
  is_Some (List.find (has_bh_id (ed_batchHistoryId req)) (batchHistories db)) ->
  exists db1,
    edit_reverse_tx req h db = inr (Some (set_currentBatchId (fromBatchId h) s), db1).
Proof.
  intros Hs Hfrom Hto Hfees Hhist. unfold edit_reverse_tx. cbv zeta.
  pose proof (student_update_ok (ed_studentId req)
                (set_currentBatchId (fromBatchId h)) db s Hs) as H1.
  destruct (batch_update_ok (fromBatchId h) increment
              (with_students (alter (set_currentBatchId (fromBatchId h))
                                (ed_studentId req) (students db)) db) Hfrom) as [b1 H2].
  set (d2 := with_batches _ _) in H2.
  destruct (batch_update_ok (toBatchId h) decrement d2) as [b2 H3].
  { subst d2. simpl. apply lookup_alter_is_Some. exact Hto. }
  set (d3 := with_batches _ d2) in H3.
  assert (exists d4,
            (if negb (String.eqb (feeIdFrom h) (feeIdTo h))
             then await _ <- payment_updateMany
                     (fun p => String.eqb (payment_feeId p) (feeIdTo h)
                               && not_cancelled_or_inactive p)
                     (set_payment_feeId (feeIdFrom h));
                  await _ <- fee_delete (feeIdTo h);
                  await _ <- fee_update (feeIdFrom h) (set_fee_status PENDING);
                  ret tt
             else ret tt) d3 = inr (tt, d4) /\
            students d4 = students d3 /\ batchHistories d4 = batchHistories db)
    as (d4 & H4 & Hs4 & Hh4).
  { destruct (String.eqb (feeIdFrom h) (feeIdTo h)) eqn:Heq; cbn [negb].
    - exists d3. repeat split; reflexivity.
    - apply String.eqb_neq in Heq.
      destruct Hfees as [Hsame | [HfTo HfFrom]]; [contradiction |].
      set (d31 := with_payments
                    (updateWhere (fun p => String.eqb (payment_feeId p) (feeIdTo h)
                                           && not_cancelled_or_inactive p)
                                 (set_payment_feeId (feeIdFrom h)) (payments d3)) d3).
      destruct (fee_delete_ok (feeIdTo h) d31 HfTo) as [r1 Hd].
      set (d32 := with_fees _ d31) in Hd.
      destruct (fee_update_ok (feeIdFrom h) (set_fee_status PENDING) d32) as [r2 Hu].
      { subst d32. simpl. apply find_fee_after_delete; assumption. }
      eexists. split.
      + eapply bind_ok; [reflexivity |].
        eapply bind_ok; [exact Hd |].
        eapply bind_ok; [exact Hu |]. reflexivity.
      + split; reflexivity. }
  destruct (batchHistory_delete_ok (ed_batchHistoryId req) d4) as [r5 H5].
  { rewrite Hh4. exact Hhist. }
  eexists.
  eapply bind_ok; [exact H1 |].
  eapply bind_ok; [exact H2 |].
  eapply bind_ok; [exact H3 |].
  eapply bind_ok; [exact H4 |].
  eapply bind_ok; [exact H5 |].
  unfold query, student_findUnique. simpl. rewrite Hs4. subst d3 d2. simpl.
  rewrite lookup_alter_eq, Hs. reflexivity.
Qed.


Lemma latest_has_row sid db h :
  batchHistory_findFirst_latest sid db = Some h ->
  is_Some (List.find (has_bh_id (bh_id h)) (batchHistories db)).
Proof.
  intros H. apply latest_is_most_recent in H. destruct H as (Hin & _).
  apply (find_is_Some _ _ h Hin). unfold has_bh_id. apply String.eqb_refl.
Qed.

(** ** An edit with an unknown fee action *)

(** Once the three checks of the edit have passed and its transaction has
    committed, the answer depends on the calls that follow the commit
    only; the tables are the committed ones either way. *)
Lemma editBatchSwitch_committed req g db h toBatch db2 :
  batchHistory_findFirst_latest (ed_studentId req) db = Some h ->
  bh_id h = ed_batchHistoryId req ->
  batches db !! ed_newToBatchId req = Some toBatch ->
  currentCount toBatch < slotLimit toBatch ->
  edit_tx req g h toBatch db = inr (tt, db2) ->
  editBatchSwitch req g db
  = match gen_postCommit g with
    | Some e => TryCatch e db2
    | None => (sendResponse 200 true "Batch switch edited successfully" PayloadNull, db2)
    end.
Proof.
  intros Hlatest Hid Hto Hroom Htx.
  unfold editBatchSwitch, batch_findUnique, transaction, not_latest, post_commit.
  rewrite Hlatest, Hid, String.eqb_refl. cbn [negb]. rewrite Hto.
  assert ((currentCount toBatch >=? slotLimit toBatch) = false) as -> by lia.
  rewrite Htx. destruct (gen_postCommit g); reflexivity.
Qed.


(** ** Round trip: a switch, then the edit that sends it back *)

Lemma increment_decrement b : increment (decrement b) = b.
Proof.
  destruct b as [i n l c k]. unfold increment, decrement, set_currentCount. simpl.
  f_equal. lia.
Qed.

Lemma decrement_increment b : decrement (increment b) = b.
Proof.
  destruct b as [i n l c k]. unfold increment, decrement, set_currentCount. simpl.
  f_equal. lia.
Qed.

Lemma round_trip_batches (m : gmap string Batch) (from to b : string) :
  alter increment from
    (alter decrement from
       (alter decrement to
          (alter increment from
             (alter increment to (alter decrement from m))))) !! b
  = m !! b.
Proof.
  rewrite !lookup_alter.
  repeat case_decide; subst; try congruence;
    repeat (rewrite ?lookup_alter_eq, ?lookup_alter_ne by congruence);
    destruct (m !! b) as [x |]; simpl; try reflexivity;
    rewrite ?increment_decrement, ?decrement_increment,
            ?increment_decrement, ?decrement_increment; reflexivity.
Qed.

Lemma switch_outcome_history req g db student toBatch oldFee r db' :
  switch_outcome req g db student toBatch oldFee r db' ->
  exists feeTo mode,
    batchHistories db' = batchHistories db ++
      [mkHistory g (sw_studentId req) (sw_fromBatchId req) (sw_toBatchId req)
                 (sw_changeDate req) (sw_reason req) (fee_id oldFee) feeTo mode] /\
    (sw_feeAction req = "TRANSFER"%string ->
     feeTo = fee_id oldFee /\ fees db' = fees db /\ payments db' = payments db) /\
    (sw_feeAction req = "TRANSFER"%string \/ sw_feeAction req = "NEW_FEE"%string \/
     sw_feeAction req = "SPLIT"%string).
Proof.
  intros [(Ha & Hf & Hp & Hh & _) | [(Ha & H) | (Ha & H)]].
  - eexists _, _. split; [exact Hh |]. split; [intros _; repeat split; assumption | tauto].
  - cbv zeta in H. destruct H as (_ & _ & _ & Hh & _).
    eexists _, _. split; [exact Hh |].
    split; [rewrite Ha; discriminate | tauto].
  - cbv zeta in H. destruct H as (_ & _ & _ & _ & Hh & _).
    eexists _, _. split; [exact Hh |].
    split; [rewrite Ha; discriminate | tauto].
Qed.

(** The row found under the id of a history row that was just created is
    that row. *)
Lemma created_history_found (l : list BatchHistory) (hnew h : BatchHistory) :
  List.existsb (has_bh_id (bh_id hnew)) l = false ->
  In h (l ++ [hnew]) -> bh_id h = bh_id hnew -> h = hnew.
Proof.
  intros Hfresh Hin Hid. apply in_app_or in Hin.
  destruct Hin as [Hin | [<- | []]]; [| reflexivity].
  pose proof (existsb_false_In _ _ _ Hfresh Hin) as Hne.
  unfold has_bh_id in Hne. apply String.eqb_neq in Hne. contradiction.
Qed.

Lemma pending_fee_exists sid (l : list Fee) (x : Fee) :
  In x l -> is_pending_fee_of sid x = true ->
  exists y, List.find (is_pending_fee_of sid) l = Some y /\ fee_status y = PENDING.
Proof.
  intros Hin Hp. destruct (find_is_Some _ _ _ Hin Hp) as [y Hy].
  exists y. split; [exact Hy |].
  apply find_some in Hy. destruct Hy as [_ Hy].
  apply is_pending_fee_of_true in Hy. tauto.
Qed.

Lemma is_open_fee_found sid db f :
  fee_findFirst (is_open_fee_of sid) db = Some f -> In f (fees db).
Proof. unfold fee_findFirst. intros H. apply find_some in H. tauto. Qed.

(** C7 (as amended): a successful switch followed by a successful edit of
    its history row back to the original batch with the original fee action
    restores the student's currentBatchId and every batch's record (so both
    counters); the student's open fee is PENDING again; under TRANSFER the
    fee and payment tables are exactly as before, so the open fee's
    balanceAmount is restored too. *)
Theorem C7_round_trip req g db r1 db1 date why g2 r2 db2 :
  switchBatch req g db = (r1, db1) ->
  success r1 = true ->
  editBatchSwitch (edit_back req g date why) g2 db1 = (r2, db2) ->
  success r2 = true ->
  currentBatchId <$> students db2 !! sw_studentId req
  = currentBatchId <$> students db !! sw_studentId req /\
  (forall b, batches db2 !! b = batches db !! b) /\
  fee_status <$> open_fee (sw_studentId req) db2
  = fee_status <$> open_fee (sw_studentId req) db /\
  (sw_feeAction req = "TRANSFER"%string ->
   fees db2 = fees db /\ payments db2 = payments db /\
   balanceAmount <$> open_fee (sw_studentId req) db2
   = balanceAmount <$> open_fee (sw_studentId req) db).
Proof.
  intros Hsw Hok1 Hed Hok2.
  destruct (switchBatch_success _ _ _ _ _ Hsw Hok1)
    as (student & toBatch & oldFee & Hval & _ & Hfresh & Hst1 & Hba1 & Hout).
  destruct Hval as (Hs & Hcur & _ & _ & Hfee).
  destruct (switch_outcome_history _ _ _ _ _ _ _ _ Hout)
    as (feeTo & mode & Hh1 & Htransfer & Hvalid).
  destruct (editBatchSwitch_success _ _ _ _ _ Hed Hok2)
    as (h & toBatch' & cs & dbR & Hlatest & Hid & _ & _ & Hrev & Happ & _).
  simpl in Hlatest, Hid.
  (* the edited row is the row the switch created *)
  apply latest_is_most_recent in Hlatest. destruct Hlatest as (Hin & _ & _).
  rewrite Hh1 in Hin.
  apply (created_history_found (batchHistories db)
           (mkHistory g (sw_studentId req) (sw_fromBatchId req) (sw_toBatchId req)
                      (sw_changeDate req) (sw_reason req) (fee_id oldFee) feeTo mode)
           h Hfresh) in Hin; [| exact Hid].
  destruct (edit_reverse_tx_inr _ _ _ _ _ Hrev)
    as (s & Hs1 & -> & _ & HstR & HbaR & HfeR & HpaR & _).
  destruct (edit_apply_tx_inr _ _ _ _ _ _ _ Happ)
    as (cs & af & Hcs & Haf & _ & _ & Hst2 & Hba2 & Hout2).
  injection Hcs as <-. simpl in HstR, HbaR, Hst2, Hba2, Haf, Hout2.
  subst h. simpl in HstR, HbaR, Hst2, Hba2.
  assert (open_fee (sw_studentId req) db = Some oldFee) as Hopen by exact Hfee.
  destruct (open_fee_found _ _ _ Hfee) as (_ & _ & Hpending).
  split.
  { rewrite Hst2, HstR, Hst1, !lookup_alter_eq, Hs. simpl. congruence. }
  split.
  { intros b. rewrite Hba2, HbaR, Hba1. apply round_trip_batches. }
  assert (sw_feeAction req = "TRANSFER"%string ->
          fees db2 = fees db /\ payments db2 = payments db) as Hsame.
  { intros Hact. destruct (Htransfer Hact) as (-> & Hf1 & Hp1).
    unfold reversed_fees in HfeR. unfold reversed_payments in HpaR.
    simpl in HfeR, HpaR. rewrite String.eqb_refl in HfeR, HpaR.
    destruct Hout2 as [(_ & Hf2 & Hp2 & _) | [(Ha & _) | [(Ha & _) | (Ha & _)]]];
      [split; congruence
      | simpl in Ha; rewrite Hact in Ha; discriminate
      | simpl in Ha; rewrite Hact in Ha; discriminate
      | simpl in Ha; contradiction]. }
  split.
  { rewrite Hopen. simpl. rewrite Hpending.
    assert (exists y, open_fee (sw_studentId req) db2 = Some y /\ fee_status y = PENDING)
      as (y & -> & Hy); [| simpl; rewrite Hy; reflexivity].
    pose proof (is_open_fee_found _ _ _ Haf) as Hafin.
    unfold open_fee, fee_findFirst.
    destruct Hout2 as [(Ha & _) | [(Ha & Hfr & Hf2 & _) | [(Ha & Hfr & Hf2 & _) | (Ha & Hb & Hc & _)]]];
      simpl in Ha.
    - destruct (Hsame Ha) as [-> _]. exists oldFee. split; assumption.
    - rewrite Hf2. eapply pending_fee_exists.
      + apply created_fee_survives; [exact Hafin | exact Hfr].
      + unfold is_pending_fee_of. simpl. rewrite String.eqb_refl. reflexivity.
    - rewrite Hf2. eapply pending_fee_exists.
      + apply created_fee_survives; [exact Hafin | exact Hfr].
      + unfold is_pending_fee_of. simpl. rewrite String.eqb_refl. reflexivity.
    - simpl in Hb, Hc. tauto. }
  intros Hact. destruct (Hsame Hact) as [Hf Hp].
  split; [exact Hf |]. split; [exact Hp |].
  unfold open_fee, fee_findFirst. rewrite Hf. reflexivity.
Qed.

Lemma C7_round_trip_witness :
  let db1 := snd (switchBatch (Ex.switch_req "B2" "NEW_FEE") Ex.gen1 Ex.db0) in
  let db2 := snd (editBatchSwitch
                    (edit_back (Ex.switch_req "B2" "NEW_FEE") Ex.gen1 "2025-01-12" "back")
                    Ex.gen2 db1) in
  currentBatchId <$> students db2 !! "S1"%string = Some "B1"%string /\
  batches db2 !! "B1"%string = Some Ex.B1 /\
  batches db2 !! "B2"%string = Some Ex.B2 /\
  fee_status <$> open_fee "S1" db2 = Some PENDING.
Proof.
  intros db1 db2.
  destruct (C7_round_trip (Ex.switch_req "B2" "NEW_FEE") Ex.gen1 Ex.db0
              (fst (switchBatch (Ex.switch_req "B2" "NEW_FEE") Ex.gen1 Ex.db0)) db1
              "2025-01-12" "back" Ex.gen2
              (fst (editBatchSwitch
                      (edit_back (Ex.switch_req "B2" "NEW_FEE") Ex.gen1 "2025-01-12" "back")
                      Ex.gen2 db1)) db2)
    as (Hstudent & Hbatches & Hstatus & _).
  - apply surjective_pairing.
  - vm_compute. reflexivity.
  - apply surjective_pairing.
  - vm_compute. reflexivity.
  - split; [exact Hstudent |].
    split; [rewrite Hbatches; vm_compute; reflexivity |].
    split; [rewrite Hbatches; vm_compute; reflexivity |].
    exact Hstatus.
Defined.

(** C7 as stated fails: S1 owes 500 on fee F1 (final fee 900, 400 paid).
    After a NEW_FEE switch to B2 and the edit back to B1, the open fee is a
    new fee F3 whose balance is B1's course fee less the payments,
    1000 - 400 = 600. *)
Lemma C7_counterexample : ~ round_trip_claim.
Proof.
  intros Hclaim.
  destruct (Hclaim (Ex.switch_req "B2" "NEW_FEE") Ex.gen1 Ex.db_clean
              (fst (switchBatch (Ex.switch_req "B2" "NEW_FEE") Ex.gen1 Ex.db_clean))
              (snd (switchBatch (Ex.switch_req "B2" "NEW_FEE") Ex.gen1 Ex.db_clean))
              "2025-01-12" "back" Ex.gen2
              (fst (editBatchSwitch
                      (edit_back (Ex.switch_req "B2" "NEW_FEE") Ex.gen1 "2025-01-12" "back")
                      Ex.gen2
                      (snd (switchBatch (Ex.switch_req "B2" "NEW_FEE") Ex.gen1 Ex.db_clean))))
              (snd (editBatchSwitch
                      (edit_back (Ex.switch_req "B2" "NEW_FEE") Ex.gen1 "2025-01-12" "back")
                      Ex.gen2
                      (snd (switchBatch (Ex.switch_req "B2" "NEW_FEE") Ex.gen1 Ex.db_clean)))))
    as (_ & _ & _ & _ & Hbalance).
  - apply surjective_pairing.
  - vm_compute. reflexivity.
  - apply surjective_pairing.
  - vm_compute. reflexivity.
  - vm_compute in Hbalance. discriminate.
Qed.

(** The balances before and after that round trip. *)
Example round_trip_NEW_FEE_balance :
  let db1 := snd (switchBatch (Ex.switch_req "B2" "NEW_FEE") Ex.gen1 Ex.db_clean) in
  let db2 := snd (editBatchSwitch
                    (edit_back (Ex.switch_req "B2" "NEW_FEE") Ex.gen1 "2025-01-12" "back")
                    Ex.gen2 db1) in
  balanceAmount <$> open_fee "S1" Ex.db_clean = Some 500 /\
  balanceAmount <$> open_fee "S1" db2 = Some 600.
Proof. vm_compute. split; reflexivity. Qed.

(** ** STEP 2 of the edit against the switch it re-applies *)

(** C3 fails on the code.  Take [Ex.db1] (S1 was moved from B1 to B2 by a
    TRANSFER switch, history row H1) and edit H1.  STEP 1 brings the
    database back to [Ex.db0]; on that state
    - with SPLIT into B3 (course fee 300, 450 paid) [switchBatch] rejects
      with 400 and writes nothing, while STEP 2 of the edit creates a fee of
      0 and closes F1;
    - with NEW_FEE into B2 [switchBatch] copies the advance of 100 to the
      new fee and leaves the cancelled payment P2 on F1, while STEP 2 leaves
      the advance null and moves P2 as well;
    - with SPLIT into B2 [switchBatch] stamps the transfer id on both fees,
      STEP 2 on neither. *)
Theorem C3_edit_reapplication_diverges :
  edit_reverse_tx (Ex.edit_req "H1" "B3" "SPLIT") Ex.H1 Ex.db1
  = inr (Some Ex.S1, Ex.db0) /\
  (* SPLIT into B3 *)
  reapply_by_switchBatch (Ex.edit_req "H1" "B3" "SPLIT") Ex.gen2 Ex.S1 Ex.db0
  = (sendResponse 400 false
       "Student has paid more than the new batch fee. Please create a new admission."
       PayloadNull, Ex.db0) /\
  (exists db2,
     edit_apply_tx (Ex.edit_req "H1" "B3" "SPLIT") Ex.gen2 Ex.B3 (Some Ex.S1) Ex.db0
     = inr (tt, db2) /\
     List.map fee_columns (fees db2)
     = [("F1"%string, INACTIVE, 900, 500, Some 100, None);
        ("F3"%string, PENDING, 0, 0, None, None)]) /\
  fst (editBatchSwitch (Ex.edit_req "H1" "B3" "SPLIT") Ex.gen2 Ex.db1)
  = sendResponse 200 true "Batch switch edited successfully" PayloadNull /\
  (* NEW_FEE into B2 *)
  (let by_switch := snd (reapply_by_switchBatch (Ex.edit_req "H1" "B2" "NEW_FEE")
                           Ex.gen2 Ex.S1 Ex.db0) in
   let by_edit := snd (editBatchSwitch (Ex.edit_req "H1" "B2" "NEW_FEE") Ex.gen2 Ex.db1) in
   List.map fee_columns (fees by_switch)
   = [("F1"%string, CANCELLED, 900, 500, Some 100, None);
      ("F3"%string, PENDING, 800, 350, Some 100, None)] /\
   List.map fee_columns (fees by_edit)
   = [("F1"%string, CANCELLED, 900, 500, Some 100, None);
      ("F3"%string, PENDING, 800, 350, None, None)] /\
   List.map payment_feeId (payments by_switch) = ["F3"; "F1"]%string /\
   List.map payment_feeId (payments by_edit) = ["F3"; "F3"]%string) /\
  (* SPLIT into B2 *)
  (let by_switch := snd (reapply_by_switchBatch (Ex.edit_req "H1" "B2" "SPLIT")
                           Ex.gen2 Ex.S1 Ex.db0) in
   let by_edit := snd (editBatchSwitch (Ex.edit_req "H1" "B2" "SPLIT") Ex.gen2 Ex.db1) in
   List.map fee_columns (fees by_switch)
   = [("F1"%string, INACTIVE, 900, 500, Some 100, Some "T2"%string);
      ("F3"%string, PENDING, 350, 350, None, Some "T2"%string)] /\
   List.map fee_columns (fees by_edit)
   = [("F1"%string, INACTIVE, 900, 500, Some 100, None);
      ("F3"%string, PENDING, 350, 350, None, None)]).
Proof.
  split; [vm_compute; reflexivity |].
  split; [vm_compute; reflexivity |].
  split; [eexists; split; vm_compute; reflexivity |].
  split; [vm_compute; reflexivity |].
  split; vm_compute; repeat split; reflexivity.
Qed.

(** Where the two do agree: under TRANSFER, STEP 2 and [switchBatch] leave
    the same five tables. *)
Example edit_reapplication_TRANSFER_agrees :
  snd (reapply_by_switchBatch (Ex.edit_req "H1" "B3" "TRANSFER") Ex.gen2 Ex.S1 Ex.db0)
  = snd (editBatchSwitch (Ex.edit_req "H1" "B3" "TRANSFER") Ex.gen2 Ex.db1).
Proof. vm_compute. reflexivity. Qed.

(** * Further properties of the two handlers *)

(** ** All or nothing *)

Ltac rejected :=
  intros [= <- <-]; simpl;
  split; [intros _; split; [reflexivity | split; [reflexivity | tauto]] | discriminate].

(** How a call depends on the collaborators awaited after the commit: the
    call with collaborators that do not throw ([quiet g]) fixes the tables;
    a failed one is answered the same way whatever the collaborators do, a
    successful one turns into a 500 when they throw. *)
Lemma switchBatch_post_commit req g db r0 db0 :
  switchBatch req (quiet g) db = (r0, db0) ->
  (success r0 = false ->
   switchBatch req g db = (r0, db0) /\ db0 = db /\
   (statusCode r0 = 400 \/ statusCode r0 = 404 \/ statusCode r0 = 500)) /\
  (success r0 = true ->
   statusCode r0 = 200 /\
   match gen_postCommit g with
   | None => switchBatch req g db = (r0, db0)
   | Some e => exists msg,
       switchBatch req g db = (sendResponse 500 false msg (PayloadError e), db0)
   end).
Proof.
  unfold switchBatch, student_findUnique, batch_findUnique,
    fee_findFirst_include_payments, transaction, TryCatch, post_commit.
  change (gen_postCommit (quiet g)) with (@None PrismaError).
  change (gen_transferId (quiet g)) with (gen_transferId g).
  change (switch_TRANSFER_tx req (quiet g)) with (switch_TRANSFER_tx req g).
  change (switch_NEW_FEE_tx req (quiet g)) with (switch_NEW_FEE_tx req g).
  change (switch_SPLIT_tx req (quiet g)) with (switch_SPLIT_tx req g).
  destruct (students db !! sw_studentId req) as [student |]; [| rejected].
  destruct (negb _); [rejected |].
  destruct (batches db !! sw_toBatchId req) as [toBatch |]; [| rejected].
  destruct (currentCount toBatch >=? slotLimit toBatch); [rejected |].
  destruct (fee_findFirst _ db) as [oldFee |]; [| rejected].
  cbv zeta.
  destruct (String.eqb (sw_feeAction req) "TRANSFER").
  { destruct (switch_TRANSFER_tx req g oldFee db) as [e | [results db1]]; [rejected |].
    intros [= <- <-]; simpl. split; [discriminate |]. intros _. split; [reflexivity |].
    destruct (gen_postCommit g); [eexists |]; reflexivity. }
  destruct (String.eqb (sw_feeAction req) "NEW_FEE").
  { destruct (switch_NEW_FEE_tx req g toBatch oldFee _ db) as [e | [[[n u] h] db1]];
      [rejected |].
    intros [= <- <-]; simpl. split; [discriminate |]. intros _. split; [reflexivity |].
    destruct (gen_postCommit g); [eexists |]; reflexivity. }
  destruct (String.eqb (sw_feeAction req) "SPLIT"); [| rejected].
  destruct (_ >? _); [rejected |].
  destruct (switch_SPLIT_tx req g toBatch oldFee _ db) as [e | [[[n u] h] db1]];
    [rejected |].
  intros [= <- <-]; simpl. split; [discriminate |]. intros _. split; [reflexivity |].
  destruct (gen_postCommit g); [eexists |]; reflexivity.
Qed.

Lemma editBatchSwitch_post_commit req g db r0 db0 :
  editBatchSwitch req (quiet g) db = (r0, db0) ->
  (success r0 = false ->
   editBatchSwitch req g db = (r0, db0) /\ db0 = db /\
   (statusCode r0 = 400 \/ statusCode r0 = 404 \/ statusCode r0 = 500)) /\
  (success r0 = true ->
   statusCode r0 = 200 /\
   match gen_postCommit g with
   | None => editBatchSwitch req g db = (r0, db0)
   | Some e => editBatchSwitch req g db = TryCatch e db0
   end).
Proof.
  unfold editBatchSwitch, batch_findUnique, transaction, TryCatch, post_commit.
  change (gen_postCommit (quiet g)) with (@None PrismaError).
  change (edit_tx req (quiet g)) with (edit_tx req g).
  destruct (not_latest _ _); [rejected |].
  destruct (batchHistory_findFirst_latest _ db) as [h |]; [| rejected].
  destruct (batches db !! ed_newToBatchId req) as [toBatch |]; [| rejected].
  destruct (currentCount toBatch >=? slotLimit toBatch); [rejected |].
  destruct (edit_tx req g h toBatch db) as [e | [u db1]]; [rejected |].
  intros [= <- <-]; simpl. split; [discriminate |]. intros _. split; [reflexivity |].
  destruct (gen_postCommit g); reflexivity.
Qed.

(** The shape shared by the two handlers: what a call answers and leaves
    behind, given what the call with quiet collaborators does. *)
Section AllOrNothing.

Context {Req : Type} (handler : Req -> Generated -> DB -> Response * DB).
Hypothesis post_commit_of_handler : forall req g db r0 db0,
  handler req (quiet g) db = (r0, db0) ->
  (success r0 = false ->
   handler req g db = (r0, db0) /\ db0 = db /\
   (statusCode r0 = 400 \/ statusCode r0 = 404 \/ statusCode r0 = 500)) /\
  (success r0 = true ->
   statusCode r0 = 200 /\
   match gen_postCommit g with
   | None => handler req g db = (r0, db0)
   | Some e => exists msg,
       handler req g db = (sendResponse 500 false msg (PayloadError e), db0)
   end).

Lemma all_or_nothing req g db r db' :
  handler req g db = (r, db') ->
  (success r = true -> statusCode r = 200 /\ gen_postCommit g = None) /\
  (success r = false ->
   statusCode r = 400 \/ statusCode r = 404 \/ statusCode r = 500) /\
  (statusCode r = 400 \/ statusCode r = 404 -> db' = db) /\
  (success r = false -> gen_postCommit g = None -> db' = db) /\
  (db' = db \/
   exists r0, handler req (quiet g) db = (r0, db') /\ success r0 = true) /\
  (forall e r0 db0,
     gen_postCommit g = Some e ->
     handler req (quiet g) db = (r0, db0) ->
     success r0 = true ->
     success r = false /\ statusCode r = 500 /\ data r = PayloadError e /\ db' = db0).
Proof.
  intros Hrun.
  destruct (handler req (quiet g) db) as [r0 db0] eqn:Hquiet.
  destruct (post_commit_of_handler req g db r0 db0 Hquiet) as [Hfail Hok].
  destruct (success r0) eqn:Hs.
  - destruct (Hok eq_refl) as [Hcode Hpost].
    destruct (gen_postCommit g) as [e |] eqn:Hg.
    + destruct Hpost as [msg Hpost]. rewrite Hpost in Hrun. injection Hrun as <- <-.
      simpl.
      split; [discriminate |]. split; [tauto |].
      split; [intros [H | H]; discriminate H |].
      split; [discriminate |].
      split; [right; exists r0; split; [reflexivity | exact Hs] |].
      intros e' r1 db1 [= <-] [= <- <-] _. repeat split.
    + rewrite Hpost in Hrun. injection Hrun as <- <-.
      rewrite Hs, Hcode.
      split; [intros _; split; reflexivity |]. split; [discriminate |].
      split; [intros [H | H]; discriminate H |].
      split; [discriminate |].
      split; [right; exists r0; split; [reflexivity | exact Hs] |].
      discriminate.
  - destruct (Hfail eq_refl) as (Hsame & -> & Hcode).
    rewrite Hsame in Hrun. injection Hrun as <- <-.
    rewrite Hs.
    split; [discriminate |]. split; [intros _; exact Hcode |].
    split; [reflexivity |]. split; [reflexivity |].
    split; [left; reflexivity |].
    intros e r1 db1 _ [= <- <-] Hs1. congruence.
Qed.

End AllOrNothing.

(** X1: switchBatch is all or nothing on the tables, but its answer is not.
    A successful answer is a 200 and a failed one a 400, 404 or 500.  A 400
    or 404 has written nothing, and so has any failure when the calls
    awaited after the commit (communication log, cache invalidation) do not
    throw: an exception inside the transaction rolls everything back.  When
    one of those calls throws, the switch has already been committed: the
    answer is a 500 that carries the exception, and the tables are exactly
    those of the successful call. *)
Theorem X1_switchBatch_all_or_nothing req g db r db' :
  switchBatch req g db = (r, db') ->
  (success r = true -> statusCode r = 200 /\ gen_postCommit g = None) /\
  (success r = false ->
   statusCode r = 400 \/ statusCode r = 404 \/ statusCode r = 500) /\
  (statusCode r = 400 \/ statusCode r = 404 -> db' = db) /\
  (success r = false -> gen_postCommit g = None -> db' = db) /\
  (db' = db \/
   exists r0, switchBatch req (quiet g) db = (r0, db') /\ success r0 = true) /\
  (forall e r0 db0,
     gen_postCommit g = Some e ->
     switchBatch req (quiet g) db = (r0, db0) ->
     success r0 = true ->
     success r = false /\ statusCode r = 500 /\ data r = PayloadError e /\ db' = db0).
Proof.
  apply (all_or_nothing switchBatch). exact switchBatch_post_commit.
Qed.

Lemma X1_switchBatch_all_or_nothing_witness :
  let run := switchBatch (Ex.switch_req "B2" "NEW_FEE") Ex3.gen1_cache_down Ex.db0 in
  statusCode (fst run) = 500 /\
  snd run = snd (switchBatch (Ex.switch_req "B2" "NEW_FEE") Ex.gen1 Ex.db0) /\
  currentBatchId <$> students (snd run) !! "S1"%string = Some "B2"%string /\
  List.map (fun f => (fee_id f, fee_status f)) (fees (snd run))
  = [("F1"%string, CANCELLED); ("F2"%string, PENDING)] /\
  snd (switchBatch (Ex.switch_req "B9" "NEW_FEE") Ex3.gen1_cache_down Ex.db0) = Ex.db0.
Proof.
  intros run.
  destruct (X1_switchBatch_all_or_nothing (Ex.switch_req "B2" "NEW_FEE")
              Ex3.gen1_cache_down Ex.db0 (fst run) (snd run))
    as (_ & _ & _ & _ & _ & Hpost).
  - apply surjective_pairing.
  - destruct (Hpost (JsError "Redis connection lost")
                (fst (switchBatch (Ex.switch_req "B2" "NEW_FEE") Ex.gen1 Ex.db0))
                (snd (switchBatch (Ex.switch_req "B2" "NEW_FEE") Ex.gen1 Ex.db0)))
      as (_ & Hcode & _ & Hdb).
    + reflexivity.
    + apply surjective_pairing.
    + vm_compute. reflexivity.
    + split; [exact Hcode |]. split; [exact Hdb |].
      repeat split; vm_compute; reflexivity.
Defined.

(** X2: editBatchSwitch is all or nothing on the tables in the same way.  A
    rejected request (400, 404) writes nothing; an exception anywhere in the
    transaction (a missing row, "Active fee missing") undoes the reversal of
    STEP 1 together with the rest.  The calls awaited after the commit are
    outside any try: when one throws, the answer is a 500 although the edit
    has been committed, and the tables are those of the successful call. *)
Theorem X2_editBatchSwitch_all_or_nothing req g db r db' :
  editBatchSwitch req g db = (r, db') ->
  (success r = true -> statusCode r = 200 /\ gen_postCommit g = None) /\
  (success r = false ->
   statusCode r = 400 \/ statusCode r = 404 \/ statusCode r = 500) /\
  (statusCode r = 400 \/ statusCode r = 404 -> db' = db) /\
  (success r = false -> gen_postCommit g = None -> db' = db) /\
  (db' = db \/
   exists r0, editBatchSwitch req (quiet g) db = (r0, db') /\ success r0 = true) /\
  (forall e r0 db0,
     gen_postCommit g = Some e ->
     editBatchSwitch req (quiet g) db = (r0, db0) ->
     success r0 = true ->
     success r = false /\ statusCode r = 500 /\ data r = PayloadError e /\ db' = db0).
Proof.
  apply (all_or_nothing editBatchSwitch).
  intros req0 g0 db0 r0 db1 H.
  destruct (editBatchSwitch_post_commit _ _ _ _ _ H) as [Hfail Hok].
  split; [exact Hfail |].
  intros Hs. destruct (Hok Hs) as [Hcode Hpost]. split; [exact Hcode |].
  destruct (gen_postCommit g0); [eexists |]; exact Hpost.
Qed.

Lemma X2_editBatchSwitch_all_or_nothing_witness :
  (* an exception inside the transaction: rolled back *)
  snd (editBatchSwitch (Ex.edit_req "H1" "B3" "NEW_FEE") Ex.gen2 Ex2.db1_paid)
  = Ex2.db1_paid /\
  statusCode (fst (editBatchSwitch (Ex.edit_req "H1" "B3" "NEW_FEE") Ex.gen2 Ex2.db1_paid))
  = 500 /\
  (* an exception after the commit: committed *)
  let run := editBatchSwitch (Ex.edit_req "H1" "B3" "NEW_FEE") Ex3.gen_cache_down Ex.db1 in
  statusCode (fst run) = 500 /\
  currentBatchId <$> students (snd run) !! "S1"%string = Some "B3"%string /\
  List.map bh_id (batchHistories (snd run)) = ["H2"%string].
Proof.
  destruct (X2_editBatchSwitch_all_or_nothing (Ex.edit_req "H1" "B3" "NEW_FEE")
              Ex.gen2 Ex2.db1_paid
              (fst (editBatchSwitch (Ex.edit_req "H1" "B3" "NEW_FEE") Ex.gen2 Ex2.db1_paid))
              (snd (editBatchSwitch (Ex.edit_req "H1" "B3" "NEW_FEE") Ex.gen2 Ex2.db1_paid)))
    as (_ & _ & _ & Hfail & _).
  - apply surjective_pairing.
  - split; [apply Hfail; vm_compute; reflexivity |].
    repeat split; vm_compute; reflexivity.
Defined.

(** ** The checks of the edit *)

(** X3: the capacity check of editBatchSwitch reads the target batch before
    STEP 1 has given the student's seat back.  Whenever the edited row is
    the latest one and the batch named by newToBatchId is at its limit, the
    edit is rejected with 400 "Target batch is full" and nothing is written;
    this includes the edit that keeps the student in the full batch they
    already sit in and only changes the fee action. *)
Theorem X3_edit_capacity_checked_before_reversal req g db h toBatch :
  batchHistory_findFirst_latest (ed_studentId req) db = Some h ->
  bh_id h = ed_batchHistoryId req ->
  batches db !! ed_newToBatchId req = Some toBatch ->
  slotLimit toBatch <= currentCount toBatch ->
  editBatchSwitch req g db
  = (sendResponse 400 false "Target batch is full" PayloadNull, db).
Proof.
  intros Hlatest Hid Hto Hfull.
  unfold editBatchSwitch, batch_findUnique, not_latest.
  rewrite Hlatest, Hid, String.eqb_refl. cbn [negb]. rewrite Hto.
  assert ((currentCount toBatch >=? slotLimit toBatch) = true) as -> by lia.
  reflexivity.
Qed.

Lemma X3_edit_capacity_checked_before_reversal_witness :
  currentBatchId <$> students Ex2.db1_full !! "S1"%string = Some "B2"%string /\
  editBatchSwitch (Ex.edit_req "H1" "B2" "NEW_FEE") Ex.gen2 Ex2.db1_full
  = (sendResponse 400 false "Target batch is full" PayloadNull, Ex2.db1_full).
Proof.
  split; [vm_compute; reflexivity |].
  apply (X3_edit_capacity_checked_before_reversal (Ex.edit_req "H1" "B2" "NEW_FEE")
           Ex.gen2 Ex2.db1_full Ex.H1 (set_currentCount 10 (increment Ex.B2))).
  - vm_compute. reflexivity.
  - reflexivity.
  - vm_compute. reflexivity.
  - vm_compute. discriminate.
Defined.

(** X4: when the rows STEP 1 writes exist but the student has no ACTIVE or
    PENDING fee once the previous switch is reversed, the edit throws
    "Active fee missing": the answer is the server error and the whole
    transaction, reversal included, is rolled back. *)
Theorem X4_edit_active_fee_missing req g db h toBatch student :
  batchHistory_findFirst_latest (ed_studentId req) db = Some h ->
  bh_id h = ed_batchHistoryId req ->
  batches db !! ed_newToBatchId req = Some toBatch ->
  currentCount toBatch < slotLimit toBatch ->
  students db !! ed_studentId req = Some student ->
  is_Some (batches db !! fromBatchId h) ->
  is_Some (batches db !! toBatchId h) ->
  (feeIdFrom h = feeIdTo h \/
   is_Some (List.find (has_fee_id (feeIdTo h)) (fees db)) /\
   is_Some (List.find (has_fee_id (feeIdFrom h)) (fees db))) ->
  List.find (is_open_fee_of (ed_studentId req)) (reversed_fees h db) = None ->
  editBatchSwitch req g db = TryCatch (JsError "Active fee missing") db.
Proof.
  intros Hlatest Hid Hto Hroom Hs Hfrom Holdto Hfees Hnone.
  destruct (edit_reverse_tx_ok req h db student Hs Hfrom Holdto Hfees) as [db1 Hrev].
  { rewrite <- Hid. exact (latest_has_row _ _ _ Hlatest). }
  destruct (edit_reverse_tx_inr _ _ _ _ _ Hrev) as (s & _ & _ & _ & _ & _ & Hfe1 & _).
  assert (edit_tx req g h toBatch db = inl (JsError "Active fee missing")) as Htx.
  { unfold edit_tx. eapply bind_ok; [exact Hrev |].
    unfold edit_apply_tx. eapply bind_ok; [reflexivity |].
    unfold fee_findFirst_include_payments, fee_findFirst. rewrite Hfe1, Hnone.
    reflexivity. }
  unfold editBatchSwitch, batch_findUnique, transaction, not_latest.
  rewrite Hlatest, Hid, String.eqb_refl. cbn [negb]. rewrite Hto.
  assert ((currentCount toBatch >=? slotLimit toBatch) = false) as -> by lia.
  rewrite Htx. reflexivity.
Qed.

Lemma X4_edit_active_fee_missing_witness :
  editBatchSwitch (Ex.edit_req "H1" "B3" "NEW_FEE") Ex.gen2 Ex2.db1_paid
  = (sendResponse 500 false "Internal Server Error"
       (PayloadError (JsError "Active fee missing")), Ex2.db1_paid).
Proof.
  apply (X4_edit_active_fee_missing (Ex.edit_req "H1" "B3" "NEW_FEE") Ex.gen2
           Ex2.db1_paid Ex.H1 Ex.B3 (set_currentBatchId "B2" Ex.S1)).
  - vm_compute. reflexivity.
  - reflexivity.
  - vm_compute. reflexivity.
  - vm_compute. reflexivity.
  - vm_compute. reflexivity.
  - vm_compute. eauto.
  - vm_compute. eauto.
  - left. reflexivity.
  - vm_compute. reflexivity.
Defined.

(** ** When a switch goes through *)

Lemma existsb_false_intro {A} (p : A -> bool) (l : list A) :
  (forall x, In x l -> p x = false) -> List.existsb p l = false.
Proof.
  intros H. destruct (List.existsb p l) eqn:E; [| reflexivity].
  apply List.existsb_exists in E. destruct E as (x & Hin & Hp).
  rewrite (H x Hin) in Hp. discriminate.
Qed.

Lemma fresh_fee_id_existsb g db :
  fresh_fee_id g db -> List.existsb (has_fee_id (gen_feeId g)) (fees db) = false.
Proof.
  intros H. apply existsb_false_intro. intros f Hf.
  apply has_fee_id_false. exact (H f Hf).
Qed.

Lemma fresh_history_id_existsb g db :
  fresh_history_id g db ->
  List.existsb (has_bh_id (gen_historyId g)) (batchHistories db) = false.
Proof.
  intros H. apply existsb_false_intro. intros h Hh.
  unfold has_bh_id. apply String.eqb_neq. exact (H h Hh).
Qed.

Lemma fee_create_ok data db :
  List.existsb (has_fee_id (fee_id data)) (fees db) = false ->
  fee_create data db = inr (data, with_fees (fees db ++ [data]) db).
Proof. unfold fee_create. intros ->. reflexivity. Qed.

Lemma batchHistory_create_ok data db :
  List.existsb (has_bh_id (bh_id data)) (batchHistories db) = false ->
  batchHistory_create data db
  = inr (data, with_batchHistories (batchHistories db ++ [data]) db).
Proof. unfold batchHistory_create. intros ->. reflexivity. Qed.

(** The last three writes of every switch transaction go through when the
    student and the two batches exist. *)
Lemma switch_tail_ok {A} (req : SwitchRequest) (res : A) (db : DB) :
  is_Some (students db !! sw_studentId req) ->
  is_Some (batches db !! sw_fromBatchId req) ->
  is_Some (batches db !! sw_toBatchId req) ->
  exists db',
    (await _ <- student_update (sw_studentId req) (set_currentBatchId (sw_toBatchId req));
     await _ <- batch_update (sw_fromBatchId req) decrement;
     await _ <- batch_update (sw_toBatchId req) increment;
     ret res) db = inr (res, db').
Proof.
  intros [s Hs] Hfrom Hto.
  pose proof (student_update_ok _ (set_currentBatchId (sw_toBatchId req)) db s Hs) as H1.
  set (d1 := with_students _ db) in H1.
  destruct (batch_update_ok (sw_fromBatchId req) decrement d1 Hfrom) as [b1 H2].
  set (d2 := with_batches _ d1) in H2.
  destruct (batch_update_ok (sw_toBatchId req) increment d2) as [b2 H3].
  { subst d2. simpl. apply lookup_alter_is_Some. exact Hto. }
  eexists.
  eapply bind_ok; [exact H1 |].
  eapply bind_ok; [exact H2 |].
  eapply bind_ok; [exact H3 |]. reflexivity.
Qed.

Lemma switch_TRANSFER_tx_ok req g oldFee db :
  is_Some (students db !! sw_studentId req) ->
  is_Some (batches db !! sw_fromBatchId req) ->
  is_Some (batches db !! sw_toBatchId req) ->
  fresh_history_id g db ->
  exists res db', switch_TRANSFER_tx req g oldFee db = inr (res, db').
Proof.
  intros [s Hs] Hfrom Hto Hfresh. unfold switch_TRANSFER_tx.
  pose proof (batchHistory_create_ok
                (mkHistory g (sw_studentId req) (sw_fromBatchId req) (sw_toBatchId req)
                           (sw_changeDate req) (sw_reason req)
                           (fee_id oldFee) (fee_id oldFee) TRANSFER) db
                (fresh_history_id_existsb g db Hfresh)) as H0.
  set (d0 := with_batchHistories _ db) in H0.
  pose proof (student_update_ok _ (set_currentBatchId (sw_toBatchId req)) d0 s Hs) as H1.
  set (d1 := with_students _ d0) in H1.
  destruct (batch_update_ok (sw_fromBatchId req) decrement d1 Hfrom) as [b1 H2].
  set (d2 := with_batches _ d1) in H2.
  destruct (batch_update_ok (sw_toBatchId req) increment d2) as [b2 H3].
  { subst d2. simpl. apply lookup_alter_is_Some. exact Hto. }
  eexists _, _.
  eapply bind_ok; [exact H0 |].
  eapply bind_ok; [exact H1 |].
  eapply bind_ok; [exact H2 |].
  eapply bind_ok; [exact H3 |]. reflexivity.
Qed.

Lemma find_old_fee_after_create oldFee created (l : list Fee) :
  In oldFee l ->
  is_Some (List.find (has_fee_id (fee_id oldFee)) (l ++ [created])).
Proof.
  intros Hin. apply (find_is_Some _ _ oldFee).
  - apply in_or_app. left. exact Hin.
  - apply has_fee_id_true. reflexivity.
Qed.

Lemma switch_NEW_FEE_tx_ok req g toBatch oldFee tp db :
  is_Some (students db !! sw_studentId req) ->
  is_Some (batches db !! sw_fromBatchId req) ->
  is_Some (batches db !! sw_toBatchId req) ->
  In oldFee (fees db) ->
  fresh_history_id g db ->
  fresh_fee_id g db ->
  exists res db', switch_NEW_FEE_tx req g toBatch oldFee tp db = inr (res, db').
Proof.
  intros Hs Hfrom Hto Hin Hfh Hff. unfold switch_NEW_FEE_tx.
  pose proof (fee_create_ok (switch_NEW_FEE_data req g toBatch oldFee tp) db
                (fresh_fee_id_existsb g db Hff)) as H0.
  set (d0 := with_fees _ db) in H0.
  pose proof (batchHistory_create_ok
                (mkHistory g (sw_studentId req) (sw_fromBatchId req) (sw_toBatchId req)
                           (sw_changeDate req) (sw_reason req) (fee_id oldFee)
                           (fee_id (switch_NEW_FEE_data req g toBatch oldFee tp)) NEW_FEE)
                d0 (fresh_history_id_existsb g db Hfh)) as H1.
  set (d1 := with_batchHistories _ d0) in H1.
  set (d2 := with_payments
               (updateWhere (switch_NEW_FEE_moved req oldFee)
                  (set_payment_feeId (fee_id (switch_NEW_FEE_data req g toBatch oldFee tp)))
                  (payments d1)) d1).
  destruct (fee_update_ok (fee_id oldFee) (set_fee_status CANCELLED) d2) as [u H3].
  { subst d2 d1 d0. simpl. apply find_old_fee_after_create. exact Hin. }
  set (d3 := with_fees _ d2) in H3.
  destruct (switch_tail_ok req
              (switch_NEW_FEE_data req g toBatch oldFee tp, u,
               mkHistory g (sw_studentId req) (sw_fromBatchId req) (sw_toBatchId req)
                         (sw_changeDate req) (sw_reason req) (fee_id oldFee)
                         (fee_id (switch_NEW_FEE_data req g toBatch oldFee tp)) NEW_FEE)
              d3 Hs Hfrom Hto) as [d4 H4].
  eexists _, _.
  eapply bind_ok; [exact H0 |].
  eapply bind_ok; [exact H1 |].
  eapply bind_ok; [reflexivity |].
  eapply bind_ok; [exact H3 |].
  exact H4.
Qed.

Lemma switch_SPLIT_tx_ok req g toBatch oldFee tp db :
  is_Some (students db !! sw_studentId req) ->
  is_Some (batches db !! sw_fromBatchId req) ->
  is_Some (batches db !! sw_toBatchId req) ->
  In oldFee (fees db) ->
  fresh_history_id g db ->
  fresh_fee_id g db ->
  exists res db', switch_SPLIT_tx req g toBatch oldFee tp db = inr (res, db').
Proof.
  intros Hs Hfrom Hto Hin Hfh Hff. unfold switch_SPLIT_tx.
  pose proof (fee_create_ok (switch_SPLIT_data req g toBatch tp) db
                (fresh_fee_id_existsb g db Hff)) as H0.
  set (d0 := with_fees _ db) in H0.
  destruct (fee_update_ok (fee_id oldFee)
              (set_fee_status_transferId (closed_status oldFee tp) (gen_transferId g)) d0)
    as [u H1].
  { subst d0. simpl. apply find_old_fee_after_create. exact Hin. }
  set (d1 := with_fees _ d0) in H1.
  pose proof (batchHistory_create_ok
                (mkHistory g (sw_studentId req) (sw_fromBatchId req) (sw_toBatchId req)
                           (sw_changeDate req) (sw_reason req) (fee_id oldFee)
                           (fee_id (switch_SPLIT_data req g toBatch tp)) SPLIT)
                d1 (fresh_history_id_existsb g db Hfh)) as H2.
  set (d2 := with_batchHistories _ d1) in H2.
  destruct (switch_tail_ok req
              (switch_SPLIT_data req g toBatch tp, u,
               mkHistory g (sw_studentId req) (sw_fromBatchId req) (sw_toBatchId req)
                         (sw_changeDate req) (sw_reason req) (fee_id oldFee)
                         (fee_id (switch_SPLIT_data req g toBatch tp)) SPLIT)
              d2 Hs Hfrom Hto) as [d3 H3].
  eexists _, _.
  eapply bind_ok; [exact H0 |].
  eapply bind_ok; [exact H1 |].
  eapply bind_ok; [exact H2 |].
  exact H3.
Qed.

(** With collaborators that do not throw, a switch whose validations pass
    is answered with success. *)
Lemma switchBatch_succeeds_quietly req g db student toBatch oldFee :
  switch_validated req db student toBatch oldFee ->
  is_Some (batches db !! sw_fromBatchId req) ->
  known_action (sw_feeAction req) ->
  (sw_feeAction req = "SPLIT"%string ->
   sumAmounts (fee_payments oldFee db) <= baseFee (course toBatch)) ->
  fresh_history_id g db ->
  (sw_feeAction req <> "TRANSFER"%string -> fresh_fee_id g db) ->
  gen_postCommit g = None ->
  success (fst (switchBatch req g db)) = true.
Proof.
  intros (Hs & Hcur & Hto & Hroom & Hfee) Hfrom Hact Hpaid Hfh Hff Hq.
  destruct (open_fee_found _ _ _ Hfee) as (Hin & _ & _).
  assert (is_Some (students db !! sw_studentId req)) as Hs' by eauto.
  assert (is_Some (batches db !! sw_toBatchId req)) as Hto' by eauto.
  unfold switchBatch, student_findUnique, batch_findUnique,
    fee_findFirst_include_payments, transaction, post_commit.
  rewrite Hq, Hs, Hcur, String.eqb_refl, Hto, Hfee. cbn [negb]. cbv zeta.
  assert ((currentCount toBatch >=? slotLimit toBatch) = false) as -> by lia.
  destruct Hact as [Ha | [Ha | Ha]]; rewrite Ha.
  - change (String.eqb "TRANSFER" "TRANSFER") with true. cbv iota.
    destruct (switch_TRANSFER_tx_ok req g oldFee db Hs' Hfrom Hto' Hfh)
      as (res & db' & ->).
    reflexivity.
  - change (String.eqb "NEW_FEE" "TRANSFER") with false.
    change (String.eqb "NEW_FEE" "NEW_FEE") with true. cbv iota.
    assert (fresh_fee_id g db) as Hff' by (apply Hff; rewrite Ha; discriminate).
    destruct (switch_NEW_FEE_tx_ok req g toBatch oldFee
                (sumAmounts (fee_payments oldFee db)) db Hs' Hfrom Hto' Hin Hfh Hff')
      as ([[n u] h] & db' & ->).
    reflexivity.
  - change (String.eqb "SPLIT" "TRANSFER") with false.
    change (String.eqb "SPLIT" "NEW_FEE") with false.
    change (String.eqb "SPLIT" "SPLIT") with true. cbv iota.
    specialize (Hpaid Ha).
    assert ((sumAmounts (fee_payments oldFee db) >? baseFee (course toBatch)) = false)
      as -> by lia.
    assert (fresh_fee_id g db) as Hff' by (apply Hff; rewrite Ha; discriminate).
    destruct (switch_SPLIT_tx_ok req g toBatch oldFee
                (sumAmounts (fee_payments oldFee db)) db Hs' Hfrom Hto' Hin Hfh Hff')
      as ([[n u] h] & db' & ->).
    reflexivity.
Qed.

(** X5: the switch is committed whenever the validations of switchBatch
    pass (student found and sitting in fromBatchId, target batch found with
    a free slot, a PENDING fee found), the source batch exists, the fee
    action is one of the three, the keys the database generates are fresh,
    and, for SPLIT only, the student has not paid more than the target
    course fee; NEW_FEE and TRANSFER put no limit on what was paid.  The
    student then sits in toBatchId and a history row with the generated id
    has been written.  The answer is a 200 when the calls awaited after the
    commit return, and a 500 carrying the exception when one of them throws
    (the tables are the same in both cases). *)
Theorem X5_switchBatch_succeeds req g db student toBatch oldFee :
  switch_validated req db student toBatch oldFee ->
  is_Some (batches db !! sw_fromBatchId req) ->
  known_action (sw_feeAction req) ->
  (sw_feeAction req = "SPLIT"%string ->
   sumAmounts (fee_payments oldFee db) <= baseFee (course toBatch)) ->
  fresh_history_id g db ->
  (sw_feeAction req <> "TRANSFER"%string -> fresh_fee_id g db) ->
  exists db',
    snd (switchBatch req g db) = db' /\
    snd (switchBatch req (quiet g) db) = db' /\
    (exists s', students db' !! sw_studentId req = Some s' /\
                currentBatchId s' = sw_toBatchId req) /\
    (exists hrow, In hrow (batchHistories db') /\ bh_id hrow = gen_historyId g /\
                  bh_studentId hrow = sw_studentId req /\
                  toBatchId hrow = sw_toBatchId req) /\
    (gen_postCommit g = None ->
     success (fst (switchBatch req g db)) = true /\
     statusCode (fst (switchBatch req g db)) = 200) /\
    (forall e, gen_postCommit g = Some e ->
     success (fst (switchBatch req g db)) = false /\
     statusCode (fst (switchBatch req g db)) = 500 /\
     data (fst (switchBatch req g db)) = PayloadError e).
Proof.
  intros Hval Hfrom Hact Hpaid Hfh Hff.
  pose proof (switchBatch_succeeds_quietly req (quiet g) db student toBatch oldFee
                Hval Hfrom Hact Hpaid Hfh Hff eq_refl) as Hok.
  destruct (switchBatch req (quiet g) db) as [r0 db0] eqn:Hquiet. simpl in Hok.
  destruct (switchBatch_success _ _ _ _ _ Hquiet Hok)
    as (student0 & toBatch0 & oldFee0 & (Hs0 & _) & _ & _ & Hst & _ & Hout).
  destruct (switch_outcome_history _ _ _ _ _ _ _ _ Hout) as (feeTo & mode & Hh & _).
  destruct (switchBatch_post_commit _ _ _ _ _ Hquiet) as [_ Hpost].
  destruct (Hpost Hok) as [Hcode Hrun].
  exists db0.
  assert (snd (switchBatch req g db) = db0) as Hdb.
  { destruct (gen_postCommit g); [destruct Hrun as [msg Hrun] |]; rewrite Hrun; reflexivity. }
  split; [exact Hdb |]. split; [reflexivity |].
  split.
  { exists (set_currentBatchId (sw_toBatchId req) student0).
    rewrite Hst, lookup_alter_eq, Hs0. split; reflexivity. }
  split.
  { eexists. rewrite Hh. split; [apply in_or_app; right; left; reflexivity |].
    repeat split. }
  split.
  - intros Hq. rewrite Hq in Hrun. rewrite Hrun. simpl. split; assumption.
  - intros e Hq. rewrite Hq in Hrun. destruct Hrun as [msg Hrun]. rewrite Hrun.
    repeat split.
Qed.

Lemma X5_switchBatch_succeeds_witness :
  sumAmounts (fee_payments Ex.F1 Ex.db0) > baseFee (course Ex.B3) /\
  success (fst (switchBatch (Ex.switch_req "B3" "NEW_FEE") Ex.gen1 Ex.db0)) = true /\
  statusCode (fst (switchBatch (Ex.switch_req "B3" "NEW_FEE") Ex3.gen1_cache_down Ex.db0))
  = 500 /\
  currentBatchId <$>
    students (snd (switchBatch (Ex.switch_req "B3" "NEW_FEE") Ex3.gen1_cache_down Ex.db0))
      !! "S1"%string
  = Some "B3"%string.
Proof.
  split; [vm_compute; reflexivity |].
  destruct (X5_switchBatch_succeeds (Ex.switch_req "B3" "NEW_FEE") Ex.gen1 Ex.db0
              Ex.S1 Ex.B3 Ex.F1) as (db' & _ & _ & _ & _ & Hok & _).
  - repeat split; vm_compute; reflexivity.
  - vm_compute. eauto.
  - right; left. reflexivity.
  - discriminate.
  - intros h [].
  - intros _ f [<- | []]. discriminate.
  - split; [apply Hok; reflexivity |]. split; vm_compute; reflexivity.
Defined.

(** X6: with a fee action that is none of TRANSFER, NEW_FEE and SPLIT,
    switchBatch never writes; once its validations pass it answers 400
    "Invalid feeAction provided".  (The edit, by contrast, commits in that
    case.) *)
Theorem X6_switchBatch_unknown_action req g db :
  ~ known_action (sw_feeAction req) ->
  snd (switchBatch req g db) = db /\
  success (fst (switchBatch req g db)) = false /\
  (forall student toBatch oldFee,
     switch_validated req db student toBatch oldFee ->
     fst (switchBatch req g db)
     = sendResponse 400 false "Invalid feeAction provided" PayloadNull).
Proof.
  intros Hunknown.
  assert (String.eqb (sw_feeAction req) "TRANSFER" = false) as H1
    by (apply String.eqb_neq; intros E; apply Hunknown; left; exact E).
  assert (String.eqb (sw_feeAction req) "NEW_FEE" = false) as H2
    by (apply String.eqb_neq; intros E; apply Hunknown; right; left; exact E).
  assert (String.eqb (sw_feeAction req) "SPLIT" = false) as H3
    by (apply String.eqb_neq; intros E; apply Hunknown; right; right; exact E).
  unfold switchBatch, student_findUnique, batch_findUnique, fee_findFirst_include_payments.
  rewrite H1, H2, H3.
  destruct (students db !! sw_studentId req) as [student |] eqn:Hs.
  2: { repeat split; try reflexivity. intros student0 toBatch0 oldFee0 (Hs' & _). congruence. }
  destruct (String.eqb (currentBatchId student) (sw_fromBatchId req)) eqn:Hcur; cbn [negb].
  2: { repeat split; try reflexivity. intros student0 toBatch0 oldFee0 (Hs' & Hc & _).
       apply String.eqb_neq in Hcur. congruence. }
  destruct (batches db !! sw_toBatchId req) as [toBatch |] eqn:Hto.
  2: { repeat split; try reflexivity. intros student0 toBatch0 oldFee0 (_ & _ & Hto' & _). congruence. }
  destruct (currentCount toBatch >=? slotLimit toBatch) eqn:Hfull.
  { repeat split; try reflexivity. intros student0 toBatch0 oldFee0 (_ & _ & Hto' & Hroom & _).
    assert (toBatch0 = toBatch) as -> by congruence. lia. }
  destruct (fee_findFirst _ db) as [oldFee |] eqn:Hfee.
  2: { repeat split; try reflexivity. intros student0 toBatch0 oldFee0 (_ & _ & _ & _ & Hfee'). congruence. }
  repeat split; reflexivity.
Qed.

Lemma X6_switchBatch_unknown_action_witness :
  switchBatch (Ex.switch_req "B2" "MERGE") Ex.gen1 Ex.db0
  = (sendResponse 400 false "Invalid feeAction provided" PayloadNull, Ex.db0).
Proof.
  destruct (X6_switchBatch_unknown_action (Ex.switch_req "B2" "MERGE") Ex.gen1 Ex.db0)
    as (Hdb & _ & Hresp).
  - intros [H | [H | H]]; discriminate.
  - rewrite (surjective_pairing (switchBatch _ _ _)), Hdb.
    rewrite (Hresp Ex.S1 Ex.B2 Ex.F1); [reflexivity |].
    repeat split; vm_compute; reflexivity.
Defined.

(** ** What a switch records and what it leaves alone *)

(** The tables a call leaves are either the ones it found or the ones the
    successful call with quiet collaborators leaves. *)
Lemma switchBatch_tables req g db :
  snd (switchBatch req g db) = db \/
  exists r0, switchBatch req (quiet g) db = (r0, snd (switchBatch req g db)) /\
             success r0 = true.
Proof.
  destruct (all_or_nothing switchBatch switchBatch_post_commit req g db
              (fst (switchBatch req g db)) (snd (switchBatch req g db)))
    as (_ & _ & _ & _ & H & _); [apply surjective_pairing | exact H].
Qed.

Lemma editBatchSwitch_tables req g db :
  snd (editBatchSwitch req g db) = db \/
  exists r0, editBatchSwitch req (quiet g) db = (r0, snd (editBatchSwitch req g db)) /\
             success r0 = true.
Proof.
  destruct (all_or_nothing editBatchSwitch) with (req := req) (g := g) (db := db)
      (r := fst (editBatchSwitch req g db)) (db' := snd (editBatchSwitch req g db))
    as (_ & _ & _ & _ & H & _); [| apply surjective_pairing | exact H].
  intros req0 g0 db0 r0 db1 H.
  destruct (editBatchSwitch_post_commit _ _ _ _ _ H) as [Hfail Hok].
  split; [exact Hfail |].
  intros Hs. destruct (Hok Hs) as [Hcode Hpost]. split; [exact Hcode |].
  destruct (gen_postCommit g0); [eexists |]; exact Hpost.
Qed.

(** X7: a successful switch appends exactly one history row.  It carries
    the request's student, batches, date and reason, the generated id,
    transfer id and creation time, the open fee as feeIdFrom, and the mode
    of the fee action; feeIdTo is the open fee itself for TRANSFER and the
    new fee for NEW_FEE and SPLIT, so feeIdFrom = feeIdTo exactly for
    TRANSFER rows, which is the test the edit uses to tell them apart. *)
Theorem X7_switch_history_row req g db r db' :
  switchBatch req g db = (r, db') ->
  success r = true ->
  exists oldFee h,
    fee_findFirst (is_pending_fee_of (sw_studentId req)) db = Some oldFee /\
    batchHistories db' = batchHistories db ++ [h] /\
    bh_id h = gen_historyId g /\
    bh_studentId h = sw_studentId req /\
    fromBatchId h = sw_fromBatchId req /\
    toBatchId h = sw_toBatchId req /\
    changeDate h = sw_changeDate req /\
    reason h = sw_reason req /\
    transferId h = gen_transferId g /\
    createdAt h = gen_now g /\
    feeIdFrom h = fee_id oldFee /\
    (sw_feeAction req = "TRANSFER"%string /\ feeManageMode h = TRANSFER /\
     feeIdTo h = fee_id oldFee
     \/ sw_feeAction req = "NEW_FEE"%string /\ feeManageMode h = NEW_FEE /\
        feeIdTo h = gen_feeId g
     \/ sw_feeAction req = "SPLIT"%string /\ feeManageMode h = SPLIT /\
        feeIdTo h = gen_feeId g) /\
    (feeIdFrom h = feeIdTo h <-> sw_feeAction req = "TRANSFER"%string).
Proof.
  intros Hrun Hok.
  destruct (switchBatch_success _ _ _ _ _ Hrun Hok)
    as (student & toBatch & oldFee & Hval & _ & _ & _ & _ & Hout).
  destruct Hval as (_ & _ & _ & _ & Hfee).
  destruct (open_fee_found _ _ _ Hfee) as (Hin & _ & _).
  exists oldFee.
  destruct Hout as [(Ha & _ & _ & Hh & _) | [(Ha & H) | (Ha & H)]].
  - eexists. split; [exact Hfee |]. split; [exact Hh |]. simpl.
    repeat split; try reflexivity; try tauto.
  - cbv zeta in H. destruct H as (Hfresh & _ & _ & Hh & _).
    pose proof (existsb_false_In _ _ _ Hfresh Hin) as Hne. apply has_fee_id_false in Hne.
    eexists. split; [exact Hfee |]. split; [exact Hh |]. simpl.
    repeat split; try reflexivity; try tauto; intros E; congruence.
  - cbv zeta in H. destruct H as (_ & Hfresh & _ & _ & Hh & _).
    pose proof (existsb_false_In _ _ _ Hfresh Hin) as Hne. apply has_fee_id_false in Hne.
    eexists. split; [exact Hfee |]. split; [exact Hh |]. simpl.
    repeat split; try reflexivity; try tauto; intros E; congruence.
Qed.

Lemma X7_switch_history_row_witness :
  batchHistories (snd (switchBatch (Ex.switch_req "B2" "NEW_FEE") Ex.gen1 Ex.db0))
  = [Ex.H1_new_fee].
Proof.
  destruct (X7_switch_history_row (Ex.switch_req "B2" "NEW_FEE") Ex.gen1 Ex.db0
              (fst (switchBatch (Ex.switch_req "B2" "NEW_FEE") Ex.gen1 Ex.db0))
              (snd (switchBatch (Ex.switch_req "B2" "NEW_FEE") Ex.gen1 Ex.db0)))
    as (oldFee & h & _ & Hh & _).
  - apply surjective_pairing.
  - vm_compute. reflexivity.
  - vm_compute. reflexivity.
Defined.

(** X8: a successful TRANSFER switch writes no fee and no payment: both
    tables are exactly as before (the fee keeps its batch, amounts and
    status). *)
Theorem X8_transfer_leaves_fees_and_payments req g db r db' :
  switchBatch req g db = (r, db') ->
  success r = true ->
  sw_feeAction req = "TRANSFER"%string ->
  fees db' = fees db /\ payments db' = payments db.
Proof.
  intros Hrun Hok Hact.
  destruct (switchBatch_success _ _ _ _ _ Hrun Hok)
    as (student & toBatch & oldFee & _ & _ & _ & _ & _ & Hout).
  destruct (switch_outcome_TRANSFER _ _ _ _ _ _ _ _ Hout Hact) as (Hf & Hp & _).
  split; assumption.
Qed.

Lemma X8_transfer_leaves_fees_and_payments_witness :
  fees Ex.db1 = fees Ex.db0 /\ payments Ex.db1 = payments Ex.db0.
Proof.
  apply (X8_transfer_leaves_fees_and_payments (Ex.switch_req "B2" "TRANSFER") Ex.gen1
           Ex.db0 (fst (switchBatch (Ex.switch_req "B2" "TRANSFER") Ex.gen1 Ex.db0))).
  - apply surjective_pairing.
  - vm_compute. reflexivity.
  - reflexivity.
Defined.

(** X9: no call of switchBatch or editBatchSwitch, successful or not,
    creates or deletes a payment or changes a payment's id, student, amount
    or status; the only column ever written is feeId.  In particular the sum
    of all amounts is the same before and after. *)
Theorem X9_payments_only_change_fee :
  (forall req g db,
     List.map payment_core (payments (snd (switchBatch req g db)))
     = List.map payment_core (payments db)) /\
  (forall req g db,
     List.map payment_core (payments (snd (editBatchSwitch req g db)))
     = List.map payment_core (payments db)).
Proof.
  split; intros req g db.
  - destruct (switchBatch_tables req g db) as [-> | (r0 & Hrun & Hok)]; [reflexivity |].
    destruct (switchBatch_success _ _ _ _ _ Hrun Hok)
      as (student & toBatch & oldFee & _ & _ & _ & _ & _ & Hout).
    destruct Hout as [(_ & _ & Hp & _) | [(_ & H) | (_ & H)]].
    + rewrite Hp. reflexivity.
    + cbv zeta in H. destruct H as (_ & _ & Hp & _). rewrite Hp.
      apply map_updateWhere_invariant. reflexivity.
    + cbv zeta in H. destruct H as (_ & _ & _ & Hp & _). rewrite Hp. reflexivity.
  - destruct (editBatchSwitch_tables req g db) as [-> | (r0 & Hrun & Hok)]; [reflexivity |].
    destruct (editBatchSwitch_success _ _ _ _ _ Hrun Hok)
      as (h & toBatch & cs & db1 & _ & _ & _ & _ & Hrev & Happ & _).
    destruct (edit_reverse_tx_inr _ _ _ _ _ Hrev) as (s & _ & _ & _ & _ & _ & _ & Hp1 & _).
    destruct (edit_apply_tx_inr _ _ _ _ _ _ _ Happ)
      as (cs' & af & _ & _ & _ & _ & _ & _ & Hout).
    assert (List.map payment_core (payments db1) = List.map payment_core (payments db))
      as Hstep1.
    { rewrite Hp1. unfold reversed_payments.
      destruct (String.eqb (feeIdFrom h) (feeIdTo h)); [reflexivity |].
      apply map_updateWhere_invariant. reflexivity. }
    rewrite <- Hstep1.
    destruct Hout as [(_ & _ & Hp & _) | [(_ & _ & _ & Hp & _) |
                      [(_ & _ & _ & Hp & _) | (_ & _ & _ & _ & Hp & _)]]];
      rewrite Hp; try reflexivity.
    apply map_updateWhere_invariant. reflexivity.
Qed.

(** X10: switchBatch touches no student but the one named in the request
    and no batch but fromBatchId and toBatchId; after a successful call that
    student's row differs from before only in currentBatchId, which is
    toBatchId, and the counters of the two batches have moved by one (when
    the two batches differ). *)
Theorem X10_switch_frame req g db :
  (forall s, s <> sw_studentId req ->
             students (snd (switchBatch req g db)) !! s = students db !! s) /\
  (forall b, b <> sw_fromBatchId req -> b <> sw_toBatchId req ->
             batches (snd (switchBatch req g db)) !! b = batches db !! b) /\
  (success (fst (switchBatch req g db)) = true ->
   students (snd (switchBatch req g db)) !! sw_studentId req
   = set_currentBatchId (sw_toBatchId req) <$> students db !! sw_studentId req /\
   is_Some (students db !! sw_studentId req)) /\
  (success (fst (switchBatch req g db)) = true ->
   exists s s',
     students db !! sw_studentId req = Some s /\
     students (snd (switchBatch req g db)) !! sw_studentId req = Some s' /\
     currentBatchId s = sw_fromBatchId req /\
     currentBatchId s' = sw_toBatchId req /\
     student_id s' = student_id s /\
     student_name s' = student_name s) /\
  (success (fst (switchBatch req g db)) = true ->
   sw_fromBatchId req <> sw_toBatchId req ->
   exists from to from' to',
     batches db !! sw_fromBatchId req = Some from /\
     batches db !! sw_toBatchId req = Some to /\
     batches (snd (switchBatch req g db)) !! sw_fromBatchId req = Some from' /\
     batches (snd (switchBatch req g db)) !! sw_toBatchId req = Some to' /\
     currentCount from' = currentCount from - 1 /\
     currentCount to' = currentCount to + 1 /\
     slotLimit from' = slotLimit from /\ slotLimit to' = slotLimit to).
Proof.
  assert (forall s, s <> sw_studentId req ->
            students (snd (switchBatch req g db)) !! s = students db !! s) as Hframe1.
  { intros s Hne.
    destruct (switchBatch_tables req g db) as [-> | (r0 & Hrun & Hok)]; [reflexivity |].
    destruct (switchBatch_success _ _ _ _ _ Hrun Hok)
      as (student & toBatch & oldFee & _ & _ & _ & Hst & _).
    rewrite Hst. apply lookup_alter_ne. congruence. }
  assert (forall b, b <> sw_fromBatchId req -> b <> sw_toBatchId req ->
            batches (snd (switchBatch req g db)) !! b = batches db !! b) as Hframe2.
  { intros b Hf Ht.
    destruct (switchBatch_tables req g db) as [-> | (r0 & Hrun & Hok)]; [reflexivity |].
    destruct (switchBatch_success _ _ _ _ _ Hrun Hok)
      as (student & toBatch & oldFee & _ & _ & _ & _ & Hba & _).
    rewrite Hba, !lookup_alter_ne by congruence. reflexivity. }
  split; [exact Hframe1 |]. split; [exact Hframe2 |].
  destruct (switchBatch req g db) as [r db'] eqn:Hrun. simpl.
  destruct (success r) eqn:Hok.
  - destruct (switchBatch_success _ _ _ _ _ Hrun Hok)
      as (student & toBatch & oldFee & Hval & [from Hfrom] & _ & Hst & Hba & _).
    destruct Hval as (Hs & Hcur & Hto & _).
    split; [| split].
    + intros _. rewrite Hst, lookup_alter_eq. split; [reflexivity | eauto].
    + intros _. exists student, (set_currentBatchId (sw_toBatchId req) student).
      rewrite Hst, lookup_alter_eq, Hs. repeat split. exact Hcur.
    + intros _ Hne. exists from, toBatch, (decrement from), (increment toBatch).
      split; [exact Hfrom |]. split; [exact Hto |].
      split. { rewrite Hba, lookup_alter_ne, lookup_alter_eq, Hfrom by congruence.
               reflexivity. }
      split. { rewrite Hba, lookup_alter_eq, lookup_alter_ne, Hto by congruence.
               reflexivity. }
      unfold decrement, increment, set_currentCount. simpl. repeat split; lia.
  - split; [| split]; discriminate.
Qed.

Lemma X10_switch_frame_witness :
  let db' := snd (switchBatch (Ex.switch_req "B2" "SPLIT") Ex.gen1 Ex.db0) in
  currentBatchId <$> students Ex.db0 !! "S1"%string = Some "B1"%string /\
  currentBatchId <$> students db' !! "S1"%string = Some "B2"%string /\
  List.map (fun b => currentCount <$> batches Ex.db0 !! b) ["B1"; "B2"; "B3"]%string
  = [Some 3; Some 2; Some 0] /\
  List.map (fun b => currentCount <$> batches db' !! b) ["B1"; "B2"; "B3"]%string
  = [Some 2; Some 3; Some 0] /\
  batches db' !! "B3"%string = Some Ex.B3.
Proof.
  intros db'.
  destruct (X10_switch_frame (Ex.switch_req "B2" "SPLIT") Ex.gen1 Ex.db0)
    as (_ & Hbatches & _ & Hstudent & _).
  destruct Hstudent as (s & s' & Hs & Hs' & Hc & Hc' & _); [vm_compute; reflexivity |].
  change (sw_studentId (Ex.switch_req "B2" "SPLIT")) with "S1"%string in Hs, Hs'.
  split; [rewrite Hs; simpl; rewrite Hc; reflexivity |].
  split; [unfold db'; rewrite Hs'; simpl; rewrite Hc'; reflexivity |].
  split; [vm_compute; reflexivity |].
  split; [vm_compute; reflexivity |].
  unfold db'. rewrite Hbatches; [vm_compute; reflexivity | discriminate | discriminate].
Defined.

(** ** What a successful edit does to seats, students and history *)

Ltac batch_arith :=
  repeat match goal with
  | |- context [?m !! ?k] => is_var m; destruct (m !! k) as [[? ? ? ? ?] |]
  end;
  simpl; try reflexivity;
  unfold increment, decrement, set_currentCount; simpl; repeat f_equal; lia.

Lemma edit_batches_same_target (m : gmap string Batch) (from to b : string) :
  alter increment to (alter decrement from (alter decrement to (alter increment from m))) !! b
  = m !! b.
Proof.
  rewrite !lookup_alter.
  repeat case_decide; subst; try congruence;
    repeat (rewrite ?lookup_alter_eq, ?lookup_alter_ne by congruence);
    batch_arith.
Qed.

Lemma edit_batches_new_target (m : gmap string Batch) (from to new : string) :
  new <> to ->
  alter increment new (alter decrement from (alter decrement to (alter increment from m)))
    !! new = increment <$> m !! new /\
  alter increment new (alter decrement from (alter decrement to (alter increment from m)))
    !! to = decrement <$> m !! to /\
  (forall b, b <> new -> b <> to ->
     alter increment new (alter decrement from (alter decrement to (alter increment from m)))
       !! b = m !! b).
Proof.
  intros Hne. split; [| split].
  - rewrite !lookup_alter.
    repeat case_decide; subst; try congruence;
      repeat (rewrite ?lookup_alter_eq, ?lookup_alter_ne by congruence);
      batch_arith.
  - rewrite !lookup_alter.
    repeat case_decide; subst; try congruence;
      repeat (rewrite ?lookup_alter_eq, ?lookup_alter_ne by congruence);
      batch_arith.
  - intros b Hb1 Hb2. rewrite !lookup_alter.
    repeat case_decide; subst; try congruence;
      repeat (rewrite ?lookup_alter_eq, ?lookup_alter_ne by congruence);
      batch_arith.
Qed.

(** X11: taken together, the two steps of a successful edit move one seat
    from the batch the edited switch went to into newToBatchId: the new
    target's counter is one up, the old target's one down, and every other
    batch, the old source included, is as before.  When newToBatchId is the
    old target (only the fee action is edited) no batch changes at all.  No
    student but the one named is touched, and that student ends in
    newToBatchId. *)
Theorem X11_edit_moves_one_seat req g db r db' h :
  editBatchSwitch req g db = (r, db') ->
  success r = true ->
  batchHistory_findFirst_latest (ed_studentId req) db = Some h ->
  (ed_newToBatchId req = toBatchId h -> forall b, batches db' !! b = batches db !! b) /\
  (ed_newToBatchId req <> toBatchId h ->
   batches db' !! ed_newToBatchId req = increment <$> batches db !! ed_newToBatchId req /\
   batches db' !! toBatchId h = decrement <$> batches db !! toBatchId h /\
   forall b, b <> ed_newToBatchId req -> b <> toBatchId h ->
             batches db' !! b = batches db !! b) /\
  (forall s, s <> ed_studentId req -> students db' !! s = students db !! s) /\
  students db' !! ed_studentId req
  = set_currentBatchId (ed_newToBatchId req) <$> students db !! ed_studentId req.
Proof.
  intros Hrun Hok Hlatest.
  destruct (editBatchSwitch_success _ _ _ _ _ Hrun Hok)
    as (h0 & toBatch & cs & db1 & Hlatest0 & _ & _ & _ & Hrev & Happ & _).
  assert (h0 = h) as -> by congruence.
  destruct (edit_reverse_tx_inr _ _ _ _ _ Hrev)
    as (s & Hs & -> & _ & Hst1 & Hba1 & _).
  destruct (edit_apply_tx_inr _ _ _ _ _ _ _ Happ)
    as (cs & af & Hcs & _ & _ & _ & Hst2 & Hba2 & _).
  injection Hcs as <-. simpl in Hba2.
  rewrite Hba1 in Hba2. rewrite Hst1 in Hst2.
  split; [| split; [| split]].
  - intros Hsame b. rewrite Hba2, Hsame. apply edit_batches_same_target.
  - intros Hne. rewrite Hba2. apply edit_batches_new_target. exact Hne.
  - intros s' Hne. rewrite Hst2, !lookup_alter_ne by congruence. reflexivity.
  - rewrite Hst2, !lookup_alter_eq, Hs. reflexivity.
Qed.

Lemma X11_edit_moves_one_seat_witness :
  let db' := snd (editBatchSwitch (Ex.edit_req "H1" "B3" "NEW_FEE") Ex.gen2 Ex.db1) in
  currentCount <$> batches Ex.db1 !! "B2"%string = Some 3 /\
  currentCount <$> batches db' !! "B2"%string = Some 2 /\
  currentCount <$> batches db' !! "B3"%string = Some 1 /\
  batches db' !! "B1"%string = batches Ex.db1 !! "B1"%string.
Proof.
  intros db'.
  destruct (X11_edit_moves_one_seat (Ex.edit_req "H1" "B3" "NEW_FEE") Ex.gen2 Ex.db1
              (fst (editBatchSwitch (Ex.edit_req "H1" "B3" "NEW_FEE") Ex.gen2 Ex.db1))
              db' Ex.H1)
    as (_ & Hmove & _).
  - apply surjective_pairing.
  - vm_compute. reflexivity.
  - vm_compute. reflexivity.
  - destruct Hmove as (Hnew & Hold & Hrest); [discriminate |].
    simpl in Hnew, Hold.
    split; [vm_compute; reflexivity |].
    split; [rewrite Hold; vm_compute; reflexivity |].
    split; [rewrite Hnew; vm_compute; reflexivity |].
    apply Hrest; discriminate.
Defined.

(** X12: a successful edit with one of the three fee actions replaces the
    edited history row by exactly one new row: the old row is removed, and
    the appended row carries the generated id and transfer id, the edit's
    date and reason, newToBatchId as target, and as source the batch the
    reversed switch had come from. *)
Theorem X12_edit_replaces_history_row req g db r db' h :
  editBatchSwitch req g db = (r, db') ->
  success r = true ->
  known_action (ed_newFeeAction req) ->
  batchHistory_findFirst_latest (ed_studentId req) db = Some h ->
  exists hnew,
    batchHistories db'
    = List.filter (fun x => negb (has_bh_id (ed_batchHistoryId req) x)) (batchHistories db)
      ++ [hnew] /\
    bh_id hnew = gen_historyId g /\
    bh_studentId hnew = ed_studentId req /\
    fromBatchId hnew = fromBatchId h /\
    toBatchId hnew = ed_newToBatchId req /\
    changeDate hnew = ed_changeDate req /\
    reason hnew = ed_reason req /\
    transferId hnew = gen_transferId g /\
    (ed_newFeeAction req = "TRANSFER"%string /\ feeManageMode hnew = TRANSFER /\
     feeIdTo hnew = feeIdFrom hnew
     \/ ed_newFeeAction req = "NEW_FEE"%string /\ feeManageMode hnew = NEW_FEE /\
        feeIdTo hnew = gen_feeId g
     \/ ed_newFeeAction req = "SPLIT"%string /\ feeManageMode hnew = SPLIT /\
        feeIdTo hnew = gen_feeId g).
Proof.
  intros Hrun Hok Hknown Hlatest.
  destruct (editBatchSwitch_success _ _ _ _ _ Hrun Hok)
    as (h0 & toBatch & cs & db1 & Hlatest0 & _ & _ & _ & Hrev & Happ & _).
  assert (h0 = h) as -> by congruence.
  destruct (edit_reverse_tx_inr _ _ _ _ _ Hrev)
    as (s & Hs & -> & _ & _ & _ & _ & _ & Hhi1).
  destruct (edit_apply_tx_inr _ _ _ _ _ _ _ Happ)
    as (cs & af & Hcs & _ & _ & _ & _ & _ & Hout).
  injection Hcs as <-.
  destruct Hout as [(Ha & _ & _ & Hh) | [(Ha & _ & _ & _ & Hh) |
                    [(Ha & _ & _ & _ & Hh) | (Ha & Hb & Hc & _)]]].
  - eexists. rewrite Hh, Hhi1. split; [reflexivity |]. simpl.
    repeat split; try reflexivity. left. repeat split; assumption.
  - eexists. rewrite Hh, Hhi1. split; [reflexivity |]. simpl.
    repeat split; try reflexivity. right; left. repeat split; assumption.
  - eexists. rewrite Hh, Hhi1. split; [reflexivity |]. simpl.
    repeat split; try reflexivity. right; right. repeat split; assumption.
  - destruct Hknown as [H | [H | H]]; contradiction.
Qed.

Lemma X12_edit_replaces_history_row_witness :
  List.map (fun x => (bh_id x, fromBatchId x, toBatchId x))
    (batchHistories (snd (editBatchSwitch (Ex.edit_req "H1" "B3" "SPLIT") Ex.gen2 Ex.db1)))
  = [("H2", "B1", "B3")]%string.
Proof.
  destruct (X12_edit_replaces_history_row (Ex.edit_req "H1" "B3" "SPLIT") Ex.gen2 Ex.db1
              (fst (editBatchSwitch (Ex.edit_req "H1" "B3" "SPLIT") Ex.gen2 Ex.db1))
              (snd (editBatchSwitch (Ex.edit_req "H1" "B3" "SPLIT") Ex.gen2 Ex.db1)) Ex.H1)
    as (hnew & Hh & _).
  - apply surjective_pairing.
  - vm_compute. reflexivity.
  - right; right. reflexivity.
  - vm_compute. reflexivity.
  - vm_compute. reflexivity.
Defined.

(** ** STEP 1 of the edit undoes the switch *)

Lemma DB_ext (a b : DB) :
  students a = students b -> batches a = batches b -> fees a = fees b ->
  payments a = payments b -> batchHistories a = batchHistories b -> a = b.
Proof. destruct a, b. simpl. intros -> -> -> -> ->. reflexivity. Qed.

Lemma fee_id_unique (l : list Fee) (x y : Fee) :
  List.NoDup (List.map fee_id l) -> In x l -> In y l -> fee_id x = fee_id y -> x = y.
Proof.
  induction l as [| a l IH]; intros Hnd Hx Hy Hid; [destruct Hx |].
  simpl in Hnd. apply List.NoDup_cons_iff in Hnd. destruct Hnd as [Hnotin Hnd].
  destruct Hx as [-> | Hx], Hy as [-> | Hy].
  - reflexivity.
  - exfalso. apply Hnotin. rewrite Hid. apply in_map. exact Hy.
  - exfalso. apply Hnotin. rewrite <- Hid. apply in_map. exact Hx.
  - apply IH; assumption.
Qed.

Lemma students_restored (S : gmap string Student) sid from to st :
  S !! sid = Some st -> currentBatchId st = from ->
  alter (set_currentBatchId from) sid (alter (set_currentBatchId to) sid S) = S.
Proof.
  intros Hs Hcur. apply map_eq. intros i.
  destruct (decide (sid = i)) as [<- | Hne].
  - rewrite !lookup_alter_eq, Hs. simpl. f_equal.
    destruct st as [i n c]. simpl in Hcur. subst. reflexivity.
  - rewrite !lookup_alter_ne by exact Hne. reflexivity.
Qed.

Lemma batches_restored (m : gmap string Batch) (from to : string) :
  alter decrement to (alter increment from (alter increment to (alter decrement from m)))
  = m.
Proof.
  apply map_eq. intros b. rewrite !lookup_alter.
  repeat case_decide; subst; try congruence;
    repeat (rewrite ?lookup_alter_eq, ?lookup_alter_ne by congruence);
    batch_arith.
Qed.

Lemma histories_restored (l : list BatchHistory) (h : BatchHistory) :
  List.existsb (has_bh_id (bh_id h)) l = false ->
  List.filter (fun x => negb (has_bh_id (bh_id h) x)) (l ++ [h]) = l.
Proof.
  intros Hfresh. rewrite List.filter_app. simpl.
  unfold has_bh_id at 2. rewrite String.eqb_refl. simpl. rewrite app_nil_r.
  apply filter_all. intros x Hx. rewrite (existsb_false_In _ _ _ Hfresh Hx). reflexivity.
Qed.

Lemma updateWhere_app {A} (sel : A -> bool) (f : A -> A) (l1 l2 : list A) :
  updateWhere sel f (l1 ++ l2) = updateWhere sel f l1 ++ updateWhere sel f l2.
Proof. unfold updateWhere. apply List.map_app. Qed.

Lemma updateWhere_id {A} (sel : A -> bool) (f : A -> A) (l : list A) :
  (forall x, In x l -> sel x = true -> f x = x) -> updateWhere sel f l = l.
Proof.
  intros H. unfold updateWhere. rewrite <- (List.map_id l) at 2.
  apply List.map_ext_in. intros x Hx. destruct (sel x) eqn:E; [apply H; assumption | reflexivity].
Qed.

Lemma updateWhere_twice (id : string) (f g : Fee -> Fee) (l : list Fee) :
  (forall x, fee_id (f x) = fee_id x) ->
  updateWhere (has_fee_id id) g (updateWhere (has_fee_id id) f l)
  = updateWhere (has_fee_id id) (fun x => g (f x)) l.
Proof.
  intros Hid. unfold updateWhere. rewrite List.map_map. apply List.map_ext. intros x.
  destruct (has_fee_id id x) eqn:E.
  - assert (has_fee_id id (f x) = true) as ->; [| reflexivity].
    apply has_fee_id_true. rewrite Hid. apply has_fee_id_true. exact E.
  - rewrite E. reflexivity.
Qed.

(** Deleting the fee a switch created leaves the fees it found, with the
    update the switch made to the old fee. *)
Lemma created_fee_deleted (old new : string) (f : Fee -> Fee) (created : Fee) (l : list Fee) :
  (forall x, fee_id (f x) = fee_id x) ->
  fee_id created = new ->
  List.existsb (has_fee_id new) l = false ->
  In_id old l ->
  List.filter (fun x => negb (has_fee_id new x))
    (updateWhere (has_fee_id old) f (l ++ [created]))
  = updateWhere (has_fee_id old) f l.
Proof.
  intros Hid Hnew Hfresh (o & Ho & Hoid).
  assert (old <> new) as Hne.
  { pose proof (existsb_false_In _ _ _ Hfresh Ho) as H. apply has_fee_id_false in H.
    congruence. }
  rewrite updateWhere_app, List.filter_app. simpl.
  assert (has_fee_id old created = false) as ->
    by (apply has_fee_id_false; congruence).
  assert (has_fee_id new created = true) as ->
    by (apply has_fee_id_true; exact Hnew).
  simpl. rewrite app_nil_r.
  apply filter_all. intros y Hy. apply In_updateWhere_inv in Hy.
  destruct Hy as (x & Hx & ->). apply negb_true_iff, has_fee_id_false.
  pose proof (existsb_false_In _ _ _ Hfresh Hx) as H. apply has_fee_id_false in H.
  destruct (has_fee_id old x); [rewrite Hid |]; exact H.
Qed.

Lemma payments_restored (sel : Payment -> bool) (old new : string) (l : list Payment) :
  (forall p, In p l -> sel p = true -> payment_feeId p = old) ->
  (forall p, In p l -> payment_feeId p <> new) ->
  (forall p, sel p = true -> not_cancelled_or_inactive p = true) ->
  updateWhere (fun p => String.eqb (payment_feeId p) new && not_cancelled_or_inactive p)
    (set_payment_feeId old) (updateWhere sel (set_payment_feeId new) l)
  = l.
Proof.
  intros Hold Hnew Hlive. unfold updateWhere. rewrite List.map_map.
  rewrite <- (List.map_id l) at 2. apply List.map_ext_in. intros p Hp.
  destruct (sel p) eqn:Hsel.
  - simpl. rewrite String.eqb_refl. simpl.
    assert (not_cancelled_or_inactive (set_payment_feeId new p) = true) as ->
      by (apply (Hlive p Hsel)).
    destruct p as [i s f a st]. unfold set_payment_feeId. simpl.
    f_equal. symmetry. exact (Hold _ Hp Hsel).
  - assert (String.eqb (payment_feeId p) new = false) as ->
      by (apply String.eqb_neq, Hnew, Hp).
    reflexivity.
Qed.

(** STEP 1 run on the row a switch has just appended: students, batches
    and history are as before the switch, and the student read back is the
    one the switch found. *)
Lemma reverse_after_switch ereq h db db1 student from to :
  ed_studentId ereq = bh_studentId h ->
  ed_batchHistoryId ereq = bh_id h ->
  fromBatchId h = from -> toBatchId h = to ->
  students db !! bh_studentId h = Some student ->
  currentBatchId student = from ->
  is_Some (batches db !! from) ->
  is_Some (batches db !! to) ->
  students db1 = alter (set_currentBatchId to) (bh_studentId h) (students db) ->
  batches db1 = alter increment to (alter decrement from (batches db)) ->
  batchHistories db1 = batchHistories db ++ [h] ->
  List.existsb (has_bh_id (bh_id h)) (batchHistories db) = false ->
  (feeIdFrom h = feeIdTo h \/
   is_Some (List.find (has_fee_id (feeIdTo h)) (fees db1)) /\
   is_Some (List.find (has_fee_id (feeIdFrom h)) (fees db1))) ->
  exists dbR,
    edit_reverse_tx ereq h db1 = inr (Some student, dbR) /\
    students dbR = students db /\ batches dbR = batches db /\
    batchHistories dbR = batchHistories db /\
    fees dbR = reversed_fees h db1 /\ payments dbR = reversed_payments h db1.
Proof.
  intros Hsid Hhid Hf Ht Hs Hcur Hfrom Hto Hst1 Hba1 Hhi1 Hfresh Hfees.
  subst from to.
  assert (students db1 !! ed_studentId ereq
          = Some (set_currentBatchId (toBatchId h) student)) as Hs1
    by (rewrite Hsid, Hst1, lookup_alter_eq, Hs; reflexivity).
  destruct (edit_reverse_tx_ok ereq h db1 _ Hs1) as [dbR Hrev].
  { rewrite Hba1. apply lookup_alter_is_Some, lookup_alter_is_Some. exact Hfrom. }
  { rewrite Hba1. apply lookup_alter_is_Some, lookup_alter_is_Some. exact Hto. }
  { exact Hfees. }
  { rewrite Hhid, Hhi1. apply (find_is_Some _ _ h).
    - apply in_or_app. right. left. reflexivity.
    - unfold has_bh_id. apply String.eqb_refl. }
  destruct (edit_reverse_tx_inr _ _ _ _ _ Hrev)
    as (s & _ & _ & _ & HstR & HbaR & HfeR & HpaR & HhiR).
  exists dbR.
  assert (set_currentBatchId (fromBatchId h) (set_currentBatchId (toBatchId h) student)
          = student) as Hback.
  { destruct student as [i n c]. simpl in Hcur. subst c. reflexivity. }
  rewrite Hback in Hrev.
  split; [exact Hrev |].
  split. { rewrite HstR, Hsid, Hst1. apply (students_restored _ _ _ _ student Hs Hcur). }
  split. { rewrite HbaR, Hba1. apply batches_restored. }
  split. { rewrite HhiR, Hhid, Hhi1. apply histories_restored. exact Hfresh. }
  split; assumption.
Qed.

(** X13: STEP 1 of the edit is the inverse of the switch it reverses.  Run
    on the history row a successful switch has just appended, it brings
    students, batches, payments and history back to their state before the
    switch, and reads back the student as the switch found it.  After a
    TRANSFER or NEW_FEE switch the whole database is exactly as before; after
    a SPLIT switch the fee table is as before except that the old fee keeps
    the transferId stamped on it.  Fee ids are taken to be unique and no
    payment to point at the id the new fee is given. *)
Theorem X13_reversal_undoes_switch req g db r db1 date why :
  switchBatch req g db = (r, db1) ->
  success r = true ->
  fee_ids_unique db ->
  (forall p, In p (payments db) -> payment_feeId p <> gen_feeId g) ->
  exists h student dbR,
    batchHistories db1 = batchHistories db ++ [h] /\
    students db !! sw_studentId req = Some student /\
    edit_reverse_tx (edit_back req g date why) h db1 = inr (Some student, dbR) /\
    students dbR = students db /\
    batches dbR = batches db /\
    payments dbR = payments db /\
    batchHistories dbR = batchHistories db /\
    List.map fee_but_transferId (fees dbR) = List.map fee_but_transferId (fees db) /\
    (sw_feeAction req <> "SPLIT"%string -> dbR = db).
Proof.
  intros Hrun Hok Huniq Hnopay.
  destruct (switchBatch_success _ _ _ _ _ Hrun Hok)
    as (student & toBatch & oldFee & Hval & Hfrom & Hfresh & Hst1 & Hba1 & Hout).
  destruct Hval as (Hs & Hcur & Hto & _ & Hfee).
  destruct (open_fee_found _ _ _ Hfee) as (Hin & Hsid & Hpending).
  assert (is_Some (batches db !! sw_toBatchId req)) as Hto' by eauto.
  assert (forall x, In x (fees db) -> has_fee_id (fee_id oldFee) x = true -> x = oldFee)
    as Honly.
  { intros x Hx Hid. apply has_fee_id_true in Hid.
    exact (fee_id_unique _ _ _ Huniq Hx Hin Hid). }
  destruct Hout as [(Ha & Hfe1 & Hpa1 & Hhi1 & _) | [(Ha & H) | (Ha & H)]].
  - (* TRANSFER *)
    match type of Hhi1 with _ = _ ++ [?row] => set (h := row) in * end.
    destruct (reverse_after_switch (edit_back req g date why) h db db1 student
                (sw_fromBatchId req) (sw_toBatchId req))
      as (dbR & Hrev & HstR & HbaR & HhiR & HfeR & HpaR);
      try reflexivity; try assumption.
    { left. reflexivity. }
    unfold reversed_fees in HfeR. unfold reversed_payments in HpaR.
    simpl in HfeR, HpaR. rewrite String.eqb_refl in HfeR, HpaR.
    exists h, student, dbR.
    assert (fees dbR = fees db) as HF by congruence.
    assert (payments dbR = payments db) as HP by congruence.
    repeat split; try assumption.
    + rewrite HF. reflexivity.
    + intros _. apply DB_ext; assumption.
  - (* NEW_FEE *)
    cbv zeta in H. destruct H as (Hff & Hfe1 & Hpa1 & Hhi1 & _).
    match type of Hhi1 with _ = _ ++ [?row] => set (h := row) in * end.
    match type of Hfe1 with _ = updateWhere _ _ (_ ++ [?c]) => set (created := c) in * end.
    assert (fee_id oldFee <> gen_feeId g) as Hne.
    { pose proof (existsb_false_In _ _ _ Hff Hin) as E. apply has_fee_id_false in E.
      exact E. }
    destruct (reverse_after_switch (edit_back req g date why) h db db1 student
                (sw_fromBatchId req) (sw_toBatchId req))
      as (dbR & Hrev & HstR & HbaR & HhiR & HfeR & HpaR);
      try reflexivity; try assumption.
    { right. simpl. rewrite Hfe1. split.
      - apply (find_is_Some _ _ created);
          [apply created_fee_survives; assumption | apply has_fee_id_true; reflexivity].
      - apply (find_is_Some _ _ (set_fee_status CANCELLED oldFee));
          [apply updated_fee_present; assumption | apply has_fee_id_true; reflexivity]. }
    unfold reversed_fees in HfeR. unfold reversed_payments in HpaR.
    simpl in HfeR, HpaR.
    assert (String.eqb (fee_id oldFee) (gen_feeId g) = false) as Hneb
      by (apply String.eqb_neq; exact Hne).
    rewrite Hneb in HfeR, HpaR.
    assert (fees dbR = fees db) as HF.
    { rewrite HfeR, Hfe1.
      rewrite (created_fee_deleted (fee_id oldFee) (gen_feeId g)
                 (set_fee_status CANCELLED) created (fees db));
        [| reflexivity | reflexivity | exact Hff | exists oldFee; split; [exact Hin | reflexivity]].
      rewrite updateWhere_twice by reflexivity.
      apply updateWhere_id. intros x Hx Hid. rewrite (Honly x Hx Hid).
      destruct oldFee. simpl in Hpending. subst. reflexivity. }
    assert (payments dbR = payments db) as HP.
    { rewrite HpaR, Hpa1. apply payments_restored.
      - intros p _ Hsel. unfold switch_NEW_FEE_moved in Hsel.
        apply andb_true_iff in Hsel. destruct Hsel as [Hsel _].
        apply andb_true_iff in Hsel. destruct Hsel as [_ Hsel].
        apply String.eqb_eq in Hsel. exact Hsel.
      - exact Hnopay.
      - intros p Hsel. unfold switch_NEW_FEE_moved in Hsel.
        apply andb_true_iff in Hsel. destruct Hsel as [_ Hsel]. exact Hsel. }
    exists h, student, dbR.
    repeat split; try assumption.
    + rewrite HF. reflexivity.
    + intros _. apply DB_ext; assumption.
  - (* SPLIT *)
    cbv zeta in H. destruct H as (_ & Hff & Hfe1 & Hpa1 & Hhi1 & _).
    match type of Hhi1 with _ = _ ++ [?row] => set (h := row) in * end.
    match type of Hfe1 with _ = updateWhere _ ?c (_ ++ [?n]) =>
      set (close := c) in *; set (created := n) in * end.
    assert (fee_id oldFee <> gen_feeId g) as Hne.
    { pose proof (existsb_false_In _ _ _ Hff Hin) as E. apply has_fee_id_false in E.
      exact E. }
    destruct (reverse_after_switch (edit_back req g date why) h db db1 student
                (sw_fromBatchId req) (sw_toBatchId req))
      as (dbR & Hrev & HstR & HbaR & HhiR & HfeR & HpaR);
      try reflexivity; try assumption.
    { right. simpl. rewrite Hfe1. split.
      - apply (find_is_Some _ _ created);
          [apply created_fee_survives; assumption | apply has_fee_id_true; reflexivity].
      - apply (find_is_Some _ _ (close oldFee));
          [apply updated_fee_present; assumption | apply has_fee_id_true; reflexivity]. }
    unfold reversed_fees in HfeR. unfold reversed_payments in HpaR.
    simpl in HfeR, HpaR.
    assert (String.eqb (fee_id oldFee) (gen_feeId g) = false) as Hneb
      by (apply String.eqb_neq; exact Hne).
    rewrite Hneb in HfeR, HpaR.
    assert (List.map fee_but_transferId (fees dbR) = List.map fee_but_transferId (fees db))
      as HF.
    { rewrite HfeR, Hfe1.
      rewrite (created_fee_deleted (fee_id oldFee) (gen_feeId g) close created (fees db));
        [| reflexivity | reflexivity | exact Hff | exists oldFee; split; [exact Hin | reflexivity]].
      rewrite updateWhere_twice by reflexivity.
      unfold updateWhere. rewrite List.map_map. apply List.map_ext_in. intros x Hx.
      destruct (has_fee_id (fee_id oldFee) x) eqn:Hid; [| reflexivity].
      rewrite (Honly x Hx Hid). unfold fee_but_transferId. simpl.
      rewrite Hpending. reflexivity. }
    assert (payments dbR = payments db) as HP.
    { rewrite HpaR, Hpa1. apply updateWhere_id. intros p Hp Hsel.
      apply andb_true_iff in Hsel. destruct Hsel as [Hsel _].
      apply String.eqb_eq in Hsel. exfalso. exact (Hnopay p Hp Hsel). }
    exists h, student, dbR.
    repeat split; try assumption.
    intros Hns. contradiction.
Qed.

Lemma X13_reversal_undoes_switch_witness :
  edit_reverse_tx (edit_back (Ex.switch_req "B2" "NEW_FEE") Ex.gen1 "2025-01-12" "back")
    Ex.H1_new_fee Ex.db1_new_fee
  = inr (Some Ex.S1, Ex.db0).
Proof.
  destruct (X13_reversal_undoes_switch (Ex.switch_req "B2" "NEW_FEE") Ex.gen1 Ex.db0
              (fst (switchBatch (Ex.switch_req "B2" "NEW_FEE") Ex.gen1 Ex.db0))
              Ex.db1_new_fee "2025-01-12" "back")
    as (h & student & dbR & Hh & Hs & Hrev & _ & _ & _ & _ & _ & Hdb).
  - apply surjective_pairing.
  - vm_compute. reflexivity.
  - unfold fee_ids_unique. simpl. constructor; [intros [] | constructor].
  - intros p [<- | [<- | []]]; discriminate.
  - vm_compute in Hh. injection Hh as <-.
    vm_compute in Hs. injection Hs as <-.
    rewrite <- (Hdb ltac:(discriminate)). exact Hrev.
Defined.

(** ** Open fees are neither lost nor multiplied *)

Local Open Scope nat_scope.

Lemma pending_after_update (p : Fee -> bool) (old : Fee) (f : Fee -> Fee) (l : list Fee) :
  List.NoDup (List.map fee_id l) ->
  In old l ->
  length (List.filter p (updateWhere (has_fee_id (fee_id old)) f l))
  + (if p old then 1 else 0)
  = length (List.filter p l) + (if p (f old) then 1 else 0).
Proof.
  induction l as [| a l IH]; intros Hnd Hin; [destruct Hin |].
  pose proof Hnd as Hnd0.
  simpl in Hnd. apply List.NoDup_cons_iff in Hnd. destruct Hnd as [Hnotin Hnd].
  simpl. destruct (has_fee_id (fee_id old) a) eqn:Hid.
  - apply has_fee_id_true in Hid.
    assert (a = old) as ->
      by (apply (fee_id_unique (a :: l) a old Hnd0); [left; reflexivity | exact Hin | exact Hid]).
    assert (updateWhere (has_fee_id (fee_id old)) f l = l) as ->.
    { apply updateWhere_id. intros x Hx Hsel. exfalso. apply Hnotin.
      apply has_fee_id_true in Hsel. rewrite <- Hsel. apply in_map. exact Hx. }
    destruct (p old), (p (f old)); simpl; lia.
  - destruct Hin as [-> | Hin].
    + apply has_fee_id_false in Hid. contradiction.
    + specialize (IH Hnd Hin). destruct (p a); simpl; lia.
Qed.

Lemma pending_after_switch (s : string) (old created : Fee) (close : Fee -> Fee)
    (sid : string) (l : list Fee) :
  List.NoDup (List.map fee_id l) ->
  In old l ->
  fee_studentId old = sid -> fee_status old = PENDING ->
  fee_studentId created = sid -> fee_status created = PENDING ->
  fee_id created <> fee_id old ->
  is_pending_fee_of s (close old) = false ->
  length (List.filter (is_pending_fee_of s)
            (updateWhere (has_fee_id (fee_id old)) close (l ++ [created])))
  = length (List.filter (is_pending_fee_of s) l).
Proof.
  intros Hnd Hin Hsid Hst Hcsid Hcst Hne Hclosed.
  rewrite updateWhere_app, List.filter_app, length_app.
  pose proof (pending_after_update (is_pending_fee_of s) old close l Hnd Hin) as H.
  rewrite Hclosed in H.
  assert (updateWhere (has_fee_id (fee_id old)) close [created] = [created]) as ->.
  { simpl. assert (has_fee_id (fee_id old) created = false) as ->
      by (apply has_fee_id_false; exact Hne). reflexivity. }
  assert (is_pending_fee_of s created = is_pending_fee_of s old) as Hsame.
  { unfold is_pending_fee_of. rewrite Hsid, Hst, Hcsid, Hcst. reflexivity. }
  simpl. rewrite Hsame. destruct (is_pending_fee_of s old); simpl in *; lia.
Qed.

(** X14: where fee ids are unique, a successful switch leaves every
    student with as many PENDING fees as before: TRANSFER touches none, and
    NEW_FEE and SPLIT close the one they found and open one.  A student with
    exactly one open fee still has exactly one. *)
Theorem X14_switch_keeps_pending_fee_count req g db r db' :
  switchBatch req g db = (r, db') ->
  success r = true ->
  fee_ids_unique db ->
  forall s, pending_fees s db' = pending_fees s db.
Proof.
  intros Hrun Hok Huniq s.
  destruct (switchBatch_success _ _ _ _ _ Hrun Hok)
    as (student & toBatch & oldFee & Hval & _ & _ & _ & _ & Hout).
  destruct Hval as (_ & _ & _ & _ & Hfee).
  destruct (open_fee_found _ _ _ Hfee) as (Hin & Hsid & Hpending).
  unfold pending_fees.
  destruct Hout as [(_ & Hfe & _) | [(_ & H) | (_ & H)]].
  - rewrite Hfe. reflexivity.
  - cbv zeta in H. destruct H as (Hff & Hfe & _). rewrite Hfe.
    apply (pending_after_switch s oldFee _ _ (sw_studentId req)); try assumption;
      try reflexivity.
    + pose proof (existsb_false_In _ _ _ Hff Hin) as E. apply has_fee_id_false in E.
      simpl. congruence.
    + unfold is_pending_fee_of. simpl. apply andb_false_r.
  - cbv zeta in H. destruct H as (_ & Hff & Hfe & _). rewrite Hfe.
    apply (pending_after_switch s oldFee _ _ (sw_studentId req)); try assumption;
      try reflexivity.
    + pose proof (existsb_false_In _ _ _ Hff Hin) as E. apply has_fee_id_false in E.
      simpl. congruence.
    + unfold is_pending_fee_of, closed_status. simpl.
      destruct ((balanceAmount oldFee =? 0)%Z || (_ >=? finalFee oldFee)%Z);
        apply andb_false_r.
Qed.

Lemma X14_switch_keeps_pending_fee_count_witness :
  pending_fees "S1" Ex.db0 = 1 /\
  pending_fees "S1" (snd (switchBatch (Ex.switch_req "B2" "SPLIT") Ex.gen1 Ex.db0)) = 1.
Proof.
  split; [vm_compute; reflexivity |].
  rewrite (X14_switch_keeps_pending_fee_count (Ex.switch_req "B2" "SPLIT") Ex.gen1 Ex.db0
             (fst (switchBatch (Ex.switch_req "B2" "SPLIT") Ex.gen1 Ex.db0))
             (snd (switchBatch (Ex.switch_req "B2" "SPLIT") Ex.gen1 Ex.db0))).
  - vm_compute. reflexivity.
  - apply surjective_pairing.
  - vm_compute. reflexivity.
  - unfold fee_ids_unique. simpl. constructor; [intros [] | constructor].
Defined.

Local Close Scope nat_scope.

(** ** The exact SPLIT fee *)

(** X15: in a successful SPLIT switch the max in the adjusted fee never
    clamps: because an overpaid student is rejected beforehand, the new
    fee's finalFee and balanceAmount are exactly the target course fee less
    totalPaid, and they are not negative. *)
Theorem X15_split_fee_is_exact req g db r db' :
  switchBatch req g db = (r, db') ->
  success r = true ->
  sw_feeAction req = "SPLIT"%string ->
  exists toBatch oldFee newFee,
    batches db !! sw_toBatchId req = Some toBatch /\
    fee_findFirst (is_pending_fee_of (sw_studentId req)) db = Some oldFee /\
    In newFee (fees db') /\
    fee_id newFee = gen_feeId g /\
    fee_studentId newFee = sw_studentId req /\
    fee_batchId newFee = sw_toBatchId req /\
    totalCourseFee newFee = baseFee (course toBatch) /\
    finalFee newFee + sumAmounts (fee_payments oldFee db) = baseFee (course toBatch) /\
    balanceAmount newFee = finalFee newFee /\
    0 <= finalFee newFee.
Proof.
  intros Hrun Hok Hact.
  destruct (switchBatch_success _ _ _ _ _ Hrun Hok)
    as (student & toBatch & oldFee & Hval & _ & _ & _ & _ & Hout).
  destruct Hval as (_ & _ & Hto & _ & Hfee).
  destruct (switch_outcome_SPLIT _ _ _ _ _ _ _ _ Hout Hact)
    as (Hpaid & Hfresh & Hfees & _).
  destruct (open_fee_found _ _ _ Hfee) as (Hin & _ & _).
  exists toBatch, oldFee,
    (switch_SPLIT_data req g toBatch (sumAmounts (fee_payments oldFee db))).
  split; [exact Hto |]. split; [exact Hfee |].
  split. { rewrite Hfees. apply created_fee_survives; assumption. }
  simpl. repeat split; lia.
Qed.

Lemma X15_split_fee_is_exact_witness :
  exists newFee,
    In newFee (fees (snd (switchBatch (Ex.switch_req "B2" "SPLIT") Ex.gen1 Ex.db0))) /\
    finalFee newFee + 450 = 800.
Proof.
  destruct (X15_split_fee_is_exact (Ex.switch_req "B2" "SPLIT") Ex.gen1 Ex.db0
              (fst (switchBatch (Ex.switch_req "B2" "SPLIT") Ex.gen1 Ex.db0))
              (snd (switchBatch (Ex.switch_req "B2" "SPLIT") Ex.gen1 Ex.db0)))
    as (toBatch & oldFee & newFee & Hto & Hfee & Hin & _ & _ & _ & _ & Hexact & _).
  - apply surjective_pairing.
  - vm_compute. reflexivity.
  - reflexivity.
  - vm_compute in Hto. injection Hto as <-.
    vm_compute in Hfee. injection Hfee as <-.
    exists newFee. split; [exact Hin |].
    change (sumAmounts (fee_payments Ex.F1 Ex.db0)) with 450 in Hexact.
    exact Hexact.
Defined.

(** ** From a switch to its edit *)

(** X16: when the creation time of the row a successful switch appends is
    later than that of every earlier row of the student, that row is the one
    editBatchSwitch loads as the latest, so an edit naming its id passes the
    "only latest switch can be edited" check. *)
Theorem X16_switch_row_is_latest req g db r db' :
  switchBatch req g db = (r, db') ->
  success r = true ->
  (forall x, In x (batchHistories db) -> bh_studentId x = sw_studentId req ->
             createdAt x < gen_now g) ->
  exists h,
    batchHistories db' = batchHistories db ++ [h] /\
    bh_id h = gen_historyId g /\
    batchHistory_findFirst_latest (sw_studentId req) db' = Some h /\
    not_latest (batchHistory_findFirst_latest (sw_studentId req) db') (gen_historyId g)
    = false.
Proof.
  intros Hrun Hok Hlater.
  destruct (switchBatch_success _ _ _ _ _ Hrun Hok)
    as (student & toBatch & oldFee & _ & _ & _ & _ & _ & Hout).
  destruct (switch_outcome_history _ _ _ _ _ _ _ _ Hout) as (feeTo & mode & Hh & _).
  match type of Hh with _ = _ ++ [?row] => set (h := row) in * end.
  exists h. split; [exact Hh |]. split; [reflexivity |].
  assert (batchHistory_findFirst_latest (sw_studentId req) db' = Some h) as Hlatest.
  { unfold batchHistory_findFirst_latest. rewrite Hh, List.filter_app. simpl.
    rewrite String.eqb_refl, fold_left_app. simpl.
    destruct (fold_left newer _ None) as [b |] eqn:Hfold; [| reflexivity].
    apply fold_newer in Hfold. destruct Hfold as [[[=] | Hb] _].
    apply filter_In in Hb. destruct Hb as [Hb Hsid]. apply String.eqb_eq in Hsid.
    specialize (Hlater b Hb Hsid). unfold newer. simpl.
    assert ((createdAt b <? gen_now g) = true) as -> by lia. reflexivity. }
  split; [exact Hlatest |].
  rewrite Hlatest. simpl. unfold has_bh_id. rewrite String.eqb_refl. reflexivity.
Qed.

Lemma X16_switch_row_is_latest_witness :
  batchHistory_findFirst_latest "S1" Ex.db2
  = Some (mkHistory Ex.gen2 "S1" "B2" "B3" "2025-01-11" "timing" "F1" "F1" TRANSFER).
Proof.
  destruct (X16_switch_row_is_latest Ex.second_switch Ex.gen2 Ex.db1
              (fst (switchBatch Ex.second_switch Ex.gen2 Ex.db1)) Ex.db2)
    as (h & Hh & _ & Hlatest & _).
  - apply surjective_pairing.
  - vm_compute. reflexivity.
  - intros x Hx _. vm_compute in Hx. destruct Hx as [<- | []]. reflexivity.
  - vm_compute in Hh. injection Hh as <-. exact Hlatest.
Defined.

(** ** The fee policies of the edit *)

(** The row an update by id leaves for a fee of the table: same columns but
    for the status, and every row under that id has the new status. *)
Lemma closed_fee_columns (af created : Fee) (st : FeeStatus) (l : list Fee) :
  In af l ->
  (exists closedFee,
     In closedFee (updateWhere (has_fee_id (fee_id af)) (set_fee_status st) (l ++ [created])) /\
     fee_but_status closedFee = fee_but_status af /\
     fee_status closedFee = st) /\
  (forall f, In f (updateWhere (has_fee_id (fee_id af)) (set_fee_status st) (l ++ [created])) ->
             fee_id f = fee_id af -> fee_status f = st).
Proof.
  intros Hin. split.
  - exists (set_fee_status st af). split; [| split; reflexivity].
    apply (updated_fee_present af created (set_fee_status st)). exact Hin.
  - intros f Hf Hid. apply In_updateWhere_inv in Hf. destruct Hf as (x & _ & ->).
    destruct (has_fee_id (fee_id af) x) eqn:Hsel; [reflexivity |].
    apply has_fee_id_false in Hsel. contradiction.
Qed.

(** X17: what a successful edit with NEW_FEE does to fees and payments.
    With the fee found after STEP 1 and totalPaid the sum of the amounts of
    all its payments, the new fee has finalFee = course fee of newToBatchId
    and balanceAmount = max(course fee - totalPaid, 0), and is PENDING.  The
    fee found has status CANCELLED and is otherwise unchanged.  Every
    payment attributed to it, whatever its status and student, now has the
    new fee's id as feeId and is otherwise unchanged; every other payment
    keeps its feeId: none is left on the cancelled fee. *)
Theorem X17_edit_new_fee req g db r db' :
  editBatchSwitch req g db = (r, db') ->
  success r = true ->
  ed_newFeeAction req = "NEW_FEE"%string ->
  exists h toBatch cs db1 activeFee newFee cancelledFee,
    batchHistory_findFirst_latest (ed_studentId req) db = Some h /\
    batches db !! ed_newToBatchId req = Some toBatch /\
    edit_reverse_tx req h db = inr (cs, db1) /\
    fee_findFirst (is_open_fee_of (ed_studentId req)) db1 = Some activeFee /\
    let totalPaid := paid_where (fun _ => true) activeFee db1 in
    In newFee (fees db') /\
    fee_id newFee = gen_feeId g /\
    fee_studentId newFee = ed_studentId req /\
    fee_batchId newFee = ed_newToBatchId req /\
    finalFee newFee = baseFee (course toBatch) /\
    balanceAmount newFee = Z.max (baseFee (course toBatch) - totalPaid) 0 /\
    fee_status newFee = PENDING /\
    In cancelledFee (fees db') /\
    fee_but_status cancelledFee = fee_but_status activeFee /\
    fee_status cancelledFee = CANCELLED /\
    (forall f, In f (fees db') -> fee_id f = fee_id activeFee -> fee_status f = CANCELLED) /\
    length (fees db') = S (length (fees db1)) /\
    (forall p, In p (payments db1) -> payment_feeId p = fee_id activeFee ->
               exists p', In p' (payments db') /\
                          payment_core p' = payment_core p /\
                          payment_feeId p' = gen_feeId g) /\
    (forall p, In p (payments db') -> payment_feeId p <> fee_id activeFee) /\
    List.map payment_core (payments db') = List.map payment_core (payments db1) /\
    List.map payment_feeId (payments db')
    = List.map (fun p => if String.eqb (payment_feeId p) (fee_id activeFee)
                         then gen_feeId g else payment_feeId p) (payments db1).
Proof.
  intros Hrun Hok Hact.
  destruct (editBatchSwitch_success _ _ _ _ _ Hrun Hok)
    as (h & toBatch & cs & db1 & Hlatest & _ & Hto & _ & Hrev & Happ & _).
  destruct (edit_apply_tx_inr _ _ _ _ _ _ _ Happ)
    as (cs' & af & _ & Haf & _ & _ & _ & _ & Hout).
  pose proof (is_open_fee_found _ _ _ Haf) as Hin.
  destruct Hout as [(Ha & _) | [(_ & Hfresh & Hfe & Hpa & _) | [(Ha & _) | (_ & Ha & _)]]];
    try (rewrite Hact in Ha; discriminate); try contradiction.
  assert (fee_id af <> gen_feeId g) as Hne.
  { pose proof (existsb_false_In _ _ _ Hfresh Hin) as E. apply has_fee_id_false in E.
    exact E. }
  destruct (closed_fee_columns af
              (edit_NEW_FEE_data req g toBatch (sumAmounts (fee_payments af db1)))
              CANCELLED (fees db1) Hin) as [(cf & Hcf & Hcols & Hcst) Hall].
  exists h, toBatch, cs, db1, af,
    (edit_NEW_FEE_data req g toBatch (sumAmounts (fee_payments af db1))), cf.
  split; [exact Hlatest |]. split; [exact Hto |]. split; [exact Hrev |].
  split; [exact Haf |]. cbv zeta.
  split. { rewrite Hfe. apply created_fee_survives; assumption. }
  do 4 (split; [reflexivity |]).
  split. { simpl. rewrite sumAmounts_fee_payments. reflexivity. }
  split; [reflexivity |].
  split; [rewrite Hfe; exact Hcf |]. split; [exact Hcols |]. split; [exact Hcst |].
  split; [rewrite Hfe; exact Hall |].
  split. { rewrite Hfe, length_updateWhere, length_app. simpl. lia. }
  split.
  { intros p Hp Hid. exists (set_payment_feeId (gen_feeId g) p).
    split; [| split; reflexivity]. rewrite Hpa.
    pose proof (In_updateWhere (fun p => String.eqb (payment_feeId p) (fee_id af))
                  (set_payment_feeId (gen_feeId g)) (payments db1) p Hp) as H.
    simpl in H. rewrite Hid, String.eqb_refl in H. exact H. }
  split.
  { intros p Hp. rewrite Hpa in Hp. apply In_updateWhere_inv in Hp.
    destruct Hp as (x & _ & ->).
    destruct (String.eqb (payment_feeId x) (fee_id af)) eqn:E.
    + simpl. congruence.
    + apply String.eqb_neq in E. exact E. }
  split. { rewrite Hpa. apply map_updateWhere_invariant. reflexivity. }
  rewrite Hpa. unfold updateWhere. rewrite List.map_map.
  apply List.map_ext. intros p.
  destruct (String.eqb (payment_feeId p) (fee_id af)); reflexivity.
Qed.

Lemma X17_edit_new_fee_witness :
  let db' := snd (editBatchSwitch (Ex.edit_req "H1" "B2" "NEW_FEE") Ex.gen2 Ex.db1) in
  List.map (fun p => (payment_id p, payment_feeId p, amount p, payment_status p))
    (payments Ex.db1)
  = [("P1", "F1", 400, "PAID"); ("P2", "F1", 50, "CANCELLED")]%string /\
  List.map (fun p => (payment_id p, payment_feeId p, amount p, payment_status p))
    (payments db')
  = [("P1", "F3", 400, "PAID"); ("P2", "F3", 50, "CANCELLED")]%string /\
  List.map (fun f => (fee_id f, fee_status f, finalFee f, balanceAmount f)) (fees db')
  = [("F1"%string, CANCELLED, 900, 500); ("F3"%string, PENDING, 800, 350)] /\
  forall p, In p (payments db') -> payment_feeId p <> "F1"%string.
Proof.
  intros db'.
  split; [vm_compute; reflexivity |].
  split; [vm_compute; reflexivity |].
  split; [vm_compute; reflexivity |].
  destruct (X17_edit_new_fee (Ex.edit_req "H1" "B2" "NEW_FEE") Ex.gen2 Ex.db1
              (fst (editBatchSwitch (Ex.edit_req "H1" "B2" "NEW_FEE") Ex.gen2 Ex.db1)) db')
    as (h & toBatch & cs & db1 & af & newFee & cf & Hlatest & _ & Hrev & Haf & H).
  - apply surjective_pairing.
  - vm_compute. reflexivity.
  - reflexivity.
  - vm_compute in Hlatest. injection Hlatest as <-.
    vm_compute in Hrev. injection Hrev as <- <-.
    vm_compute in Haf. injection Haf as <-.
    cbv zeta in H.
    destruct H as (_ & _ & _ & _ & _ & _ & _ & _ & _ & _ & _ & _ & _ & Hnone & _).
    exact Hnone.
Defined.

(** X18: what a successful edit with SPLIT does to fees and payments.  The
    edit has no overpayment check: whatever was paid, the new fee gets
    finalFee = balanceAmount = max(course fee of newToBatchId - totalPaid,
    0), totalPaid being the sum of the amounts of all payments of the fee
    found after STEP 1; that is 0 for a student who paid more than the
    course fee.  The fee found becomes PAID when its balanceAmount is 0 or
    totalPaid reaches its finalFee and INACTIVE otherwise; nothing else of
    it changes, its transferId included.  STEP 2 moves no payment. *)
Theorem X18_edit_split req g db r db' :
  editBatchSwitch req g db = (r, db') ->
  success r = true ->
  ed_newFeeAction req = "SPLIT"%string ->
  exists h toBatch cs db1 activeFee newFee closedFee,
    batchHistory_findFirst_latest (ed_studentId req) db = Some h /\
    batches db !! ed_newToBatchId req = Some toBatch /\
    edit_reverse_tx req h db = inr (cs, db1) /\
    fee_findFirst (is_open_fee_of (ed_studentId req)) db1 = Some activeFee /\
    let totalPaid := paid_where (fun _ => true) activeFee db1 in
    let closed := if (balanceAmount activeFee =? 0) || (totalPaid >=? finalFee activeFee)
                  then PAID else INACTIVE in
    In newFee (fees db') /\
    fee_id newFee = gen_feeId g /\
    fee_studentId newFee = ed_studentId req /\
    fee_batchId newFee = ed_newToBatchId req /\
    finalFee newFee = Z.max (baseFee (course toBatch) - totalPaid) 0 /\
    balanceAmount newFee = finalFee newFee /\
    (baseFee (course toBatch) < totalPaid -> finalFee newFee = 0) /\
    fee_status newFee = PENDING /\
    In closedFee (fees db') /\
    fee_but_status closedFee = fee_but_status activeFee /\
    fee_status closedFee = closed /\
    (forall f, In f (fees db') -> fee_id f = fee_id activeFee -> fee_status f = closed) /\
    length (fees db') = S (length (fees db1)) /\
    payments db' = payments db1.
Proof.
  intros Hrun Hok Hact.
  destruct (editBatchSwitch_success _ _ _ _ _ Hrun Hok)
    as (h & toBatch & cs & db1 & Hlatest & _ & Hto & _ & Hrev & Happ & _).
  destruct (edit_apply_tx_inr _ _ _ _ _ _ _ Happ)
    as (cs' & af & _ & Haf & _ & _ & _ & _ & Hout).
  pose proof (is_open_fee_found _ _ _ Haf) as Hin.
  destruct Hout as [(Ha & _) | [(Ha & _) | [(_ & Hfresh & Hfe & Hpa & _) | (_ & _ & Ha & _)]]];
    try (rewrite Hact in Ha; discriminate); try contradiction.
  destruct (closed_fee_columns af
              (edit_SPLIT_data req g toBatch (sumAmounts (fee_payments af db1)))
              (closed_status af (sumAmounts (fee_payments af db1))) (fees db1) Hin)
    as [(cf & Hcf & Hcols & Hcst) Hall].
  rewrite sumAmounts_fee_payments in Hcst.
  exists h, toBatch, cs, db1, af,
    (edit_SPLIT_data req g toBatch (sumAmounts (fee_payments af db1))), cf.
  split; [exact Hlatest |]. split; [exact Hto |]. split; [exact Hrev |].
  split; [exact Haf |]. cbv zeta.
  split. { rewrite Hfe. apply created_fee_survives; assumption. }
  do 3 (split; [reflexivity |]).
  split. { simpl. rewrite sumAmounts_fee_payments. reflexivity. }
  split; [reflexivity |].
  split. { intros Hover. simpl. rewrite sumAmounts_fee_payments. lia. }
  split; [reflexivity |].
  split; [rewrite Hfe; exact Hcf |]. split; [exact Hcols |]. split; [exact Hcst |].
  split. { intros f Hf Hid. rewrite Hfe in Hf. rewrite <- sumAmounts_fee_payments.
           exact (Hall f Hf Hid). }
  split. { rewrite Hfe, length_updateWhere, length_app. simpl. lia. }
  exact Hpa.
Qed.

Lemma X18_edit_split_witness :
  let db' := snd (editBatchSwitch (Ex.edit_req "H1" "B3" "SPLIT") Ex.gen2 Ex.db1) in
  baseFee (course Ex.B3) = 300 /\
  paid_where (fun _ => true) Ex.F1 Ex.db0 = 450 /\
  List.map (fun f => (fee_id f, fee_status f, finalFee f, balanceAmount f)) (fees db')
  = [("F1"%string, INACTIVE, 900, 500); ("F3"%string, PENDING, 0, 0)] /\
  List.map (fun p => (payment_id p, payment_feeId p)) (payments db')
  = [("P1", "F1"); ("P2", "F1")]%string /\
  exists newFee, In newFee (fees db') /\ fee_id newFee = "F3"%string /\ finalFee newFee = 0.
Proof.
  intros db'.
  split; [reflexivity |].
  split; [vm_compute; reflexivity |].
  split; [vm_compute; reflexivity |].
  split; [vm_compute; reflexivity |].
  destruct (X18_edit_split (Ex.edit_req "H1" "B3" "SPLIT") Ex.gen2 Ex.db1
              (fst (editBatchSwitch (Ex.edit_req "H1" "B3" "SPLIT") Ex.gen2 Ex.db1)) db')
    as (h & toBatch & cs & db1 & af & newFee & cf & Hlatest & Hto & Hrev & Haf & H).
  - apply surjective_pairing.
  - vm_compute. reflexivity.
  - reflexivity.
  - vm_compute in Hlatest. injection Hlatest as <-.
    vm_compute in Hto. injection Hto as <-.
    vm_compute in Hrev. injection Hrev as <- <-.
    vm_compute in Haf. injection Haf as <-.
    cbv zeta in H. destruct H as (Hin & Hid & _ & _ & _ & _ & Hzero & _).
    exists newFee. split; [exact Hin |]. split; [exact Hid |].
    apply Hzero. vm_compute. reflexivity.
Defined.

(** ** The order of the checks of a switch *)

(** X19: switchBatch checks, in this order, that the student exists (404
    "Student not found"), that the student sits in fromBatchId (400 "Current
    batch mismatch"), that the target batch exists (404 "Target batch not
    found"), that it has a free slot (400 "Target batch is full") and that
    the student has a PENDING fee (404 "Old fee record not found"); the
    first check that fails decides the answer, whatever the fee action, and
    nothing is written. *)
Theorem X19_switchBatch_checks_in_order req g db :
  (students db !! sw_studentId req = None ->
   switchBatch req g db = (sendResponse 404 false "Student not found" PayloadNull, db)) /\
  (forall student,
     students db !! sw_studentId req = Some student ->
     currentBatchId student <> sw_fromBatchId req ->
     switchBatch req g db
     = (sendResponse 400 false "Current batch mismatch" PayloadNull, db)) /\
  (forall student,
     students db !! sw_studentId req = Some student ->
     currentBatchId student = sw_fromBatchId req ->
     batches db !! sw_toBatchId req = None ->
     switchBatch req g db
     = (sendResponse 404 false "Target batch not found" PayloadNull, db)) /\
  (forall student toBatch,
     students db !! sw_studentId req = Some student ->
     currentBatchId student = sw_fromBatchId req ->
     batches db !! sw_toBatchId req = Some toBatch ->
     slotLimit toBatch <= currentCount toBatch ->
     switchBatch req g db
     = (sendResponse 400 false "Target batch is full" PayloadNull, db)) /\
  (forall student toBatch,
     students db !! sw_studentId req = Some student ->
     currentBatchId student = sw_fromBatchId req ->
     batches db !! sw_toBatchId req = Some toBatch ->
     currentCount toBatch < slotLimit toBatch ->
     fee_findFirst (is_pending_fee_of (sw_studentId req)) db = None ->
     switchBatch req g db
     = (sendResponse 404 false "Old fee record not found" PayloadNull, db)).
Proof.
  unfold switchBatch, student_findUnique, batch_findUnique, fee_findFirst_include_payments.
  repeat split.
  - intros ->. reflexivity.
  - intros student -> Hne. apply String.eqb_neq in Hne. rewrite Hne. reflexivity.
  - intros student -> ->. rewrite String.eqb_refl. cbn [negb]. intros ->. reflexivity.
  - intros student toBatch -> ->. rewrite String.eqb_refl. cbn [negb]. intros -> Hfull.
    assert ((currentCount toBatch >=? slotLimit toBatch) = true) as -> by lia.
    reflexivity.
  - intros student toBatch -> ->. rewrite String.eqb_refl. cbn [negb]. intros -> Hroom ->.
    assert ((currentCount toBatch >=? slotLimit toBatch) = false) as -> by lia.
    reflexivity.
Qed.

Lemma X19_switchBatch_checks_in_order_witness :
  switchBatch (Ex.switch_req "B2" "SPLIT") Ex.gen1 Ex2.db1_paid
  = (sendResponse 400 false "Current batch mismatch" PayloadNull, Ex2.db1_paid) /\
  switchBatch Ex.second_switch Ex.gen2 Ex2.db1_paid
  = (sendResponse 404 false "Old fee record not found" PayloadNull, Ex2.db1_paid).
Proof.
  destruct (X19_switchBatch_checks_in_order (Ex.switch_req "B2" "SPLIT") Ex.gen1 Ex2.db1_paid)
    as (_ & Hmismatch & _).
  destruct (X19_switchBatch_checks_in_order Ex.second_switch Ex.gen2 Ex2.db1_paid)
    as (_ & _ & _ & _ & Hnofee).
  split.
  - apply (Hmismatch (set_currentBatchId "B2" Ex.S1));
      [vm_compute; reflexivity | discriminate].
  - apply (Hnofee (set_currentBatchId "B2" Ex.S1) Ex.B3);
      [vm_compute; reflexivity | reflexivity | vm_compute; reflexivity
      | vm_compute; reflexivity | vm_compute; reflexivity].
Defined.

(** ** When an edit goes through *)

Lemma tail_ok (sid from to : string) (db : DB) :
  is_Some (students db !! sid) ->
  is_Some (batches db !! from) ->
  is_Some (batches db !! to) ->
  exists db',
    (await _ <- student_update sid (set_currentBatchId to);
     await _ <- batch_update from decrement;
     await _ <- batch_update to increment;
     ret tt) db = inr (tt, db').
Proof.
  intros [s Hs] Hfrom Hto.
  pose proof (student_update_ok sid (set_currentBatchId to) db s Hs) as H1.
  set (d1 := with_students _ db) in H1.
  destruct (batch_update_ok from decrement d1 Hfrom) as [b1 H2].
  set (d2 := with_batches _ d1) in H2.
  destruct (batch_update_ok to increment d2) as [b2 H3].
  { subst d2. simpl. apply lookup_alter_is_Some. exact Hto. }
  eexists.
  eapply bind_ok; [exact H1 |].
  eapply bind_ok; [exact H2 |].
  eapply bind_ok; [exact H3 |]. reflexivity.
Qed.

Lemma edit_apply_tx_known_ok req g toBatch cs db1 activeFee :
  known_action (ed_newFeeAction req) ->
  fee_findFirst (is_open_fee_of (ed_studentId req)) db1 = Some activeFee ->
  is_Some (students db1 !! ed_studentId req) ->
  is_Some (batches db1 !! currentBatchId cs) ->
  is_Some (batches db1 !! ed_newToBatchId req) ->
  List.existsb (has_bh_id (gen_historyId g)) (batchHistories db1) = false ->
  (ed_newFeeAction req <> "TRANSFER"%string ->
   List.existsb (has_fee_id (gen_feeId g)) (fees db1) = false) ->
  exists db2, edit_apply_tx req g toBatch (Some cs) db1 = inr (tt, db2).
Proof.
  intros Hact Hfee Hs Hfrom Hto Hfh Hff.
  pose proof (is_open_fee_found _ _ _ Hfee) as Hin.
  unfold edit_apply_tx.
  destruct Hact as [Ha | [Ha | Ha]].
  - set (row := mkHistory g (ed_studentId req) (currentBatchId cs) (ed_newToBatchId req)
                  (ed_changeDate req) (ed_reason req) (fee_id activeFee) (fee_id activeFee)
                  TRANSFER).
    pose proof (batchHistory_create_ok row db1 Hfh) as H0.
    set (d0 := with_batchHistories _ db1) in H0.
    destruct (tail_ok (ed_studentId req) (currentBatchId cs) (ed_newToBatchId req) d0
                Hs Hfrom Hto) as [db2 Htail].
    exists db2.
    eapply bind_ok; [reflexivity |].
    unfold fee_findFirst_include_payments. rewrite Hfee. cbv zeta. rewrite Ha.
    change (String.eqb "TRANSFER" "TRANSFER") with true.
    change (String.eqb "TRANSFER" "NEW_FEE") with false.
    change (String.eqb "TRANSFER" "SPLIT") with false. cbv iota.
    eapply bind_ok; [eapply bind_ok; [exact H0 | reflexivity] |].
    eapply bind_ok; [reflexivity |].
    eapply bind_ok; [reflexivity |].
    exact Htail.
  - assert (List.existsb (has_fee_id (gen_feeId g)) (fees db1) = false) as Hff'
      by (apply Hff; rewrite Ha; discriminate).
    set (tp := sumAmounts (fee_payments activeFee db1)).
    pose proof (fee_create_ok (edit_NEW_FEE_data req g toBatch tp) db1 Hff') as H0.
    set (d0 := with_fees _ db1) in H0.
    set (d1 := with_payments
                 (updateWhere (fun p => String.eqb (payment_feeId p) (fee_id activeFee))
                    (set_payment_feeId (fee_id (edit_NEW_FEE_data req g toBatch tp)))
                    (payments d0)) d0).
    destruct (fee_update_ok (fee_id activeFee) (set_fee_status CANCELLED) d1) as [u H2].
    { subst d1 d0. simpl. apply find_old_fee_after_create. exact Hin. }
    set (d2 := with_fees _ d1) in H2.
    set (row := mkHistory g (ed_studentId req) (currentBatchId cs) (ed_newToBatchId req)
                  (ed_changeDate req) (ed_reason req) (fee_id activeFee)
                  (fee_id (edit_NEW_FEE_data req g toBatch tp)) NEW_FEE).
    pose proof (batchHistory_create_ok row d2 Hfh) as H3.
    set (d3 := with_batchHistories _ d2) in H3.
    destruct (tail_ok (ed_studentId req) (currentBatchId cs) (ed_newToBatchId req) d3
                Hs Hfrom Hto) as [db2 Htail].
    exists db2.
    eapply bind_ok; [reflexivity |].
    unfold fee_findFirst_include_payments. rewrite Hfee. cbv zeta. rewrite Ha.
    change (String.eqb "NEW_FEE" "TRANSFER") with false.
    change (String.eqb "NEW_FEE" "NEW_FEE") with true.
    change (String.eqb "NEW_FEE" "SPLIT") with false. cbv iota.
    eapply bind_ok; [reflexivity |].
    eapply bind_ok;
      [eapply bind_ok; [exact H0 |];
       eapply bind_ok; [reflexivity |];
       eapply bind_ok; [exact H2 |];
       eapply bind_ok; [exact H3 | reflexivity] |].
    eapply bind_ok; [reflexivity |].
    exact Htail.
  - assert (List.existsb (has_fee_id (gen_feeId g)) (fees db1) = false) as Hff'
      by (apply Hff; rewrite Ha; discriminate).
    set (tp := sumAmounts (fee_payments activeFee db1)).
    pose proof (fee_create_ok (edit_SPLIT_data req g toBatch tp) db1 Hff') as H0.
    set (d0 := with_fees _ db1) in H0.
    destruct (fee_update_ok (fee_id activeFee)
                (set_fee_status (closed_status activeFee tp)) d0) as [u H1].
    { subst d0. simpl. apply find_old_fee_after_create. exact Hin. }
    set (d1 := with_fees _ d0) in H1.
    set (row := mkHistory g (ed_studentId req) (currentBatchId cs) (ed_newToBatchId req)
                  (ed_changeDate req) (ed_reason req) (fee_id activeFee)
                  (fee_id (edit_SPLIT_data req g toBatch tp)) SPLIT).
    pose proof (batchHistory_create_ok row d1 Hfh) as H2.
    set (d2 := with_batchHistories _ d1) in H2.
    destruct (tail_ok (ed_studentId req) (currentBatchId cs) (ed_newToBatchId req) d2
                Hs Hfrom Hto) as [db2 Htail].
    exists db2.
    eapply bind_ok; [reflexivity |].
    unfold fee_findFirst_include_payments. rewrite Hfee. cbv zeta. rewrite Ha.
    change (String.eqb "SPLIT" "TRANSFER") with false.
    change (String.eqb "SPLIT" "NEW_FEE") with false.
    change (String.eqb "SPLIT" "SPLIT") with true. cbv iota.
    eapply bind_ok; [reflexivity |].
    eapply bind_ok; [reflexivity |].
    eapply bind_ok;
      [eapply bind_ok; [exact H0 |];
       eapply bind_ok; [exact H1 |];
       eapply bind_ok; [exact H2 | reflexivity] |].
    exact Htail.
Qed.

Lemma reversed_fees_ids h db f :
  In f (reversed_fees h db) -> exists f0, In f0 (fees db) /\ fee_id f0 = fee_id f.
Proof.
  unfold reversed_fees. destruct (String.eqb (feeIdFrom h) (feeIdTo h)).
  - intros Hin. exists f. split; [exact Hin | reflexivity].
  - intros Hin. apply In_updateWhere_inv in Hin. destruct Hin as (x & Hx & ->).
    apply filter_In in Hx. destruct Hx as [Hx _]. exists x. split; [exact Hx |].
    destruct (has_fee_id (feeIdFrom h) x); reflexivity.
Qed.

Lemma edit_apply_outcome_history req g toBatch cs af db1 db2 :
  edit_apply_outcome req g toBatch cs af db1 db2 ->
  known_action (ed_newFeeAction req) ->
  exists hnew,
    batchHistories db2 = batchHistories db1 ++ [hnew] /\
    bh_id hnew = gen_historyId g /\
    bh_studentId hnew = ed_studentId req /\
    toBatchId hnew = ed_newToBatchId req.
Proof.
  intros [(_ & _ & _ & Hh) | [(_ & _ & _ & _ & Hh) |
          [(_ & _ & _ & _ & Hh) | (Ha & Hb & Hc & _)]]] Hknown.
  - eexists. split; [exact Hh |]. repeat split.
  - eexists. split; [exact Hh |]. repeat split.
  - eexists. split; [exact Hh |]. repeat split.
  - destruct Hknown as [H | [H | H]]; contradiction.
Qed.

(** X20: the edit is committed whenever the edited row is the student's
    latest row, the new target batch exists and has a free slot, the student
    and the two batches of the edited row exist, the fees of the edited row
    exist when it was not a TRANSFER, the student has an ACTIVE or PENDING
    fee once that switch is reversed, the fee action is one of the three and
    the generated keys are fresh.  There is no condition on what was paid,
    for SPLIT either.  The student then sits in newToBatchId, the edited row
    is gone and a row with the generated id has been written.  The answer is
    the 200 when the calls awaited after the commit return; when one of them
    throws it is a 500 carrying the exception, with the same tables. *)
Theorem X20_editBatchSwitch_succeeds req g db h toBatch student activeFee :
  known_action (ed_newFeeAction req) ->
  batchHistory_findFirst_latest (ed_studentId req) db = Some h ->
  bh_id h = ed_batchHistoryId req ->
  batches db !! ed_newToBatchId req = Some toBatch ->
  currentCount toBatch < slotLimit toBatch ->
  students db !! ed_studentId req = Some student ->
  is_Some (batches db !! fromBatchId h) ->
  is_Some (batches db !! toBatchId h) ->
  (feeIdFrom h = feeIdTo h \/
   is_Some (List.find (has_fee_id (feeIdTo h)) (fees db)) /\
   is_Some (List.find (has_fee_id (feeIdFrom h)) (fees db))) ->
  List.find (is_open_fee_of (ed_studentId req)) (reversed_fees h db) = Some activeFee ->
  fresh_history_id g db ->
  (ed_newFeeAction req <> "TRANSFER"%string -> fresh_fee_id g db) ->
  exists db',
    snd (editBatchSwitch req g db) = db' /\
    snd (editBatchSwitch req (quiet g) db) = db' /\
    (exists s', students db' !! ed_studentId req = Some s' /\
                currentBatchId s' = ed_newToBatchId req) /\
    (forall x, In x (batchHistories db') -> bh_id x <> ed_batchHistoryId req) /\
    (exists hnew, In hnew (batchHistories db') /\ bh_id hnew = gen_historyId g /\
                  bh_studentId hnew = ed_studentId req /\
                  toBatchId hnew = ed_newToBatchId req) /\
    (gen_postCommit g = None ->
     fst (editBatchSwitch req g db)
     = sendResponse 200 true "Batch switch edited successfully" PayloadNull) /\
    (forall e, gen_postCommit g = Some e ->
     fst (editBatchSwitch req g db)
     = sendResponse 500 false "Internal Server Error" (PayloadError e)).
Proof.
  intros Hact Hlatest Hid Hto Hroom Hs Hfrom Holdto Hfees Hopen Hfh Hff.
  destruct (edit_reverse_tx_ok req h db student Hs Hfrom Holdto Hfees) as [db1 Hrev].
  { rewrite <- Hid. exact (latest_has_row _ _ _ Hlatest). }
  destruct (edit_reverse_tx_inr _ _ _ _ _ Hrev)
    as (s & Hs' & _ & _ & Hst1 & Hba1 & Hfe1 & _ & Hhi1).
  destruct (edit_apply_tx_known_ok req g toBatch
              (set_currentBatchId (fromBatchId h) student) db1 activeFee Hact)
    as [db2 Happ].
  { unfold fee_findFirst. rewrite Hfe1. exact Hopen. }
  { rewrite Hst1. apply lookup_alter_is_Some. eauto. }
  { rewrite Hba1. simpl. apply lookup_alter_is_Some, lookup_alter_is_Some. exact Hfrom. }
  { rewrite Hba1. apply lookup_alter_is_Some, lookup_alter_is_Some. eauto. }
  { rewrite Hhi1. apply existsb_false_intro. intros x Hx.
    apply filter_In in Hx. destruct Hx as [Hx _].
    unfold has_bh_id. apply String.eqb_neq. exact (Hfh x Hx). }
  { intros Hnt. rewrite Hfe1. apply existsb_false_intro. intros f Hf.
    apply reversed_fees_ids in Hf. destruct Hf as (f0 & Hf0 & Hid0).
    apply has_fee_id_false. rewrite <- Hid0. exact (Hff Hnt f0 Hf0). }
  assert (edit_tx req g h toBatch db = inr (tt, db2)) as Htx
    by (unfold edit_tx; eapply bind_ok; [exact Hrev | exact Happ]).
  pose proof (editBatchSwitch_committed req g db h toBatch db2 Hlatest Hid Hto Hroom Htx)
    as Hrun.
  pose proof (editBatchSwitch_committed req (quiet g) db h toBatch db2 Hlatest Hid Hto
                Hroom Htx) as Hquiet.
  simpl in Hquiet.
  destruct (edit_apply_tx_inr _ _ _ _ _ _ _ Happ)
    as (cs & af & Hcs & _ & _ & _ & Hst2 & _ & Hout).
  destruct (edit_apply_outcome_history _ _ _ _ _ _ _ Hout Hact)
    as (hnew & Hh2 & Hnid & Hnsid & Hnto).
  exists db2.
  split. { rewrite Hrun. destruct (gen_postCommit g); reflexivity. }
  split. { rewrite Hquiet. reflexivity. }
  split.
  { exists (set_currentBatchId (ed_newToBatchId req) (set_currentBatchId (fromBatchId h) s)).
    rewrite Hst2, Hst1, !lookup_alter_eq, Hs'. split; reflexivity. }
  split.
  { intros x Hx. rewrite Hh2, Hhi1 in Hx. apply in_app_or in Hx.
    destruct Hx as [Hx | [<- | []]].
    - apply filter_In in Hx. destruct Hx as [_ Hx].
      apply negb_true_iff in Hx. unfold has_bh_id in Hx.
      apply String.eqb_neq in Hx. exact Hx.
    - rewrite Hnid, <- Hid. intros E.
      apply latest_is_most_recent in Hlatest. destruct Hlatest as (Hin & _).
      exact (Hfh h Hin (eq_sym E)). }
  split.
  { exists hnew. rewrite Hh2. split; [apply in_or_app; right; left; reflexivity |].
    repeat split; assumption. }
  split.
  - intros Hq. rewrite Hrun, Hq. reflexivity.
  - intros e Hq. rewrite Hrun, Hq. reflexivity.
Qed.

Lemma X20_editBatchSwitch_succeeds_witness :
  fst (editBatchSwitch (Ex.edit_req "H1" "B3" "SPLIT") Ex.gen2 Ex.db1_new_fee)
  = sendResponse 200 true "Batch switch edited successfully" PayloadNull /\
  (let run := editBatchSwitch (Ex.edit_req "H1" "B3" "SPLIT") Ex3.gen_cache_down
                Ex.db1_new_fee in
   statusCode (fst run) = 500 /\
   currentBatchId <$> students (snd run) !! "S1"%string = Some "B3"%string /\
   List.map (fun x => (bh_id x, toBatchId x)) (batchHistories (snd run))
   = [("H2", "B3")]%string).
Proof.
  destruct (X20_editBatchSwitch_succeeds (Ex.edit_req "H1" "B3" "SPLIT") Ex.gen2
              Ex.db1_new_fee Ex.H1_new_fee Ex.B3 (set_currentBatchId "B2" Ex.S1) Ex.F1)
    as (db' & _ & _ & _ & _ & _ & Hok & _).
  - right; right. reflexivity.
  - vm_compute. reflexivity.
  - reflexivity.
  - vm_compute. reflexivity.
  - vm_compute. reflexivity.
  - vm_compute. reflexivity.
  - vm_compute. eauto.
  - vm_compute. eauto.
  - right. vm_compute. split; eauto.
  - vm_compute. reflexivity.
  - intros x Hx. vm_compute in Hx. destruct Hx as [<- | []]. discriminate.
  - intros _ f Hf. vm_compute in Hf. destruct Hf as [<- | [<- | []]]; discriminate.
  - split; [apply Hok; reflexivity |]. repeat split; vm_compute; reflexivity.
Defined.

(** ** A switch request sent twice *)

(** X21: once a switch between two different batches has succeeded, the
    same request sent again is rejected with 400 "Current batch mismatch"
    and writes nothing, because the student no longer sits in fromBatchId. *)
Theorem X21_replayed_switch_is_rejected req g g' db r db' :
  switchBatch req g db = (r, db') ->
  success r = true ->
  sw_fromBatchId req <> sw_toBatchId req ->
  switchBatch req g' db'
  = (sendResponse 400 false "Current batch mismatch" PayloadNull, db').
Proof.
  intros Hrun Hok Hne.
  destruct (switchBatch_success _ _ _ _ _ Hrun Hok)
    as (student & toBatch & oldFee & Hval & _ & _ & Hst & _).
  destruct Hval as (Hs & _).
  unfold switchBatch, student_findUnique.
  rewrite Hst, lookup_alter_eq, Hs. simpl.
  assert (String.eqb (sw_toBatchId req) (sw_fromBatchId req) = false) as ->
    by (apply String.eqb_neq; congruence).
  reflexivity.
Qed.

Lemma X21_replayed_switch_is_rejected_witness :
  switchBatch (Ex.switch_req "B2" "TRANSFER") Ex.gen2 Ex.db1
  = (sendResponse 400 false "Current batch mismatch" PayloadNull, Ex.db1).
Proof.
  apply (X21_replayed_switch_is_rejected (Ex.switch_req "B2" "TRANSFER") Ex.gen1 Ex.gen2
           Ex.db0 (fst (switchBatch (Ex.switch_req "B2" "TRANSFER") Ex.gen1 Ex.db0))).
  - apply surjective_pairing.
  - vm_compute. reflexivity.
  - discriminate.
Defined.

(** ** An edit with an unknown fee action, table by table *)





